(** * CodeGuardian: statistics, risk score and fix templates

    A shallow embedding of [src/dashboard/stats_generator.py] and
    [src/ml/fix_generator.py], then of [src/analyzer/code_analyzer.py]
    and of the dashboard endpoint of [main.py].

    Conventions of the embedding.
    - Python [str] values are [string]s of ASCII characters; [str.lower]
      maps [A-Z] to [a-z] and leaves every other character alone.
    - A Python [dict] whose iteration order is observable (the result of
      [collections.Counter], [fix_templates], a template, a fix) is an
      association list in insertion order.
    - A finding is the record of section 3 of the specification: its
      string-valued keys may be absent (hence the [.get(key, default)] of
      the source), and its confidence is a number or a categorical label.
    - Python floats are idealised: the weights and confidences are exact
      rationals ([Q]), the score is a real number ([R]) computed with the
      mathematical [ln], and [round(x, 1)] rounds to the nearest tenth,
      ties to even. *)

From Stdlib Require Import List String Ascii Bool Arith ZArith QArith Lia.
From Stdlib Require Import Reals Qreals Lra.
Import ListNotations.

Local Close Scope Q_scope.
Local Close Scope R_scope.
Local Open Scope nat_scope.
Local Open Scope list_scope.

(* ================================================================== *)
(** ** Python strings *)

Module PyStr.

(** The double-quote character, [chr(34)]. *)
Definition dq : string := String (ascii_of_nat 34) EmptyString.

Definition is_upper (c : ascii) : bool :=
  let n := nat_of_ascii c in (65 <=? n)%nat && (n <=? 90)%nat.

Definition lower_char (c : ascii) : ascii :=
  if is_upper c then ascii_of_nat (nat_of_ascii c + 32) else c.

Definition is_lower (c : ascii) : bool :=
  let n := nat_of_ascii c in (97 <=? n)%nat && (n <=? 122)%nat.

Definition upper_char (c : ascii) : ascii :=
  if is_lower c then ascii_of_nat (nat_of_ascii c - 32) else c.

Fixpoint map_chars (f : ascii -> ascii) (s : string) : string :=
  match s with
  | EmptyString => EmptyString
  | String c s' => String (f c) (map_chars f s')
  end.

(** [s.lower()] and [s.upper()]. *)
Definition lower (s : string) : string := map_chars lower_char s.
Definition upper (s : string) : string := map_chars upper_char s.

(** [sub in s] for two strings: [sub] occurs somewhere in [s]. *)
Fixpoint contains (sub s : string) : bool :=
  if String.prefix sub s then true
  else match s with
       | EmptyString => false
       | String _ s' => contains sub s'
       end.

(** Whitespace in the sense of [str.isspace] on ASCII text; this is also
    what [\s] matches in a [str] pattern. *)
Definition is_space (c : ascii) : bool :=
  let n := nat_of_ascii c in
  ((9 <=? n)%nat && (n <=? 13)%nat) || ((28 <=? n)%nat && (n <=? 32)%nat).

(** [s.lstrip(chars)], [s.rstrip(chars)] and [s.strip(chars)], the set of
    characters given as a predicate. *)
Fixpoint lstrip_by (p : ascii -> bool) (s : string) : string :=
  match s with
  | EmptyString => EmptyString
  | String c s' => if p c then lstrip_by p s' else s
  end.

Fixpoint rstrip_by (p : ascii -> bool) (s : string) : string :=
  match s with
  | EmptyString => EmptyString
  | String c s' =>
      match rstrip_by p s' with
      | EmptyString => if p c then EmptyString else String c EmptyString
      | r => String c r
      end
  end.

Definition strip_by (p : ascii -> bool) (s : string) : string :=
  rstrip_by p (lstrip_by p s).

(** [s.strip()]. *)
Definition strip (s : string) : string := strip_by is_space s.

(** [s.strip(c)] for a one-character string [c]. *)
Definition strip_char (c : ascii) (s : string) : string :=
  strip_by (Ascii.eqb c) s.

(** [s.split(sep)[0]] for a one-character separator: the text before the
    first occurrence of [sep], or all of [s] without one. *)
Fixpoint split_first (sep : ascii) (s : string) : string :=
  match s with
  | EmptyString => EmptyString
  | String c s' =>
      if Ascii.eqb c sep then EmptyString else String c (split_first sep s')
  end.

End PyStr.

(* ================================================================== *)
(** ** Python dictionaries with string keys, in insertion order *)

Module PyDict.
Section Dict.
Context {V : Type}.

Definition dict := list (string * V).

(** [d.get(k)], [None] when the key is absent. *)
Fixpoint get (k : string) (d : dict) : option V :=
  match d with
  | [] => None
  | (k', v) :: d' => if String.eqb k k' then Some v else get k d'
  end.

(** [d.get(k, default)]. *)
Definition get_default (k : string) (default : V) (d : dict) : V :=
  match get k d with Some v => v | None => default end.

(** [k in d]. *)
Definition mem (k : string) (d : dict) : bool :=
  match get k d with Some _ => true | None => false end.

(** [d[k] = v]: an existing key keeps its place, a new key goes last. *)
Fixpoint set (k : string) (v : V) (d : dict) : dict :=
  match d with
  | [] => [(k, v)]
  | (k', v') :: d' =>
      if String.eqb k k' then (k', v) :: d' else (k', v') :: set k v d'
  end.

(** [dict(items)] for a list of pairs. *)
Definition of_items (items : list (string * V)) : dict :=
  fold_left (fun d kv => set (fst kv) (snd kv) d) items [].

Definition keys (d : dict) : list string := map fst d.
Definition values (d : dict) : list V := map snd d.

End Dict.
Arguments dict V : clear implicits.
End PyDict.

(* ================================================================== *)
(** ** Findings and scan reports (specification, section 3) *)

(** The value stored under ['confidence']: a Python number ([int] or
    [float], read as an exact rational) or a categorical label. *)
Inductive conf_value : Type :=
| ConfNum (q : Q)
| ConfLabel (s : string).

(** A finding dictionary.  [None] in a field means that the key is absent
    from the dictionary. *)
Record Finding : Type := mkFinding {
  file_path : option string;
  type : option string;
  risk_level : option string;
  confidence : option conf_value;
  code_snippet : option string
}.

(** [d.get(key, default)] on an optional field. *)
Definition field_get {A : Type} (field : option A) (default : A) : A :=
  match field with Some x => x | None => default end.

(** The Stats dictionary returned by [StatsGenerator.generate]. *)
Record Stats : Type := mkStats {
  total_vulnerabilities : nat;
  risk_distribution : PyDict.dict nat;
  type_distribution : PyDict.dict nat;
  top_vulnerability_types : PyDict.dict nat;
  average_confidence : Q;
  top_vulnerable_files : PyDict.dict nat;
  generated_at : string
}.

(** A stored scan result, as [execute_scan] of [main.py] builds it. *)
Record ScanReport : Type := mkScanReport {
  timestamp : option string;
  vulnerabilities : option (list Finding);
  risk_score : option R
}.

(** The dictionary of lists returned by [generate_trend_data]. *)
Record TrendData : Type := mkTrendData {
  dates : list string;
  critical : list nat;
  high : list nat;
  medium : list nat;
  low : list nat;
  risk_scores : list R
}.

(* ================================================================== *)
(** ** [collections.Counter], [sorted] and [statistics.mean] *)

Module Py.

(** One step of [Counter.update]: [c[x] = c.get(x, 0) + 1]. *)
Definition counter_add (c : PyDict.dict nat) (x : string) : PyDict.dict nat :=
  PyDict.set x (PyDict.get_default x 0 c + 1) c.

(** [collections.Counter(xs)]. *)
Definition Counter (xs : list string) : PyDict.dict nat :=
  fold_left counter_add xs [].

(** [sorted(items, key=lambda x: x[1], reverse=True)]: a stable sort by
    decreasing count, so items of equal count keep their order. *)
Fixpoint insert_desc (x : string * nat) (l : list (string * nat))
  : list (string * nat) :=
  match l with
  | [] => [x]
  | y :: l' => if snd x <? snd y then y :: insert_desc x l' else x :: l
  end.

Definition sorted_by_count_desc (items : list (string * nat))
  : list (string * nat) :=
  fold_right insert_desc [] items.

(** [sum(xs)] over rationals. *)
Definition qsum (xs : list Q) : Q := fold_left Qplus xs 0%Q.

(** [statistics.mean(xs)] for a non-empty [xs]. *)
Definition mean (xs : list Q) : Q :=
  (qsum xs / inject_Z (Z.of_nat (List.length xs)))%Q.

End Py.

(* ================================================================== *)
(** ** [StatsGenerator] *)

Module StatsGenerator.

(** [_empty_stats]; [now] is [datetime.now().isoformat()]. *)
Definition _empty_stats (now : string) : Stats :=
  {| total_vulnerabilities := 0;
     risk_distribution := [];
     type_distribution := [];
     top_vulnerability_types := [];
     average_confidence := 0%Q;
     top_vulnerable_files := [];
     generated_at := now |}.

(** [float(c) if isinstance(c, (int, float)) else 0] for
    [c = v.get('confidence', 0)]. *)
Definition confidence_number (v : Finding) : Q :=
  match field_get (confidence v) (ConfNum 0%Q) with
  | ConfNum q => q
  | ConfLabel _ => 0%Q
  end.

(** [generate]. *)
Definition generate (now : string) (vulnerabilities : list Finding) : Stats :=
  match vulnerabilities with
  | [] => _empty_stats now
  | _ :: _ =>
      let risk_levels :=
        map (fun v => PyStr.lower (field_get (risk_level v) "unknown"%string))
            vulnerabilities in
      let risk_counts := Py.Counter risk_levels in
      let vuln_types :=
        map (fun v => PyStr.lower (field_get (type v) "unknown"%string))
            vulnerabilities in
      let type_counts := Py.Counter vuln_types in
      let top_types := firstn 5 (Py.sorted_by_count_desc type_counts) in
      let confidences := map confidence_number vulnerabilities in
      let avg_confidence :=
        match confidences with [] => 0%Q | _ :: _ => Py.mean confidences end in
      let file_counts :=
        Py.Counter
          (map (fun v => field_get (file_path v) "unknown"%string)
               vulnerabilities) in
      let top_files := firstn 5 (Py.sorted_by_count_desc file_counts) in
      {| total_vulnerabilities := List.length vulnerabilities;
         risk_distribution := risk_counts;
         type_distribution := type_counts;
         top_vulnerability_types := PyDict.of_items top_types;
         average_confidence := avg_confidence;
         top_vulnerable_files := PyDict.of_items top_files;
         generated_at := now |}
  end.

(** The table [risk_weights]. *)
Definition risk_weights : PyDict.dict Q :=
  [ ("critical"%string, 10%Q); ("high"%string, 5%Q); ("medium"%string, 3%Q);
    ("low"%string, 1%Q); ("info"%string, (1 # 2)%Q); ("unknown"%string, 1%Q) ].

(** The weight the loop adds for one finding. *)
Definition finding_weight (vuln : Finding) : Q :=
  let risk_level := PyStr.lower (field_get (risk_level vuln) "unknown"%string) in
  PyDict.get_default risk_level 1%Q risk_weights.

(** The loop of [calculate_risk_score]: [total_weight] starts at 0 and
    every finding adds its weight. *)
Definition total_weight (vulnerabilities : list Finding) : Q :=
  fold_left (fun total vuln => (total + finding_weight vuln)%Q)
            vulnerabilities 0%Q.

Definition max_reasonable_weight : R := 50%R.

(** Rounding a real to the nearest integer, ties to even. *)
Definition round_half_even (x : R) : Z :=
  let f := Int_part x in
  let d := (x - IZR f)%R in
  if Rlt_dec d (1 / 2) then f
  else if Rlt_dec (1 / 2) d then (f + 1)%Z
  else if Z.even f then f else (f + 1)%Z.

(** [round(x, 1)]. *)
Definition round1 (x : R) : R := (IZR (round_half_even (x * 10)) / 10)%R.

(** [normalized_score], from the total weight. *)
Definition normalized_score (total_weight : Q) : R :=
  Rmin 100 (100 * ln (1 + Q2R total_weight / max_reasonable_weight) / ln 2).

(** [calculate_risk_score]. *)
Definition calculate_risk_score (vulnerabilities : list Finding) : R :=
  match vulnerabilities with
  | [] => 0%R
  | _ :: _ =>
      let total_weight := total_weight vulnerabilities in
      if Qeq_bool total_weight 0 then 0%R
      else round1 (normalized_score total_weight)
  end.

(** One iteration of the loop of [generate_trend_data]; an id that is not
    in [scan_results] leaves the trend as it is ([continue]). *)
Definition trend_step (scan_results : PyDict.dict ScanReport)
    (trend_data : TrendData) (scan_id : string) : TrendData :=
  match PyDict.get scan_id scan_results with
  | None => trend_data
  | Some result =>
      let timestamp := field_get (timestamp result) ""%string in
      let vulns := field_get (vulnerabilities result) [] in
      let risk_levels :=
        map (fun v => PyStr.lower (field_get (risk_level v) "unknown"%string))
            vulns in
      let risk_counts := Py.Counter risk_levels in
      let risk_score := field_get (risk_score result) 0%R in
      {| dates := dates trend_data ++ [timestamp];
         critical := critical trend_data
                     ++ [PyDict.get_default "critical"%string 0 risk_counts];
         high := high trend_data
                 ++ [PyDict.get_default "high"%string 0 risk_counts];
         medium := medium trend_data
                   ++ [PyDict.get_default "medium"%string 0 risk_counts];
         low := low trend_data
                ++ [PyDict.get_default "low"%string 0 risk_counts];
         risk_scores := risk_scores trend_data ++ [risk_score] |}
  end.

(** [generate_trend_data]. *)
Definition generate_trend_data (scan_ids : list string)
    (scan_results : PyDict.dict ScanReport) : TrendData :=
  fold_left (trend_step scan_results) scan_ids
            {| dates := []; critical := []; high := []; medium := [];
               low := []; risk_scores := [] |}.

End StatsGenerator.

(* ================================================================== *)
(** ** Exceptions *)

(** The exceptions the modelled code can raise. *)
Inductive exn : Type :=
| KeyError | IndexError | ValueError | AttributeError | ReError.

(** A computation that returns a value or raises. *)
Inductive result (A : Type) : Type :=
| Ok (a : A)
| Raise (e : exn).
Arguments Ok {A} a.
Arguments Raise {A} e.

Definition bind {A B : Type} (c : result A) (k : A -> result B) : result B :=
  match c with
  | Ok a => k a
  | Raise e => Raise e
  end.

Notation "x <- c ;; k" := (bind c (fun x => k))
  (at level 61, c at next level, right associativity).

(** [d[k]], which raises [KeyError] for an absent key. *)
Definition getitem {V : Type} (k : string) (d : PyDict.dict V) : result V :=
  match PyDict.get k d with
  | Some v => Ok v
  | None => Raise KeyError
  end.

(** [str(o)] for a string or [None], as [str.format] renders it. *)
Definition py_str (o : option string) : string :=
  match o with
  | Some s => s
  | None => "None"%string
  end.

(** A method call on a value that may be [None]. *)
Definition on_str {A : Type} (f : string -> A) (o : option string) : result A :=
  match o with
  | Some s => Ok (f s)
  | None => Raise AttributeError
  end.

(** [template.format(a, b, ...)] for templates whose replacement fields are all
    the automatic [{}]; [{{] and [}}] are the escaped braces.  A field with
    a name, an index or a format specification is outside this model and is
    reported as [ValueError]. *)
Fixpoint format (template : string) (args : list string) : result string :=
  match template with
  | EmptyString => Ok EmptyString
  | String "{" (String "{" rest) =>
      r <- format rest args ;; Ok (String "{" r)
  | String "}" (String "}" rest) =>
      r <- format rest args ;; Ok (String "}" r)
  | String "{" (String "}" rest) =>
      match args with
      | [] => Raise IndexError
      | a :: args' => r <- format rest args' ;; Ok (a ++ r)%string
      end
  | String "{" _ => Raise ValueError
  | String "}" _ => Raise ValueError
  | String c rest => r <- format rest args ;; Ok (String c r)
  end.

(* ================================================================== *)
(** ** The fragment of Python's [re] that the templates use

    A backtracking matcher in continuation-passing style for literals,
    [.], character classes, [\s \w \d], concatenation, [|], greedy and lazy
    [* + ?], capturing groups, [(?:...)] and the negative lookahead
    [(?!...)], with a parser from the pattern text.  Anything else
    (anchors, counted repeats, back-references, flags) is rejected by
    [compile], and [search] then raises. *)

Module Re.

(** An item of a character class; also what an escape [\c] stands for. *)
Inductive citem : Type :=
| CChar (c : ascii)
| CRange (lo hi : ascii)
| CSpace
| CWord
| CDigit.

(** The characters one position of a pattern accepts. *)
Inductive cset : Type :=
| CDot
| COne (i : citem)
| CClass (neg : bool) (items : list citem).

Definition newline : ascii := ascii_of_nat 10.

Definition is_digit (c : ascii) : bool :=
  let n := nat_of_ascii c in (48 <=? n) && (n <=? 57).

(** [\w] on ASCII text: letters, digits and the underscore. *)
Definition is_word (c : ascii) : bool :=
  PyStr.is_upper c || PyStr.is_lower c || is_digit c || Ascii.eqb c "_".

Definition citem_mem (i : citem) (c : ascii) : bool :=
  match i with
  | CChar c' => Ascii.eqb c c'
  | CRange lo hi =>
      (nat_of_ascii lo <=? nat_of_ascii c) && (nat_of_ascii c <=? nat_of_ascii hi)
  | CSpace => PyStr.is_space c
  | CWord => is_word c
  | CDigit => is_digit c
  end.

(** [.] accepts everything but a newline. *)
Definition cset_mem (cs : cset) (c : ascii) : bool :=
  match cs with
  | CDot => negb (Ascii.eqb c newline)
  | COne i => citem_mem i c
  | CClass neg items => xorb neg (existsb (fun i => citem_mem i c) items)
  end.

Inductive regex : Type :=
| Eps
| Sym (cs : cset)
| Seq (r1 r2 : regex)
| Alt (r1 r2 : regex)
| Star (greedy : bool) (r : regex)
| Group (n : nat) (r : regex)
| NegLook (r : regex).

(** The text captured by each group that took part in the match. *)
Definition captures := list (nat * string).

Fixpoint cap_get (n : nat) (caps : captures) : option string :=
  match caps with
  | [] => None
  | (n', s) :: caps' => if n =? n' then Some s else cap_get n caps'
  end.

Definition cap_set (n : nat) (s : string) (caps : captures) : captures :=
  (n, s) :: caps.

(** The first [n] characters of [s]. *)
Fixpoint take (n : nat) (s : string) : string :=
  match n, s with
  | S n', String c s' => String c (take n' s')
  | _, _ => EmptyString
  end.

Definition orelse {A : Type} (a b : option A) : option A :=
  match a with Some _ => a | None => b end.

(** [matches r s caps k]: match [r] at the front of [s], then hand the
    rest of the text and the captures to the continuation [k]; [None]
    asks the caller to backtrack.  An iteration of a star that consumes
    nothing is cut off, so the [S (length s)] iterations allowed are never
    exhausted. *)
Fixpoint matches (r : regex) (s : string) (caps : captures)
    (k : string -> captures -> option captures) {struct r} : option captures :=
  match r with
  | Eps => k s caps
  | Sym cs =>
      match s with
      | EmptyString => None
      | String c s' => if cset_mem cs c then k s' caps else None
      end
  | Seq r1 r2 => matches r1 s caps (fun s1 caps1 => matches r2 s1 caps1 k)
  | Alt r1 r2 => orelse (matches r1 s caps k) (matches r2 s caps k)
  | Star greedy r1 =>
      (fix loop (fuel : nat) (s : string) (caps : captures) {struct fuel}
         : option captures :=
         match fuel with
         | O => k s caps
         | S fuel' =>
             let again :=
               matches r1 s caps
                 (fun s1 caps1 =>
                    if String.length s1 <? String.length s
                    then loop fuel' s1 caps1 else None) in
             if greedy then orelse again (k s caps)
             else orelse (k s caps) again
         end) (S (String.length s)) s caps
  | Group n r1 =>
      matches r1 s caps
        (fun s1 caps1 =>
           k s1 (cap_set n (take (String.length s - String.length s1) s) caps1))
  | NegLook r1 =>
      match matches r1 s caps (fun _ caps1 => Some caps1) with
      | Some _ => None
      | None => k s caps
      end
  end.

(** The leftmost match of [r] in [s]. *)
Fixpoint search_from (r : regex) (s : string) : option captures :=
  match matches r s [] (fun _ caps => Some caps) with
  | Some caps => Some caps
  | None =>
      match s with
      | EmptyString => None
      | String _ s' => search_from r s'
      end
  end.

(** *** The parser *)

Definition is_alnum (c : ascii) : bool :=
  PyStr.is_upper c || PyStr.is_lower c || is_digit c.

(** What [\c] stands for. *)
Definition escape (c : ascii) : option citem :=
  if Ascii.eqb c "s" then Some CSpace
  else if Ascii.eqb c "w" then Some CWord
  else if Ascii.eqb c "d" then Some CDigit
  else if Ascii.eqb c "n" then Some (CChar newline)
  else if Ascii.eqb c "t" then Some (CChar (ascii_of_nat 9))
  else if Ascii.eqb c "r" then Some (CChar (ascii_of_nat 13))
  else if is_alnum c then None
  else Some (CChar c).

(** The items of a character class, after the opening bracket. *)
Fixpoint parse_class (s : string) : option (list citem * string) :=
  match s with
  | EmptyString => None
  | String "]" rest => Some ([], rest)
  | String "\" (String c rest) =>
      match escape c, parse_class rest with
      | Some e, Some (items, rest') => Some (e :: items, rest')
      | _, _ => None
      end
  | String "\" EmptyString => None
  | String lo (String "-" (String hi rest)) =>
      if Ascii.eqb hi "]" then Some ([CChar lo; CChar "-"], rest)
      else match parse_class rest with
           | Some (items, rest') => Some (CRange lo hi :: items, rest')
           | None => None
           end
  | String c rest =>
      match parse_class rest with
      | Some (items, rest') => Some (CChar c :: items, rest')
      | None => None
      end
  end.

(** The repeat that follows an atom, applied to it. *)
Definition parse_repeat (r : regex) (s : string) : regex * string :=
  match s with
  | String "*" (String "?" rest) => (Star false r, rest)
  | String "*" rest => (Star true r, rest)
  | String "+" (String "?" rest) => (Seq r (Star false r), rest)
  | String "+" rest => (Seq r (Star true r), rest)
  | String "?" (String "?" rest) => (Alt Eps r, rest)
  | String "?" rest => (Alt r Eps, rest)
  | _ => (r, s)
  end.

Definition seq (r1 r2 : regex) : regex :=
  match r2 with Eps => r1 | _ => Seq r1 r2 end.

(** [n] is the number of capturing groups opened so far: groups are
    numbered by their opening parenthesis. *)
Fixpoint parse_alt (fuel : nat) (s : string) (n : nat) {struct fuel}
  : option (regex * string * nat) :=
  match fuel with
  | O => None
  | S fuel' =>
      match parse_seq fuel' s n with
      | Some (r1, String "|" rest, n1) =>
          match parse_alt fuel' rest n1 with
          | Some (r2, rest', n2) => Some (Alt r1 r2, rest', n2)
          | None => None
          end
      | other => other
      end
  end
with parse_seq (fuel : nat) (s : string) (n : nat) {struct fuel}
  : option (regex * string * nat) :=
  match fuel with
  | O => None
  | S fuel' =>
      match s with
      | EmptyString => Some (Eps, s, n)
      | String "|" _ => Some (Eps, s, n)
      | String ")" _ => Some (Eps, s, n)
      | _ =>
          match parse_atom fuel' s n with
          | Some (a, rest, n1) =>
              let (piece, rest1) := parse_repeat a rest in
              match parse_seq fuel' rest1 n1 with
              | Some (r, rest2, n2) => Some (seq piece r, rest2, n2)
              | None => None
              end
          | None => None
          end
      end
  end
with parse_atom (fuel : nat) (s : string) (n : nat) {struct fuel}
  : option (regex * string * nat) :=
  match fuel with
  | O => None
  | S fuel' =>
      match s with
      | String "(" (String "?" (String "!" rest)) =>
          match parse_alt fuel' rest n with
          | Some (r, String ")" rest', n1) => Some (NegLook r, rest', n1)
          | _ => None
          end
      | String "(" (String "?" (String ":" rest)) =>
          match parse_alt fuel' rest n with
          | Some (r, String ")" rest', n1) => Some (r, rest', n1)
          | _ => None
          end
      | String "(" (String "?" _) => None
      | String "(" rest =>
          match parse_alt fuel' rest (S n) with
          | Some (r, String ")" rest', n1) => Some (Group (S n) r, rest', n1)
          | _ => None
          end
      | String "[" (String "^" rest) =>
          match parse_class rest with
          | Some (items, rest') => Some (Sym (CClass true items), rest', n)
          | None => None
          end
      | String "[" rest =>
          match parse_class rest with
          | Some (items, rest') => Some (Sym (CClass false items), rest', n)
          | None => None
          end
      | String "." rest => Some (Sym CDot, rest, n)
      | String "\" (String c rest) =>
          match escape c with
          | Some e => Some (Sym (COne e), rest, n)
          | None => None
          end
      | String c rest =>
          if existsb (Ascii.eqb c)
               ["*"; "+"; "?"; "^"; "$"; "{"; "}"; "]"; ")"; "|"; "\"]%char
          then None
          else Some (Sym (COne (CChar c)), rest, n)
      | EmptyString => None
      end
  end.

(** [re.compile]: the syntax tree and the number of capturing groups. *)
Definition compile (pattern : string) : option (regex * nat) :=
  match parse_alt (4 * String.length pattern + 4) pattern 0 with
  | Some (r, EmptyString, n) => Some (r, n)
  | _ => None
  end.

(** A match object. *)
Record re_match : Type := mkMatch {
  ngroups : nat;
  caps : captures
}.

(** [m.group(n)] for [n >= 1]: [None] for a group that took no part in
    the match, [IndexError] for a group the pattern does not have. *)
Definition group (n : nat) (m : re_match) : result (option string) :=
  if n <=? ngroups m then Ok (cap_get n (caps m)) else Raise IndexError.

(** [re.search(pattern, text)]. *)
Definition search (pattern text : string) : result (option re_match) :=
  match compile pattern with
  | None => Raise ReError
  | Some (r, n) =>
      Ok (option_map (fun c => {| ngroups := n; caps := c |}) (search_from r text))
  end.

End Re.

(* ================================================================== *)
(** ** [FixGenerator] *)

Module FixGenerator.

Import PyStr.

(** The line break written [\n] in the source. *)
Definition nl : string := String (ascii_of_nat 10) EmptyString.

(** A fix suggestion and a template are dictionaries of strings. *)
Definition Fix := PyDict.dict string.
Definition Template := PyDict.dict string.

(** The four ['pattern'] entries of [self.fix_templates]. *)
Definition sql_injection_pattern : string :=
  ("cursor\.execute\s*\(\s*[\'" ++ dq ++ "].*?\s*\+\s*(.+?)\s*[\'" ++ dq
    ++ "]\s*\)")%string.

Definition command_injection_pattern : string :=
  ("(os\.system|subprocess\.call|subprocess\.Popen)\s*\(\s*[\'" ++ dq
    ++ "].*?\s*\+\s*(.+?)\s*[\'" ++ dq ++ "]\s*\)")%string.

Definition hardcoded_secrets_pattern : string :=
  ("(\w+)\s*=\s*[\'" ++ dq ++ "]((?!.*\$\{)(?!.*\{\{).+?)[\'" ++ dq ++ "]\s*")%string.

Definition insecure_deserialization_pattern : string :=
  ("pickle\.loads\s*\(\s*(.+?)\s*\)")%string.

(** [self.fix_templates], in the order of the source. *)
Definition fix_templates : PyDict.dict Template :=
  [ ("sql_injection",
     [ ("pattern", sql_injection_pattern);
       ("replacement", "cursor.execute('{}', [{}])");
       ("explanation", "Use parameterized queries to prevent SQL injection.") ]);
    ("command_injection",
     [ ("pattern", command_injection_pattern);
       ("replacement",
        "# SECURITY: Avoid shell commands with user input" ++ nl
          ++ "# Consider using secure alternatives like:" ++ nl
          ++ "# shlex.quote() or dedicated APIs");
       ("explanation", "Avoid shell commands with concatenated user input.") ]);
    ("hardcoded_secrets",
     [ ("pattern", hardcoded_secrets_pattern);
       ("replacement", "{} = os.environ.get('{}', '')");
       ("explanation",
        "Store secrets in environment variables or a secure vault service.") ]);
    ("insecure_deserialization",
     [ ("pattern", insecure_deserialization_pattern);
       ("replacement",
        "# SECURITY: Avoid pickle with untrusted data" ++ nl
          ++ "# Consider JSON or other safer serialization formats");
       ("explanation",
        "Pickle is vulnerable to code execution attacks with untrusted data.") ])
  ]%string.

(** The fallback suggestions of [_generate_type_based_fix]. *)
Definition sql_fix : Fix :=
  [ ("fixed_code",
     "# Use parameterized queries" ++ nl
       ++ "cursor.execute('SELECT * FROM table WHERE field = %s', [user_input])");
    ("explanation", "Use parameterized queries to prevent SQL injection.");
    ("confidence", "low") ]%string.

Definition command_fix : Fix :=
  [ ("fixed_code",
     "# Avoid shell=True and command concatenation" ++ nl
       ++ "import shlex" ++ nl
       ++ "safe_args = [safe_command, shlex.quote(user_input)]" ++ nl
       ++ "subprocess.run(safe_args, shell=False, check=True)");
    ("explanation",
     "Use subprocess with properly quoted arguments and avoid shell=True.");
    ("confidence", "low") ]%string.

Definition xss_fix : Fix :=
  [ ("fixed_code",
     "# Use proper escaping/encoding" ++ nl
       ++ "from html import escape" ++ nl
       ++ "safe_output = escape(user_input)" ++ nl
       ++ "response.write(f'<div>{safe_output}</div>')");
    ("explanation",
     "Always encode/escape user input before rendering in HTML context.");
    ("confidence", "low") ]%string.

Definition path_fix : Fix :=
  [ ("fixed_code",
     "# Validate file paths" ++ nl
       ++ "import os.path" ++ nl
       ++ "safe_path = os.path.normpath(os.path.join(safe_base_dir, user_filename))"
       ++ nl
       ++ "if not safe_path.startswith(safe_base_dir):" ++ nl
       ++ "    raise ValueError('Invalid path')");
    ("explanation",
     "Validate and sanitize file paths to prevent directory traversal.");
    ("confidence", "low") ]%string.

Definition default_fix (code_snippet : string) : Fix :=
  [ ("fixed_code",
     "# Review and fix this vulnerability" ++ nl ++ "# " ++ code_snippet);
    ("explanation", "This requires manual review.");
    ("confidence", "low") ]%string.

(** [_generate_type_based_fix]. *)
Definition _generate_type_based_fix (vulnerability : Finding) : Fix :=
  let vuln_type := lower (field_get (type vulnerability) ""%string) in
  let code_snippet := field_get (code_snippet vulnerability) ""%string in
  if contains "sql" vuln_type then sql_fix
  else if existsb (fun x => contains x vuln_type)
            ["command"; "os.system"; "subprocess"]%string
  then command_fix
  else if contains "xss" vuln_type then xss_fix
  else if contains "path" vuln_type || contains "file" vuln_type then path_fix
  else default_fix code_snippet.

Section WithRe.

(** [re.search] of the Python library. *)
Variable re_search : string -> string -> result (option Re.re_match).

(** The body of the [try] block of [_apply_template]. *)
Definition _apply_template_body (template : Template) (code_snippet : string)
  : result (option Fix) :=
  pattern <- getitem "pattern" template ;;
  replacement_template <- getitem "replacement" template ;;
  explanation <- getitem "explanation" template ;;
  match_ <- re_search pattern code_snippet ;;
  match match_ with
  | None => Ok None
  | Some m =>
      fixed_code <-
        (if PyDict.mem "sql_injection" template then
           let query_parts_0 := split_first "+" code_snippet in
           let static_part :=
             strip_char (ascii_of_nat 34) (strip_char "'" (strip query_parts_0)) in
           g1 <- Re.group 1 m ;;
           param_part <- on_str strip g1 ;;
           format replacement_template [static_part; param_part]
         else if PyDict.mem "command_injection" template then
           Ok replacement_template
         else if PyDict.mem "hardcoded_secrets" template then
           var_name <- Re.group 1 m ;;
           secret_value <- Re.group 2 m ;;
           env_var_name <- on_str upper var_name ;;
           format replacement_template [py_str var_name; env_var_name]
         else
           getitem "replacement" template) ;;
      Ok (Some [ ("fixed_code", fixed_code);
                 ("explanation", explanation);
                 ("confidence", "medium") ]%string)
  end.

(** [_apply_template]: every exception of the body is caught and turned
    into [None]. *)
Definition _apply_template (template : Template) (code_snippet : string)
  : option Fix :=
  match _apply_template_body template code_snippet with
  | Ok r => r
  | Raise _ => None
  end.

(** The truth value of [fix] in [if fix:]. *)
Definition truthy (fix_ : option Fix) : bool :=
  match fix_ with
  | Some (_ :: _) => true
  | _ => false
  end.

(** The loop of [generate_fix] over the templates still to be tried,
    followed by the fallback. *)
Fixpoint try_templates (templates : PyDict.dict Template)
    (vulnerability : Finding) (vuln_type code_snippet : string) : option Fix :=
  match templates with
  | [] => Some (_generate_type_based_fix vulnerability)
  | (template_type, template) :: rest =>
      if contains template_type vuln_type then
        let fix_ := _apply_template template code_snippet in
        if truthy fix_ then fix_
        else try_templates rest vulnerability vuln_type code_snippet
      else try_templates rest vulnerability vuln_type code_snippet
  end.

(** [generate_fix]; the result is [Optional] in the source. *)
Definition generate_fix (vulnerability : Finding) : option Fix :=
  let vuln_type := lower (field_get (type vulnerability) ""%string) in
  let code_snippet := field_get (code_snippet vulnerability) ""%string in
  try_templates fix_templates vulnerability vuln_type code_snippet.

End WithRe.

End FixGenerator.

(* ================================================================== *)
(** ** Vocabulary of the specification *)

Module Spec.

(** The risk level of a finding as the aggregator reads it:
    case-insensitive, a missing level read as [unknown]. *)
Definition level_of (v : Finding) : string :=
  PyStr.lower (field_get (risk_level v) "unknown"%string).

(** The sum of the counts of a distribution. *)
Definition sum_counts (d : PyDict.dict nat) : nat :=
  list_sum (PyDict.values d).

(** The weight table of the specification: [critical=10, high=5,
    medium=3, low=1, info=0.5, unknown=1]; a level outside the table
    weighs like [unknown]. *)
Definition level_weight (level : string) : Q :=
  if String.eqb level "critical" then 10%Q
  else if String.eqb level "high" then 5%Q
  else if String.eqb level "medium" then 3%Q
  else if String.eqb level "low" then 1%Q
  else if String.eqb level "info" then (1 # 2)%Q
  else 1%Q.

(** [totalWeight]: the sum of the weights of the findings. *)
Fixpoint totalWeight (findings : list Finding) : Q :=
  match findings with
  | [] => 0%Q
  | v :: rest => (level_weight (level_of v) + totalWeight rest)%Q
  end.

(** [y] is [x] rounded to one decimal: a whole number of tenths, at most
    half a tenth away from [x]. *)
Definition rounded_to_one_decimal (x y : R) : Prop :=
  (exists n : Z, y = IZR n / 10)%R /\ (Rabs (y - x) <= 1 / 20)%R.

(** [riskScore] as the specification words it. *)
Definition riskScore (findings : list Finding) : R :=
  match findings with
  | [] => 0%R
  | _ :: _ =>
      if Qeq_bool (totalWeight findings) 0 then 0%R
      else StatsGenerator.round1
             (Rmin 100 (100 * ln (1 + Q2R (totalWeight findings) / 50) / ln 2))
  end.

(** The reports of the scan ids that resolve, in the order of the ids. *)
Fixpoint resolved (scan_ids : list string)
    (scan_results : PyDict.dict ScanReport) : list ScanReport :=
  match scan_ids with
  | [] => []
  | scan_id :: rest =>
      match PyDict.get scan_id scan_results with
      | Some report => report :: resolved rest scan_results
      | None => resolved rest scan_results
      end
  end.

(** The number of findings of a report at a given risk level. *)
Definition count_level (level : string) (report : ScanReport) : nat :=
  count_occ string_dec
    (map level_of (field_get (vulnerabilities report) [])) level.

(** The six table keys of [risk_weights]. *)
Definition table_keys : list string :=
  ["critical"; "high"; "medium"; "low"; "info"; "unknown"]%string.

(** A fix suggestion carries the keys [fixed_code], [explanation] and
    [confidence]. *)
Definition has_fix_keys (f : FixGenerator.Fix) : Prop :=
  PyDict.mem "fixed_code" f = true
  /\ PyDict.mem "explanation" f = true
  /\ PyDict.mem "confidence" f = true.

(** The pattern of [template] fails to re-match [code_snippet]. *)
Definition fails_to_rematch
    (re_search : string -> string -> result (option Re.re_match))
    (template : FixGenerator.Template) (code_snippet : string) : Prop :=
  exists pattern : string,
    PyDict.get "pattern" template = Some pattern
    /\ re_search pattern code_snippet = Ok None.

(** Applying [template] to [code_snippet] raises. *)
Definition application_raises
    (re_search : string -> string -> result (option Re.re_match))
    (template : FixGenerator.Template) (code_snippet : string) : Prop :=
  exists e : exn,
    FixGenerator._apply_template_body re_search template code_snippet = Raise e.

(** The five generic suggestions for a snippet. *)
Definition generic_suggestions (code_snippet : string) : list FixGenerator.Fix :=
  [ FixGenerator.sql_fix; FixGenerator.command_fix; FixGenerator.xss_fix;
    FixGenerator.path_fix; FixGenerator.default_fix code_snippet ].

End Spec.

(* ================================================================== *)
(** ** Sample findings *)

Module Sample.

Import PyStr.

Definition finding_of (type_ level snippet : string) : Finding :=
  {| file_path := Some "app/settings.py"%string;
     type := Some type_;
     risk_level := Some level;
     confidence := Some (ConfNum (7 # 10));
     code_snippet := Some snippet |}.

(** The literal-assigned credential of the fixture of
    [tests/test_analyzer.py]. *)
Definition secret_snippet : string :=
  ("password = " ++ dq ++ "hardcoded_secret123" ++ dq)%string.

Definition critical_finding : Finding :=
  finding_of "sql_injection" "critical" "cursor.execute(query)".

Definition high_finding : Finding :=
  finding_of "command_injection" "HIGH" "os.system(cmd)".

Definition low_finding : Finding :=
  finding_of "debug_enabled" "low" "DEBUG = True".

(** A finding whose level is not a key of the weight table. *)
Definition severe_finding : Finding :=
  finding_of "weak_hash" "Severe" "hashlib.md5(data)".

Definition secret_finding : Finding :=
  finding_of "hardcoded_secrets" "medium" secret_snippet.

(** The same finding with its snippet cut before the literal. *)
Definition truncated_secret_finding : Finding :=
  finding_of "hardcoded_secrets" "medium" "password = ".

End Sample.

(* ================================================================== *)
(** ** Further vocabulary for the aggregator *)

From Stdlib Require Import Sorted Permutation.

Module Reading.

(** The vulnerability type of a finding as the aggregator reads it. *)
Definition type_of (v : Finding) : string :=
  PyStr.lower (field_get (type v) "unknown"%string).

(** The file of a finding as the aggregator reads it. *)
Definition file_of (v : Finding) : string :=
  field_get (file_path v) "unknown"%string.

(** [xs] is in order of decreasing count. *)
Definition decreasing (xs : list (string * nat)) : Prop :=
  StronglySorted (fun a b => snd b <= snd a) xs.

(** [top] holds the (at most five) entries of [d] with the largest
    counts, largest first. *)
Definition five_largest (top d : PyDict.dict nat) : Prop :=
  List.length top = Nat.min 5 (List.length d)
  /\ (forall e, In e top -> In e d)
  /\ decreasing top
  /\ (forall e e', In e top -> In e' d -> ~ In e' top -> snd e' <= snd e).

(** The labels of [xs] in the order of their first appearance. *)
Fixpoint first_seen (xs : list string) : list string :=
  match xs with
  | [] => []
  | x :: rest => x :: filter (fun y => negb (String.eqb y x)) (first_seen rest)
  end.

(** The dictionary that gives every label of [xs] its number of
    occurrences, the labels in the order of their first appearance. *)
Definition tally (xs : list string) : PyDict.dict nat :=
  map (fun k => (k, count_occ string_dec xs k)) (first_seen xs).

(** The confidence of a finding as a number: a numeric confidence is
    itself, a categorical label or a missing confidence counts as 0. *)
Definition confidence_read (v : Finding) : Q :=
  match confidence v with
  | Some (ConfNum q) => q
  | Some (ConfLabel _) => 0%Q
  | None => 0%Q
  end.

(** The sum of the confidences so read. *)
Fixpoint confidence_sum (findings : list Finding) : Q :=
  match findings with
  | [] => 0%Q
  | v :: rest => (confidence_read v + confidence_sum rest)%Q
  end.

End Reading.

(* ================================================================== *)
(** ** Further sample findings *)

Module Sample2.

(** A finding with a categorical confidence. *)
Definition label_finding : Finding :=
  {| file_path := Some "app/views.py"%string;
     type := Some "XSS"%string;
     risk_level := Some "Medium"%string;
     confidence := Some (ConfLabel "high");
     code_snippet := Some "response.write(name)"%string |}.

(** A finding whose type is written in capitals. *)
Definition shouting_finding : Finding :=
  {| file_path := Some "db/query.py"%string;
     type := Some "SQL_Injection"%string;
     risk_level := Some "high"%string;
     confidence := Some (ConfNum (9 # 10));
     code_snippet := Some "cursor.execute(q + name)"%string |}.

(** The same type and snippet, reported otherwise. *)
Definition quiet_finding : Finding :=
  {| file_path := None;
     type := Some "sql_injection"%string;
     risk_level := Some "low"%string;
     confidence := None;
     code_snippet := Some "cursor.execute(q + name)"%string |}.

(** A template dictionary that, unlike the registered ones, has a
    [hardcoded_secrets] key of its own. *)
Definition keyed_secret_template : FixGenerator.Template :=
  [ ("pattern", FixGenerator.hardcoded_secrets_pattern);
    ("replacement", "{} = os.environ.get('{}', '')");
    ("explanation", "Store secrets in environment variables.");
    ("hardcoded_secrets", "") ]%string.

(** The same with a pattern that has only one group. *)
Definition one_group_template : FixGenerator.Template :=
  [ ("pattern", "(\w+)\s*=");
    ("replacement", "{} = os.environ.get('{}', '')");
    ("explanation", "Store secrets in environment variables.");
    ("hardcoded_secrets", "") ]%string.

(** A finding dictionary with no key at all. *)
Definition bare_finding : Finding :=
  {| file_path := None; type := None; risk_level := None;
     confidence := None; code_snippet := None |}.

End Sample2.

(* ================================================================== *)
(** ** [CodeAnalyzer]

    [os.path] is the POSIX one.  The directory handed to [find_files] is
    a tree of file and directory names in the order [os.walk] meets them;
    a directory that [os.walk] lists but does not enter (a symbolic link,
    an unreadable directory) is a directory without content. *)

Module CodeAnalyzer.

Import PyStr.

(** [SUPPORTED_EXTENSIONS]. *)
Definition SUPPORTED_EXTENSIONS : PyDict.dict string :=
  [ (".py", "Python"); (".js", "JavaScript"); (".ts", "TypeScript");
    (".java", "Java"); (".cpp", "C++"); (".h", "C/C++ Header"); (".c", "C");
    (".go", "Go"); (".rb", "Ruby"); (".php", "PHP"); (".html", "HTML");
    (".css", "CSS"); (".jsx", "React JSX"); (".tsx", "React TSX");
    (".scala", "Scala"); (".rs", "Rust"); (".swift", "Swift");
    (".kt", "Kotlin"); (".sh", "Shell") ]%string.

(** [s.rfind(c)] for a character [c]: the last index of [c], or -1. *)
Fixpoint rfind_from (c : ascii) (s : string) (i : Z) : Z :=
  match s with
  | EmptyString => (-1)%Z
  | String a s' =>
      let later := rfind_from c s' (i + 1)%Z in
      if (0 <=? later)%Z then later
      else if Ascii.eqb a c then i else (-1)%Z
  end.

Definition rfind (c : ascii) (s : string) : Z := rfind_from c s 0%Z.

(** [s[:n]] and [s[n:]] for [0 <= n]. *)
Fixpoint drop (n : nat) (s : string) : string :=
  match n, s with
  | S n', String _ s' => drop n' s'
  | _, _ => s
  end.

(** The loop of [genericpath._splitext]: the first character of the file
    name that is not a dot settles the split; [fuel] bounds the
    iterations. *)
Fixpoint splitext_loop (fuel : nat) (p : string) (filenameIndex dotIndex : Z)
  : string * string :=
  match fuel with
  | O => (p, EmptyString)
  | S fuel' =>
      if (filenameIndex <? dotIndex)%Z then
        match String.get (Z.to_nat filenameIndex) p with
        | Some "."%char =>
            splitext_loop fuel' p (filenameIndex + 1)%Z dotIndex
        | _ => (Re.take (Z.to_nat dotIndex) p, drop (Z.to_nat dotIndex) p)
        end
      else (p, EmptyString)
  end.

(** [os.path.splitext]. *)
Definition splitext (p : string) : string * string :=
  let sepIndex := rfind "/" p in
  let dotIndex := rfind "." p in
  if (sepIndex <? dotIndex)%Z
  then splitext_loop (String.length p) p (sepIndex + 1)%Z dotIndex
  else (p, EmptyString).

(** [is_supported_file]. *)
Definition is_supported_file (file_path : string) : bool :=
  let ext := snd (splitext file_path) in
  PyDict.mem (lower ext) SUPPORTED_EXTENSIONS.

(** [get_file_language]. *)
Definition get_file_language (file_path : string) : string :=
  let ext := snd (splitext file_path) in
  PyDict.get_default (lower ext) "Unknown"%string SUPPORTED_EXTENSIONS.

(** [exclude_dirs]. *)
Definition exclude_dirs : list string :=
  [ ".git"; ".github"; "node_modules"; "venv"; ".venv";
    "__pycache__"; ".idea"; ".vscode"; "build"; "dist" ]%string.

Definition excluded (d : string) : bool :=
  existsb (String.eqb d) exclude_dirs.

(** [os.path.join(a, b)]. *)
Definition ends_with_slash (s : string) : bool :=
  match String.get (String.length s - 1) s with
  | Some "/"%char => true
  | _ => false
  end.

Definition join (a b : string) : string :=
  match b with
  | String "/" _ => b
  | _ =>
      match a with
      | EmptyString => b
      | _ => if ends_with_slash a then (a ++ b)%string
             else (a ++ "/" ++ b)%string
      end
  end.

(** The content of a directory: its files and its sub-directories. *)
Unset Elimination Schemes.
Inductive fstree : Type :=
| Dir (files : list string) (dirs : list (string * fstree)).
Set Elimination Schemes.

(** [find_files]: [os.walk] goes top-down, and a directory whose name is
    in [exclude_dirs] is removed from [dirs] before it is entered. *)
Fixpoint find_files (directory : string) (tree : fstree) : list string :=
  match tree with
  | Dir files dirs =>
      map (join directory) files
      ++ (fix walk (ds : list (string * fstree)) : list string :=
            match ds with
            | [] => []
            | (d, sub) :: rest =>
                (if excluded d then []
                 else find_files (join directory d) sub)
                ++ walk rest
            end) dirs
  end.

(** [content.split(sep)] for a one-character separator. *)
Fixpoint split (sep : ascii) (s : string) : list string :=
  match s with
  | EmptyString => [EmptyString]
  | String c s' =>
      if Ascii.eqb c sep then EmptyString :: split sep s'
      else match split sep s' with
           | line :: lines => String c line :: lines
           | [] => [String c EmptyString]
           end
  end.

(** [content.count(c)] for a character. *)
Fixpoint count_char (c : ascii) (s : string) : nat :=
  match s with
  | EmptyString => 0
  | String a s' => (if Ascii.eqb a c then 1 else 0) + count_char c s'
  end.

(** [content.count(sub)] for a non-empty [sub]: the occurrences are
    counted from the left and do not overlap; [skip] characters still
    belong to the last occurrence. *)
Fixpoint count_from (sub s : string) (skip : nat) : nat :=
  match s with
  | EmptyString => 0
  | String _ s' =>
      match skip with
      | S k => count_from sub s' k
      | O =>
          if String.prefix sub s
          then 1 + count_from sub s' (String.length sub - 1)
          else count_from sub s' 0
      end
  end.

Definition count (sub s : string) : nat := count_from sub s 0.

(** [line.strip()] is non-empty, the truth value of [if line.strip()]. *)
Definition non_blank (line : string) : bool :=
  negb (String.eqb (strip line) EmptyString).

(** [line.strip().startswith('#')]. *)
Definition is_comment (line : string) : bool :=
  String.prefix "#" (strip line).

(** [re] with the flag [re.DOTALL]: the dot accepts every character. *)
Fixpoint dotall (r : Re.regex) : Re.regex :=
  match r with
  | Re.Sym Re.CDot => Re.Sym (Re.CClass true [])
  | Re.Seq r1 r2 => Re.Seq (dotall r1) (dotall r2)
  | Re.Alt r1 r2 => Re.Alt (dotall r1) (dotall r2)
  | Re.Star g r1 => Re.Star g (dotall r1)
  | Re.Group n r1 => Re.Group n (dotall r1)
  | Re.NegLook r1 => Re.NegLook (dotall r1)
  | other => other
  end.

(** The text the pattern matches at the front of [s], if it does. *)
Definition match_here (r : Re.regex) (s : string) : option string :=
  match Re.matches (Re.Group 0 r) s [] (fun _ caps => Some caps) with
  | Some caps => Re.cap_get 0 caps
  | None => None
  end.

(** [re.findall] for a pattern without groups that does not match the
    empty text: the matches from left to right, without overlap. *)
Fixpoint findall_from (r : Re.regex) (s : string) (skip : nat) : list string :=
  match s with
  | EmptyString => []
  | String _ s' =>
      match skip with
      | S k => findall_from r s' k
      | O =>
          match match_here r s with
          | Some m => m :: findall_from r s' (String.length m - 1)
          | None => findall_from r s' 0
          end
      end
  end.

(** [re.sub(pattern, '', s)] under the same conditions: the text without
    the matches. *)
Fixpoint remove_from (r : Re.regex) (s : string) (skip : nat) : string :=
  match s with
  | EmptyString => EmptyString
  | String c s' =>
      match skip with
      | S k => remove_from r s' k
      | O =>
          match match_here r s with
          | Some m =>
              match m with
              | EmptyString => String c (remove_from r s' 0)
              | _ => remove_from r s' (String.length m - 1)
              end
          | None => String c (remove_from r s' 0)
          end
      end
  end.

(** The compiled pattern, with [re.DOTALL] when [flag] is set. *)
Definition compiled (flag : bool) (pattern : string) : result Re.regex :=
  match Re.compile pattern with
  | Some (r, _) => Ok (if flag then dotall r else r)
  | None => Raise ReError
  end.

Definition findall (flag : bool) (pattern s : string) : result (list string) :=
  r <- compiled flag pattern ;; Ok (findall_from r s 0).

Definition sub_empty (flag : bool) (pattern s : string) : result string :=
  r <- compiled flag pattern ;; Ok (remove_from r s 0).

(** The patterns of the line counters. *)
Definition triple_double : string := (dq ++ dq ++ dq ++ ".*?" ++ dq ++ dq ++ dq)%string.
Definition triple_single : string := "'''.*?'''"%string.
Definition def_pattern : string := "def\s+\w+\s*\("%string.
Definition class_pattern : string := "class\s+\w+\s*"%string.

(** [_count_code_lines]. *)
Definition _count_code_lines (content language : string) : result nat :=
  if String.eqb language "Python" then
    content <- sub_empty true triple_double content ;;
    content <- sub_empty true triple_single content ;;
    let lines :=
      filter (fun line => non_blank line && negb (is_comment line))
             (split Re.newline content) in
    Ok (List.length lines)
  else
    let lines := filter non_blank (split Re.newline content) in
    Ok (List.length lines).

(** [_count_comment_lines]. *)
Definition _count_comment_lines (content language : string) : result nat :=
  if String.eqb language "Python" then
    let single_comments :=
      List.length (filter is_comment (split Re.newline content)) in
    regions1 <- findall true triple_double content ;;
    regions2 <- findall true triple_single content ;;
    let multi_regions := regions1 ++ regions2 in
    let multi_comments :=
      fold_left (fun total region => total + (count_char Re.newline region + 1))
                multi_regions 0 in
    Ok (single_comments + multi_comments)
  else Ok 0.

(** [_estimate_complexity]. *)
Definition _estimate_complexity (content language : string) : result nat :=
  let complexity := 1 in
  if String.eqb language "Python" then
    let complexity := complexity + count "if " content in
    let complexity := complexity + count "elif " content in
    let complexity := complexity + count "else:" content in
    let complexity := complexity + count "for " content in
    let complexity := complexity + count "while " content in
    let complexity := complexity + count "try:" content in
    let complexity := complexity + count "except " content in
    let complexity := complexity + count "with " content in
    defs <- findall false def_pattern content ;;
    let complexity := complexity + List.length defs in
    classes <- findall false class_pattern content ;;
    let complexity := complexity + List.length classes in
    Ok complexity
  else Ok complexity.

(** [content.count('\n') + 1], the [total_lines] of the metadata. *)
Definition total_lines (content : string) : nat :=
  count_char Re.newline content + 1.

End CodeAnalyzer.

(* ================================================================== *)
(** ** Vocabulary for file discovery *)

Module Discovery.

Import CodeAnalyzer.

(** [listed directory tree p]: [p] is the path of a file of [tree], the
    content of [directory], that is reached from the top without going
    through a sub-directory with an excluded name. *)
Inductive listed : string -> fstree -> string -> Prop :=
| listed_here (directory : string) (files : list string)
    (dirs : list (string * fstree)) (f : string) :
    In f files -> listed directory (Dir files dirs) (join directory f)
| listed_below (directory : string) (files : list string)
    (dirs : list (string * fstree)) (d : string) (sub : fstree) (p : string) :
    In (d, sub) dirs ->
    excluded d = false ->
    listed (join directory d) sub p ->
    listed directory (Dir files dirs) p.

End Discovery.

(* ================================================================== *)
(** ** The dashboard endpoint of [main.py] *)

Module Dashboard.

(** An entry of [active_scans], with the two keys the endpoint reads. *)
Record ScanInfo : Type := mkScanInfo {
  status : string;
  requested_by : string
}.

(** The dictionary [get_dashboard_stats] returns. *)
Record DashboardStats : Type := mkDashboardStats {
  overall_stats : Stats;
  trends : TrendData;
  scan_count : nat
}.

(** [user_scan_ids]: the completed scans of the user, in the order of
    [active_scans]. *)
Definition user_scan_ids (username : string)
    (active_scans : PyDict.dict ScanInfo) : list string :=
  map fst
    (filter (fun entry =>
               String.eqb (status (snd entry)) "completed"
               && String.eqb (requested_by (snd entry)) username)
            active_scans).

(** One turn of the loop that fills [all_vulnerabilities]:
    [scan_results[scan_id]["vulnerabilities"]] raises [KeyError] when the
    stored result has no such key. *)
Definition extend_step (scan_results : PyDict.dict ScanReport)
    (acc : result (list Finding)) (scan_id : string) : result (list Finding) :=
  all_vulnerabilities <- acc ;;
  match PyDict.get scan_id scan_results with
  | None => Ok all_vulnerabilities
  | Some report =>
      match vulnerabilities report with
      | Some vulns => Ok (all_vulnerabilities ++ vulns)
      | None => Raise KeyError
      end
  end.

(** [get_dashboard_stats], for the user name of [current_user] and the
    two process-wide dictionaries. *)
Definition get_dashboard_stats (now username : string)
    (active_scans : PyDict.dict ScanInfo)
    (scan_results : PyDict.dict ScanReport) : result DashboardStats :=
  let user_scan_ids := user_scan_ids username active_scans in
  all_vulnerabilities <-
    fold_left (extend_step scan_results) user_scan_ids (Ok []) ;;
  let stats := StatsGenerator.generate now all_vulnerabilities in
  let trend_data :=
    StatsGenerator.generate_trend_data user_scan_ids scan_results in
  Ok {| overall_stats := stats;
        trends := trend_data;
        scan_count := List.length user_scan_ids |}.

(** Sample state: one scan still running, one completed and stored, one
    completed whose result is not stored. *)
Definition sample_active_scans : PyDict.dict ScanInfo :=
  [ ("scan-1", {| status := "in_progress"; requested_by := "demo_user" |});
    ("scan-2", {| status := "completed"; requested_by := "demo_user" |});
    ("scan-3", {| status := "completed"; requested_by := "demo_user" |}) ]%string.

Definition sample_scan_results : PyDict.dict ScanReport :=
  [ ("scan-2"%string,
     {| timestamp := Some "2024-05-01T10:00:00"%string;
        vulnerabilities :=
          Some [Sample.critical_finding; Sample.low_finding;
                Sample.severe_finding];
        risk_score := Some 28%R |}) ].

End Dashboard.

(* ================================================================== *)
(** ** Dictionaries and counters *)

Section DictFacts.
Context {V : Type}.

Lemma get_set_same (k : string) (v : V) (d : PyDict.dict V) :
  PyDict.get k (PyDict.set k v d) = Some v.
Proof.
  induction d as [| [k' v'] d IH]; simpl.
  - now rewrite String.eqb_refl.
  - destruct (String.eqb k k') eqn:E; simpl; rewrite E; auto.
Qed.

Lemma get_set_other (k k0 : string) (v : V) (d : PyDict.dict V) :
  k <> k0 -> PyDict.get k (PyDict.set k0 v d) = PyDict.get k d.
Proof.
  intros Hne.
  assert (Hkk : String.eqb k k0 = false) by now apply String.eqb_neq.
  induction d as [| [k' v'] d IH]; simpl.
  - now rewrite Hkk.
  - destruct (String.eqb k0 k') eqn:E; simpl.
    + apply String.eqb_eq in E; subst k'. now rewrite Hkk.
    + rewrite IH. reflexivity.
Qed.

End DictFacts.

Lemma sum_counts_set (k : string) (d : PyDict.dict nat) :
  Spec.sum_counts (PyDict.set k (PyDict.get_default k 0 d + 1) d)
  = Spec.sum_counts d + 1.
Proof.
  unfold Spec.sum_counts, PyDict.values, PyDict.get_default.
  induction d as [| [k' n] d IH]; simpl.
  - reflexivity.
  - destruct (String.eqb k k') eqn:E; simpl.
    + lia.
    + rewrite IH. lia.
Qed.

(** Every element counted adds one to the sum of the counts. *)
Lemma sum_counts_fold (xs : list string) (c : PyDict.dict nat) :
  Spec.sum_counts (fold_left Py.counter_add xs c)
  = Spec.sum_counts c + List.length xs.
Proof.
  revert c; induction xs as [| x xs IH]; intros c; simpl.
  - lia.
  - rewrite IH. unfold Py.counter_add. rewrite sum_counts_set. lia.
Qed.

Lemma sum_counts_Counter (xs : list string) :
  Spec.sum_counts (Py.Counter xs) = List.length xs.
Proof. unfold Py.Counter. now rewrite sum_counts_fold. Qed.

Lemma get_default_counter_add (k x : string) (c : PyDict.dict nat) :
  PyDict.get_default k 0 (Py.counter_add c x)
  = PyDict.get_default k 0 c + (if string_dec x k then 1 else 0).
Proof.
  unfold Py.counter_add, PyDict.get_default at 1 3.
  destruct (string_dec x k) as [-> | Hne].
  - rewrite get_set_same. reflexivity.
  - rewrite get_set_other by congruence. lia.
Qed.

Lemma get_default_fold (k : string) (xs : list string) (c : PyDict.dict nat) :
  PyDict.get_default k 0 (fold_left Py.counter_add xs c)
  = PyDict.get_default k 0 c + count_occ string_dec xs k.
Proof.
  revert c; induction xs as [| x xs IH]; intros c; simpl.
  - lia.
  - rewrite IH, get_default_counter_add.
    destruct (string_dec x k); lia.
Qed.

(** [Counter(xs).get(k, 0)] is the number of occurrences of [k] in [xs]. *)
Lemma Counter_get (k : string) (xs : list string) :
  PyDict.get_default k 0 (Py.Counter xs) = count_occ string_dec xs k.
Proof. unfold Py.Counter. now rewrite get_default_fold. Qed.

(* ================================================================== *)
(** ** [generate] *)

(** C5. For every finding collection, the counts of [risk_distribution]
    sum to [total_vulnerabilities], and so do the counts of
    [type_distribution]. *)
Theorem generate_distributions_sum (now : string) (findings : list Finding) :
  let stats := StatsGenerator.generate now findings in
  Spec.sum_counts (risk_distribution stats) = total_vulnerabilities stats
  /\ Spec.sum_counts (type_distribution stats) = total_vulnerabilities stats.
Proof.
  destruct findings as [| v vs]; simpl.
  - split; reflexivity.
  - split; rewrite sum_counts_Counter; simpl; now rewrite length_map.
Qed.

(** C6. For the empty finding collection [generate] returns the all-zero
    Stats record (count 0, empty distributions and top lists, average
    confidence 0), and [calculate_risk_score] returns 0. *)
Theorem empty_collection_zero (now : string) :
  StatsGenerator.generate now []
  = {| total_vulnerabilities := 0;
       risk_distribution := [];
       type_distribution := [];
       top_vulnerability_types := [];
       average_confidence := 0%Q;
       top_vulnerable_files := [];
       generated_at := now |}
  /\ StatsGenerator.calculate_risk_score [] = 0%R.
Proof. split; reflexivity. Qed.

(* ================================================================== *)
(** ** [generate_trend_data] *)

Section Trend.
Variable scan_results : PyDict.dict ScanReport.

(** The loop appends, to each of the six lists, one entry per resolved
    report, in order. *)
Lemma trend_fold (scan_ids : list string) (td : TrendData) :
  fold_left (StatsGenerator.trend_step scan_results) scan_ids td
  = let reports := Spec.resolved scan_ids scan_results in
    {| dates := dates td
                ++ map (fun r => field_get (timestamp r) ""%string) reports;
       critical := critical td ++ map (Spec.count_level "critical") reports;
       high := high td ++ map (Spec.count_level "high") reports;
       medium := medium td ++ map (Spec.count_level "medium") reports;
       low := low td ++ map (Spec.count_level "low") reports;
       risk_scores := risk_scores td
                      ++ map (fun r => field_get (risk_score r) 0%R) reports |}.
Proof.
  revert td; induction scan_ids as [| scan_id rest IH]; intros td; simpl.
  - rewrite !app_nil_r. now destruct td.
  - unfold StatsGenerator.trend_step at 2.
    destruct (PyDict.get scan_id scan_results) as [report |].
    + rewrite IH; simpl. rewrite <- !app_assoc; simpl.
      rewrite !Counter_get. reflexivity.
    + apply IH.
Qed.

Lemma resolved_length (scan_ids : list string) :
  List.length (Spec.resolved scan_ids scan_results)
  = List.length (filter (fun scan_id => PyDict.mem scan_id scan_results) scan_ids).
Proof.
  induction scan_ids as [| scan_id rest IH]; simpl; [reflexivity |].
  unfold PyDict.mem.
  destruct (PyDict.get scan_id scan_results); simpl; now rewrite IH.
Qed.

End Trend.

(** C8. For every list of scan ids and every report mapping, the six
    sequences of [generate_trend_data] are the images of one list: the
    reports of the ids that resolve, in the order of the ids.  So the
    six have the same length, the number of ids found in the mapping, and
    an id that is not in the mapping adds nothing and raises nothing. *)
Theorem trend_one_entry_per_resolved_id
    (scan_ids : list string) (scan_results : PyDict.dict ScanReport) :
  let t := StatsGenerator.generate_trend_data scan_ids scan_results in
  let reports := Spec.resolved scan_ids scan_results in
  let n := List.length
             (filter (fun scan_id => PyDict.mem scan_id scan_results) scan_ids) in
  (dates t = map (fun r => field_get (timestamp r) ""%string) reports
   /\ critical t = map (Spec.count_level "critical") reports
   /\ high t = map (Spec.count_level "high") reports
   /\ medium t = map (Spec.count_level "medium") reports
   /\ low t = map (Spec.count_level "low") reports
   /\ risk_scores t = map (fun r => field_get (risk_score r) 0%R) reports)
  /\ (List.length (dates t) = n /\ List.length (critical t) = n
      /\ List.length (high t) = n /\ List.length (medium t) = n
      /\ List.length (low t) = n /\ List.length (risk_scores t) = n).
Proof.
  intros t reports n.
  assert (Ht : t = {| dates := map (fun r => field_get (timestamp r) ""%string) reports;
                      critical := map (Spec.count_level "critical") reports;
                      high := map (Spec.count_level "high") reports;
                      medium := map (Spec.count_level "medium") reports;
                      low := map (Spec.count_level "low") reports;
                      risk_scores := map (fun r => field_get (risk_score r) 0%R) reports |}).
  { subst t; unfold StatsGenerator.generate_trend_data.
    now rewrite trend_fold. }
  assert (Hn : List.length reports = n) by apply resolved_length.
  rewrite Ht; simpl.
  split; [repeat split | rewrite !length_map; repeat split; exact Hn].
Qed.
(* ================================================================== *)
(** ** Rounding *)

Section Rounding.
Import StatsGenerator.
Local Open Scope R_scope.

Lemma Int_part_bounds (x : R) : IZR (Int_part x) <= x < IZR (Int_part x) + 1.
Proof. destruct (base_Int_part x); lra. Qed.

Lemma IZR_lt_succ (a b : Z) : IZR a < IZR b + 1 -> (a <= b)%Z.
Proof.
  intros H. rewrite <- plus_IZR in H. apply lt_IZR in H. lia.
Qed.

Lemma Int_part_unique (x : R) (n : Z) : IZR n <= x < IZR n + 1 -> Int_part x = n.
Proof.
  intros [Hlo Hhi]. destruct (Int_part_bounds x) as [Flo Fhi].
  assert ((Int_part x <= n)%Z) by (apply IZR_lt_succ; lra).
  assert ((n <= Int_part x)%Z) by (apply IZR_lt_succ; lra).
  lia.
Qed.

Lemma Int_part_mono (x y : R) : x <= y -> (Int_part x <= Int_part y)%Z.
Proof.
  intros Hxy. destruct (Int_part_bounds x), (Int_part_bounds y).
  apply IZR_lt_succ; lra.
Qed.

(** The rounded value is the floor or the floor plus one. *)
Lemma round_half_even_cases (x : R) :
  (round_half_even x = Int_part x /\ x - IZR (Int_part x) <= 1 / 2)
  \/ (round_half_even x = (Int_part x + 1)%Z /\ 1 / 2 <= x - IZR (Int_part x)).
Proof.
  unfold round_half_even.
  destruct (Rlt_dec (x - IZR (Int_part x)) (1 / 2)) as [Hlt | Hge].
  - left; split; [reflexivity | lra].
  - destruct (Rlt_dec (1 / 2) (x - IZR (Int_part x))) as [Hgt | Hle].
    + right; split; [reflexivity | lra].
    + destruct (Z.even (Int_part x)).
      * left; split; [reflexivity | lra].
      * right; split; [reflexivity | lra].
Qed.

(** A real strictly within one half of an integer rounds to it. *)
Lemma round_half_even_near (x : R) (n : Z) :
  IZR n - 1 / 2 < x < IZR n + 1 / 2 -> round_half_even x = n.
Proof.
  intros [Hlo Hhi].
  destruct (Int_part_bounds x) as [Flo Fhi].
  destruct (round_half_even_cases x) as [[-> Hd] | [-> Hd]].
  - assert ((Int_part x <= n)%Z) by (apply IZR_lt_succ; lra).
    assert ((n <= Int_part x)%Z) by (apply IZR_lt_succ; lra).
    lia.
  - assert ((Int_part x + 1 <= n)%Z) by (apply IZR_lt_succ; rewrite plus_IZR; lra).
    assert ((n <= Int_part x + 1)%Z) by (apply IZR_lt_succ; rewrite plus_IZR; lra).
    lia.
Qed.

Lemma round_half_even_IZR (n : Z) : round_half_even (IZR n) = n.
Proof. apply round_half_even_near; lra. Qed.

Lemma round_half_even_error (x : R) :
  - (1 / 2) <= IZR (round_half_even x) - x <= 1 / 2.
Proof.
  destruct (Int_part_bounds x) as [Flo Fhi].
  destruct (round_half_even_cases x) as [[-> Hd] | [-> Hd]];
    [| rewrite plus_IZR]; lra.
Qed.

Lemma round_half_even_mono (x y : R) :
  x <= y -> (round_half_even x <= round_half_even y)%Z.
Proof.
  intros Hxy.
  pose proof (Int_part_mono x y Hxy) as Hf.
  destruct (Z.eq_dec (Int_part x) (Int_part y)) as [Heq | Hne].
  - unfold round_half_even. rewrite Heq.
    destruct (Rlt_dec (x - IZR (Int_part y)) (1 / 2));
      destruct (Rlt_dec (y - IZR (Int_part y)) (1 / 2));
      destruct (Rlt_dec (1 / 2) (x - IZR (Int_part y)));
      destruct (Rlt_dec (1 / 2) (y - IZR (Int_part y)));
      destruct (Z.even (Int_part y)); try lia; exfalso; lra.
  - destruct (round_half_even_cases x) as [[-> _] | [-> _]];
      destruct (round_half_even_cases y) as [[-> _] | [-> _]]; lia.
Qed.

Lemma round1_mono (x y : R) : x <= y -> round1 x <= round1 y.
Proof.
  intros Hxy. unfold round1.
  assert (H : (round_half_even (x * 10) <= round_half_even (y * 10))%Z)
    by (apply round_half_even_mono; lra).
  apply IZR_le in H. lra.
Qed.

(** A whole number of tenths is left alone. *)
Lemma round1_tenths (n : Z) : round1 (IZR n / 10) = IZR n / 10.
Proof.
  unfold round1. replace (IZR n / 10 * 10) with (IZR n) by field.
  now rewrite round_half_even_IZR.
Qed.

Lemma round1_0 : round1 0 = 0.
Proof. replace 0 with (IZR 0 / 10) at 1 by lra. rewrite round1_tenths. lra. Qed.

Lemma round1_100 : round1 100 = 100.
Proof. replace 100 with (IZR 1000 / 10) at 1 by lra. rewrite round1_tenths. lra. Qed.

(** [round1] rounds to one decimal. *)
Lemma round1_rounds (x : R) : Spec.rounded_to_one_decimal x (round1 x).
Proof.
  split.
  - now exists (round_half_even (x * 10)).
  - unfold round1. pose proof (round_half_even_error (x * 10)) as H.
    apply Rabs_le. lra.
Qed.

(** The tenth a real rounds to, from strict bounds. *)
Lemma round1_near (x : R) (n : Z) :
  IZR n / 10 - 1 / 20 < x < IZR n / 10 + 1 / 20 -> round1 x = IZR n / 10.
Proof.
  intros H. unfold round1. rewrite (round_half_even_near (x * 10) n); [reflexivity | lra].
Qed.

End Rounding.

(* ================================================================== *)
(** ** [calculate_risk_score] *)

Section RiskScore.
Import StatsGenerator.

(** The table lookup of the source is the table of the specification. *)
Lemma finding_weight_table (v : Finding) :
  finding_weight v = Spec.level_weight (Spec.level_of v).
Proof.
  unfold finding_weight, Spec.level_weight, Spec.level_of.
  unfold PyDict.get_default, risk_weights; simpl.
  repeat match goal with
         | |- context [String.eqb ?a ?b] => destruct (String.eqb a b)
         end; reflexivity.
Qed.

Lemma level_weight_pos (level : string) : (0 < Spec.level_weight level)%Q.
Proof.
  unfold Spec.level_weight.
  repeat match goal with
         | |- context [String.eqb ?a ?b] => destruct (String.eqb a b)
         end; reflexivity.
Qed.

Lemma total_weight_fold (vs : list Finding) (acc : Q) :
  (fold_left (fun total vuln => total + finding_weight vuln) vs acc
   == acc + Spec.totalWeight vs)%Q.
Proof.
  revert acc; induction vs as [| v vs IH]; intros acc; simpl.
  - ring.
  - rewrite IH, finding_weight_table. ring.
Qed.

(** The accumulating loop computes the sum of the weights. *)
Lemma total_weight_sum (vs : list Finding) :
  (total_weight vs == Spec.totalWeight vs)%Q.
Proof. unfold total_weight. rewrite total_weight_fold. ring. Qed.

Lemma totalWeight_nonneg (vs : list Finding) : (0 <= Spec.totalWeight vs)%Q.
Proof.
  induction vs as [| v vs IH]; simpl.
  - apply Qle_refl.
  - pose proof (level_weight_pos (Spec.level_of v)) as Hw.
    apply Qlt_le_weak in Hw.
    replace 0%Q with (0 + 0)%Q by reflexivity. now apply Qplus_le_compat.
Qed.

(** A non-empty collection has a positive total weight: the test
    [total_weight == 0] never succeeds. *)
Lemma totalWeight_pos (v : Finding) (vs : list Finding) :
  (0 < Spec.totalWeight (v :: vs))%Q.
Proof.
  simpl. pose proof (level_weight_pos (Spec.level_of v)) as Hw.
  pose proof (totalWeight_nonneg vs) as Hs.
  replace 0%Q with (0 + 0)%Q by reflexivity. now apply Qplus_lt_le_compat.
Qed.

Lemma Qeq_bool_pos (q : Q) : (0 < q)%Q -> Qeq_bool q 0 = false.
Proof.
  intros Hq. destruct (Qeq_bool q 0) eqn:E; [| reflexivity].
  apply Qeq_bool_eq in E. rewrite E in Hq. now apply Qlt_irrefl in Hq.
Qed.

Local Open Scope R_scope.

Lemma ln_2_pos : 0 < ln 2.
Proof. pose proof ln_lt_2. lra. Qed.

Lemma ln_le_mono (x y : R) : 0 < x -> x <= y -> ln x <= ln y.
Proof.
  intros Hx [Hlt | ->]; [left; now apply ln_increasing | right; reflexivity].
Qed.

Lemma Rmin_mono_r (a x y : R) : x <= y -> Rmin a x <= Rmin a y.
Proof.
  intros Hxy. unfold Rmin.
  destruct (Rle_dec a x), (Rle_dec a y); lra.
Qed.

(** The score before rounding grows with the weight. *)
Lemma normalized_score_mono (a b : Q) :
  (0 <= a)%Q -> (a <= b)%Q -> normalized_score a <= normalized_score b.
Proof.
  intros Ha Hab. unfold normalized_score, max_reasonable_weight.
  apply Qle_Rle in Ha, Hab. rewrite RMicromega.Q2R_0 in Ha.
  apply Rmin_mono_r.
  assert (Hln : ln (1 + Q2R a / 50) <= ln (1 + Q2R b / 50))
    by (apply ln_le_mono; lra).
  pose proof ln_2_pos as H2.
  unfold Rdiv at 1 3. apply Rmult_le_compat_r.
  - left; now apply Rinv_0_lt_compat.
  - lra.
Qed.

Lemma normalized_score_bounds (a : Q) :
  (0 <= a)%Q -> 0 <= normalized_score a <= 100.
Proof.
  intros Ha. unfold normalized_score, max_reasonable_weight.
  apply Qle_Rle in Ha. rewrite RMicromega.Q2R_0 in Ha.
  pose proof ln_2_pos as H2.
  assert (Hln : 0 <= ln (1 + Q2R a / 50))
    by (rewrite <- ln_1; apply ln_le_mono; lra).
  assert (H0 : 0 <= 100 * ln (1 + Q2R a / 50) / ln 2).
  { unfold Rdiv. apply Rmult_le_pos; [lra |].
    left; now apply Rinv_0_lt_compat. }
  unfold Rmin. destruct (Rle_dec 100 (100 * ln (1 + Q2R a / 50) / ln 2)); lra.
Qed.

Lemma normalized_score_Qeq (a b : Q) :
  (a == b)%Q -> normalized_score a = normalized_score b.
Proof. intros H. unfold normalized_score. now rewrite (Qeq_eqR _ _ H). Qed.

(** The score of a non-empty collection. *)
Lemma risk_score_cons (v : Finding) (vs : list Finding) :
  calculate_risk_score (v :: vs)
  = round1 (normalized_score (Spec.totalWeight (v :: vs))).
Proof.
  unfold calculate_risk_score.
  pose proof (total_weight_sum (v :: vs)) as Hs.
  rewrite Qeq_bool_pos by (rewrite Hs; apply totalWeight_pos).
  now rewrite (normalized_score_Qeq _ _ Hs).
Qed.

Lemma risk_score_bounds (vs : list Finding) :
  0 <= calculate_risk_score vs <= 100.
Proof.
  destruct vs as [| v vs].
  - simpl; lra.
  - rewrite risk_score_cons.
    destruct (normalized_score_bounds (Spec.totalWeight (v :: vs))) as [Hlo Hhi].
    { apply totalWeight_nonneg. }
    split.
    + apply Rle_trans with (round1 0); [rewrite round1_0; lra |].
      now apply round1_mono.
    + apply Rle_trans with (round1 100); [| rewrite round1_100; lra].
      now apply round1_mono.
Qed.

(** C1. For every finding collection, [calculate_risk_score] weighs each
    finding by its risk level with the table critical=10, high=5,
    medium=3, low=1, info=0.5, unknown=1, sums the weights to the total
    weight, and returns 0 for the empty collection or a total weight of 0,
    and otherwise [min(100, 100*ln(1 + totalWeight/50)/ln(2))] rounded to
    one decimal. *)
Theorem risk_score_formula (findings : list Finding) :
  let totalWeight := Spec.totalWeight findings in
  let score := calculate_risk_score findings in
  (total_weight findings == totalWeight)%Q
  /\ score = Spec.riskScore findings
  /\ (if (match findings with [] => true | _ :: _ => false end)
         || Qeq_bool totalWeight 0
      then score = 0
      else Spec.rounded_to_one_decimal
             (Rmin 100 (100 * ln (1 + Q2R totalWeight / 50) / ln 2)) score).
Proof.
  intros totalWeight score.
  split; [apply total_weight_sum |].
  destruct findings as [| v vs].
  - split; reflexivity.
  - assert (Hnz : Qeq_bool totalWeight 0 = false)
      by (apply Qeq_bool_pos, totalWeight_pos).
    subst score. rewrite risk_score_cons. fold totalWeight.
    unfold Spec.riskScore. fold totalWeight. rewrite Hnz. simpl orb.
    split; [reflexivity |]. apply round1_rounds.
Qed.

(** C4. The score never decreases when the total weight grows: of two
    finding collections, the one with the larger total weight never has
    the strictly smaller score.  The score always lies in [0, 100]. *)
Theorem risk_score_monotone_bounded (findings1 findings2 : list Finding) :
  ((total_weight findings1 <= total_weight findings2)%Q ->
   calculate_risk_score findings1 <= calculate_risk_score findings2)
  /\ 0 <= calculate_risk_score findings1 <= 100.
Proof.
  split; [| apply risk_score_bounds].
  intros Hle. rewrite !total_weight_sum in Hle.
  destruct findings1 as [| v1 vs1].
  - simpl calculate_risk_score at 1. apply risk_score_bounds.
  - destruct findings2 as [| v2 vs2].
    + exfalso. pose proof (totalWeight_pos v1 vs1) as Hpos.
      apply (Qlt_irrefl 0). eapply Qlt_le_trans; [exact Hpos | exact Hle].
    + rewrite !risk_score_cons. apply round1_mono.
      apply normalized_score_mono; [apply totalWeight_nonneg | exact Hle].
Qed.

Lemma risk_score_monotone_bounded_witness :
  (total_weight [Sample.low_finding] <= total_weight [Sample.high_finding])%Q
  /\ (calculate_risk_score [Sample.low_finding]
      <= calculate_risk_score [Sample.high_finding])%R.
Proof.
  assert (H : (total_weight [Sample.low_finding]
               <= total_weight [Sample.high_finding])%Q)
    by (vm_compute; discriminate).
  split; [exact H |].
  apply (proj1 (risk_score_monotone_bounded
                  [Sample.low_finding] [Sample.high_finding])).
  exact H.
Defined.

Local Close Scope R_scope.

Lemma total_weight_snoc (vulns : list Finding) (v : Finding) :
  total_weight (vulns ++ [v]) = (total_weight vulns + finding_weight v)%Q.
Proof. unfold total_weight. now rewrite fold_left_app. Qed.

Lemma risk_weights_unlisted (level : string) :
  ~ In level Spec.table_keys -> PyDict.get level risk_weights = None.
Proof.
  intros Hnot. unfold risk_weights; simpl.
  repeat match goal with
         | |- context [String.eqb ?a ?b] =>
             let E := fresh "E" in
             destruct (String.eqb a b) eqn:E;
             [apply String.eqb_eq in E; subst; exfalso; apply Hnot; simpl; tauto |]
         end.
  reflexivity.
Qed.

(** C10. The risk level of a finding is lower-cased before the weight
    lookup: a finding adds to the total weight what the table gives for
    its lower-cased level.  A level that, lower-cased, is none of the six
    table keys adds 1, whatever the label is. *)
Theorem unlisted_levels_weigh_one
    (vulns : list Finding) (v : Finding) (level : string) :
  field_get (risk_level v) "unknown"%string = level ->
  (forall w : Q,
      PyDict.get (PyStr.lower level) risk_weights = Some w ->
      total_weight (vulns ++ [v]) = (total_weight vulns + w)%Q)
  /\ (~ In (PyStr.lower level) Spec.table_keys ->
      total_weight (vulns ++ [v]) = (total_weight vulns + 1)%Q).
Proof.
  intros Hlevel. rewrite total_weight_snoc.
  unfold finding_weight, PyDict.get_default. rewrite Hlevel.
  split.
  - intros w Hw. now rewrite Hw.
  - intros Hnot. now rewrite risk_weights_unlisted.
Qed.

Lemma unlisted_levels_weigh_one_witness :
  total_weight ([Sample.low_finding] ++ [Sample.high_finding])
  = (total_weight [Sample.low_finding] + 5)%Q
  /\ total_weight ([Sample.low_finding] ++ [Sample.severe_finding])
     = (total_weight [Sample.low_finding] + 1)%Q.
Proof.
  split.
  - apply (proj1 (unlisted_levels_weigh_one
                    [Sample.low_finding] Sample.high_finding "HIGH" eq_refl)).
    reflexivity.
  - apply (proj2 (unlisted_levels_weigh_one
                    [Sample.low_finding] Sample.severe_finding "Severe" eq_refl)).
    simpl. intros H. repeat destruct H as [H | H]; try discriminate H; exact H.
Defined.

End RiskScore.

(* ================================================================== *)
(** ** One critical finding *)

Section OneCritical.
Import StatsGenerator.
Local Open Scope R_scope.

Lemma ln_pow_IZR (a : Z) (n : nat) :
  (0 < a)%Z -> ln (IZR (a ^ Z.of_nat n)) = IZR (Z.of_nat n) * ln (IZR a).
Proof.
  intros Ha. rewrite <- pow_IZR, ln_pow by now apply IZR_lt.
  now rewrite INR_IZR_INZ.
Qed.

Lemma ln_6_5 : ln (6 / 5) = ln 6 - ln 5.
Proof.
  replace 6 with (6 / 5 * 5) at 2 by field.
  rewrite ln_mult by lra. lra.
Qed.

(** [2^263 < (6/5)^1000] and [(6/5)^1250 < 2^329], on integers. *)
Lemma log2_6_5_bounds : 263 / 1000 < ln (6 / 5) / ln 2 < 329 / 1250.
Proof.
  pose proof ln_2_pos as H2.
  rewrite ln_6_5.
  assert (Hpos : forall a : Z, (0 <? a)%Z = true -> 0 < IZR a)
    by (intros a Ha; apply IZR_lt; now apply Z.ltb_lt).
  assert (Hlo : ln (IZR (2 ^ Z.of_nat 263 * 5 ^ Z.of_nat 1000))
                < ln (IZR (6 ^ Z.of_nat 1000))).
  { apply ln_increasing.
    - apply Hpos. vm_compute. reflexivity.
    - apply IZR_lt, Z.ltb_lt. vm_compute. reflexivity. }
  assert (Hhi : ln (IZR (6 ^ Z.of_nat 1250))
                < ln (IZR (2 ^ Z.of_nat 329 * 5 ^ Z.of_nat 1250))).
  { apply ln_increasing.
    - apply Hpos. vm_compute. reflexivity.
    - apply IZR_lt, Z.ltb_lt. vm_compute. reflexivity. }
  rewrite mult_IZR, ln_mult, !ln_pow_IZR in Hlo, Hhi
    by (try lia; apply Hpos; vm_compute; reflexivity).
  change (Z.of_nat 263) with 263%Z in Hlo.
  change (Z.of_nat 1000) with 1000%Z in Hlo.
  change (Z.of_nat 329) with 329%Z in Hhi.
  change (Z.of_nat 1250) with 1250%Z in Hhi.
  split.
  - apply Rmult_lt_reg_r with (ln 2); [exact H2 |].
    unfold Rdiv at 2. rewrite Rmult_assoc, Rinv_l by lra. lra.
  - apply Rmult_lt_reg_r with (ln 2); [exact H2 |].
    unfold Rdiv at 1. rewrite Rmult_assoc, Rinv_l by lra. lra.
Qed.

Lemma normalized_score_10 (w : Q) :
  (w == 10)%Q -> 263 / 10 < normalized_score w < 2632 / 100.
Proof.
  intros Hw. unfold normalized_score, max_reasonable_weight.
  rewrite (Qeq_eqR _ _ Hw).
  replace (1 + Q2R 10 / 50) with (6 / 5) by (unfold Q2R; simpl; field).
  pose proof log2_6_5_bounds as [Hlo Hhi].
  replace (100 * ln (6 / 5) / ln 2) with (100 * (ln (6 / 5) / ln 2))
    by (unfold Rdiv; ring).
  unfold Rmin.
  destruct (Rle_dec 100 (100 * (ln (6 / 5) / ln 2))); lra.
Qed.

(** A collection of total weight 10 scores 26.3: the value before
    rounding lies strictly between 26.3 and 26.32. *)
Lemma risk_score_weight_10 (findings : list Finding) :
  (Spec.totalWeight findings == 10)%Q ->
  calculate_risk_score findings = round1 (100 * ln (1 + 10 / 50) / ln 2)
  /\ calculate_risk_score findings = 263 / 10.
Proof.
  intros Hw. destruct findings as [| v vs]; [discriminate Hw |].
  rewrite risk_score_cons.
  pose proof (normalized_score_10 _ Hw) as Hb.
  split.
  - f_equal. unfold normalized_score, max_reasonable_weight in *.
    rewrite (Qeq_eqR _ _ Hw) in *.
    replace (Q2R 10) with 10 in * by (unfold Q2R; simpl; field).
    apply Rmin_right.
    unfold Rmin in Hb.
    destruct (Rle_dec 100 (100 * ln (1 + 10 / 50) / ln 2)); lra.
  - apply (round1_near _ 263). lra.
Qed.

Lemma totalWeight_one (v : Finding) (level : string) :
  risk_level v = Some level ->
  (Spec.totalWeight [v] == Spec.level_weight (PyStr.lower level))%Q.
Proof.
  intros H. simpl. unfold Spec.level_of. rewrite H. simpl. ring.
Qed.

(** C2, as amended. For the collection of exactly one finding of risk
    level [critical], the total weight is 10 and the score is
    [round(100*ln(1+10/50)/ln(2), 1)], which is 26.3. *)
Theorem one_critical_score (v : Finding) :
  risk_level v = Some "critical"%string ->
  (total_weight [v] == 10)%Q
  /\ calculate_risk_score [v] = round1 (100 * ln (1 + 10 / 50) / ln 2)
  /\ calculate_risk_score [v] = 263 / 10.
Proof.
  intros H.
  assert (Hw : (Spec.totalWeight [v] == 10)%Q)
    by (rewrite (totalWeight_one v _ H); reflexivity).
  split; [now rewrite total_weight_sum | now apply risk_score_weight_10].
Qed.

Lemma one_critical_score_witness :
  risk_level Sample.critical_finding = Some "critical"%string
  /\ calculate_risk_score [Sample.critical_finding] = 263 / 10.
Proof.
  split; [reflexivity |].
  apply (one_critical_score Sample.critical_finding). reflexivity.
Defined.

(** C2, as stated, fails: with one [critical] finding the score is not
    25.8. *)
Lemma one_critical_score_is_not_25_8 :
  ~ ((total_weight [Sample.critical_finding] == 10)%Q
     /\ calculate_risk_score [Sample.critical_finding]
        = round1 (100 * ln (1 + 10 / 50) / ln 2)
     /\ round1 (100 * ln (1 + 10 / 50) / ln 2) = 258 / 10).
Proof.
  intros (_ & Hscore & H258).
  assert (Hw : (Spec.totalWeight [Sample.critical_finding] == 10)%Q)
    by reflexivity.
  destruct (risk_score_weight_10 _ Hw) as [_ H263].
  rewrite Hscore, H258 in H263. lra.
Qed.

End OneCritical.

(* ================================================================== *)
(** ** The patterns on the fixture of [tests/test_analyzer.py] *)

Section Fixture.
Import FixGenerator PyStr.
Local Open Scope string_scope.

(** The four patterns are in the fragment: they compile, with as many
    groups as they have capturing parentheses. *)
Example patterns_compile :
  option_map snd (Re.compile sql_injection_pattern) = Some 1
  /\ option_map snd (Re.compile command_injection_pattern) = Some 2
  /\ option_map snd (Re.compile hardcoded_secrets_pattern) = Some 2
  /\ option_map snd (Re.compile insecure_deserialization_pattern) = Some 1.
Proof. repeat split. Qed.

(** The credential line, with its trailing comment: the lazy [.+?] stops
    at the first closing quote. *)
Example secret_line_matches :
  Re.search hardcoded_secrets_pattern
    (Sample.secret_snippet ++ "  # Hardcoded secret")
  = Ok (Some {| Re.ngroups := 2;
                Re.caps := [ (2, "hardcoded_secret123"); (1, "password") ] |}).
Proof. reflexivity. Qed.

(** A literal with a [${] placeholder is turned down by the lookahead at
    every start. *)
Example placeholder_literal_rejected :
  Re.search hardcoded_secrets_pattern ("password = " ++ dq ++ "${VAR}" ++ dq)
  = Ok None.
Proof. reflexivity. Qed.

(** The concatenations of the fixture close the quote before the [+], so
    the SQL and command patterns, which want the [+] inside the literal,
    do not re-match them. *)
Example sql_line_no_match :
  Re.search sql_injection_pattern
    ("cursor.execute(" ++ dq ++ "SELECT * FROM users WHERE id = " ++ dq
       ++ " + user_id)")
  = Ok None.
Proof. reflexivity. Qed.

Example command_line_no_match :
  Re.search command_injection_pattern
    ("os.system(" ++ dq ++ "echo " ++ dq ++ " + user_input)")
  = Ok None.
Proof. reflexivity. Qed.

Example command_plus_inside_literal :
  Re.search command_injection_pattern
    ("os.system(" ++ dq ++ "echo + user_input" ++ dq ++ ")")
  = Ok (Some {| Re.ngroups := 2;
                Re.caps := [ (2, "user_input"); (1, "os.system") ] |}).
Proof. reflexivity. Qed.

Example pickle_line_matches :
  Re.search insecure_deserialization_pattern "    return pickle.loads(data)"
  = Ok (Some {| Re.ngroups := 1; Re.caps := [ (1, "data") ] |}).
Proof. reflexivity. Qed.

(** [str.format] and the string helpers on the values the SQL branch
    would handle. *)
Example format_two_fields :
  format "cursor.execute('{}', [{}])" [ "SELECT 1"; "user_id" ]
  = Ok "cursor.execute('SELECT 1', [user_id])".
Proof. reflexivity. Qed.

Example format_missing_argument :
  format "{} = os.environ.get('{}', '')" [ "password" ] = Raise IndexError.
Proof. reflexivity. Qed.

Example strip_quotes :
  strip_char (ascii_of_nat 34) (strip_char "'" (strip ("  " ++ dq ++ "SELECT " ++ dq ++ " ")))
  = "SELECT ".
Proof. reflexivity. Qed.

End Fixture.

(* ================================================================== *)
(** ** [generate_fix] *)

Section FixFacts.
Import FixGenerator.
Variable re_search : string -> string -> result (option Re.re_match).

(** What [_apply_template] returns, when it returns a fix: the three keys
    of a suggestion, with confidence [medium]. *)
Lemma apply_template_shape (template : Template) (code_snippet : string)
    (f : Fix) :
  _apply_template re_search template code_snippet = Some f ->
  exists fixed_code explanation : string,
    f = [ ("fixed_code", fixed_code); ("explanation", explanation);
          ("confidence", "medium") ]%string.
Proof.
  unfold _apply_template, _apply_template_body, bind.
  destruct (getitem "pattern" template) as [pattern |]; [| discriminate].
  destruct (getitem "replacement" template) as [replacement |]; [| discriminate].
  destruct (getitem "explanation" template) as [explanation |]; [| discriminate].
  destruct (re_search pattern code_snippet) as [[m |] |]; try discriminate.
  match goal with
  | |- match (match ?c with Ok _ => _ | Raise _ => _ end) with _ => _ end = _ -> _ =>
      destruct c as [fixed_code |]; [| discriminate]
  end.
  intros H; injection H as <-. now exists fixed_code, explanation.
Qed.

Lemma apply_template_keys (template : Template) (code_snippet : string)
    (f : Fix) :
  _apply_template re_search template code_snippet = Some f ->
  Spec.has_fix_keys f.
Proof.
  intros H. destruct (apply_template_shape _ _ _ H) as (c & e & ->).
  repeat split.
Qed.

Lemma type_based_fix_generic (v : Finding) :
  In (_generate_type_based_fix v)
     (Spec.generic_suggestions (field_get (code_snippet v) ""%string)).
Proof.
  unfold _generate_type_based_fix, Spec.generic_suggestions.
  repeat match goal with
         | |- context [if ?b then _ else _] => destruct b
         end; simpl; tauto.
Qed.

Lemma type_based_fix_keys (v : Finding) :
  Spec.has_fix_keys (_generate_type_based_fix v).
Proof.
  pose proof (type_based_fix_generic v) as H.
  unfold Spec.generic_suggestions in H; simpl in H.
  repeat destruct H as [<- | H]; try (repeat split); contradiction.
Qed.

(** The loop returns a suggestion whatever templates it is given. *)
Lemma try_templates_total (templates : PyDict.dict Template) (v : Finding)
    (vuln_type code_snippet : string) :
  exists f : Fix,
    try_templates re_search templates v vuln_type code_snippet = Some f
    /\ Spec.has_fix_keys f.
Proof.
  induction templates as [| [template_type template] rest IH]; simpl.
  - eexists; split; [reflexivity | apply type_based_fix_keys].
  - destruct (PyStr.contains template_type vuln_type); [| exact IH].
    destruct (_apply_template re_search template code_snippet) as [f |] eqn:E;
      simpl; [| exact IH].
    destruct f as [| kv f']; simpl; [exact IH |].
    eexists; split; [reflexivity |]. now apply (apply_template_keys _ _ _ E).
Qed.

(** A pattern that does not re-match, or an application that raises,
    gives no fix. *)
Lemma apply_template_none (template : Template) (code_snippet : string) :
  Spec.fails_to_rematch re_search template code_snippet
  \/ Spec.application_raises re_search template code_snippet ->
  _apply_template re_search template code_snippet = None.
Proof.
  unfold _apply_template.
  intros [(pattern & Hp & Hs) | (e & ->)]; [| reflexivity].
  unfold _apply_template_body, bind, getitem. rewrite Hp.
  destruct (PyDict.get "replacement" template); [| reflexivity].
  destruct (PyDict.get "explanation" template); [| reflexivity].
  now rewrite Hs.
Qed.

(** When no template of the list applies, the loop falls through to the
    fallback. *)
Lemma try_templates_fallback (templates : PyDict.dict Template) (v : Finding)
    (vuln_type code_snippet : string) :
  (forall template_type template,
      In (template_type, template) templates ->
      PyStr.contains template_type vuln_type = false
      \/ Spec.fails_to_rematch re_search template code_snippet
      \/ Spec.application_raises re_search template code_snippet) ->
  try_templates re_search templates v vuln_type code_snippet
  = Some (_generate_type_based_fix v).
Proof.
  induction templates as [| [template_type template] rest IH]; intros H; simpl.
  - reflexivity.
  - assert (Hrest : try_templates re_search rest v vuln_type code_snippet
                    = Some (_generate_type_based_fix v))
      by (apply IH; intros tt t Hin; apply H; now right).
    destruct (H template_type template (or_introl eq_refl)) as [-> | Hno];
      [exact Hrest |].
    rewrite (apply_template_none _ _ Hno); simpl.
    now destruct (PyStr.contains template_type vuln_type).
Qed.

(** For each of the four registered templates the three tests on the
    keys of the template fail, so a re-match returns the replacement text
    as it stands. *)
Lemma registered_template_verbatim (template_type : string)
    (template : Template) (code_snippet : string) (f : Fix) :
  In (template_type, template) fix_templates ->
  _apply_template re_search template code_snippet = Some f ->
  PyDict.get "fixed_code" f = PyDict.get "replacement" template.
Proof.
  intros Hin. unfold _apply_template, _apply_template_body, bind.
  simpl in Hin.
  repeat destruct Hin as [Hin | Hin]; try contradiction;
    injection Hin as <- <-; simpl;
    match goal with
    | |- context [re_search ?p ?s] => destruct (re_search p s) as [[m |] |]
    end; try discriminate; intros H; injection H as <-; reflexivity.
Qed.

End FixFacts.

(** C7. For every finding: if each registered template either has a key
    that is not in the finding's type, or a pattern that does not re-match
    the stored snippet, or an application that raises, then [generate_fix]
    returns the generic suggestion keyed by the lower-cased type: the SQL
    suggestion when the type has [sql] in it; else the command suggestion
    when it has [command], [os.system] or [subprocess]; else the XSS
    suggestion when it has [xss]; else the path suggestion when it has
    [path] or [file]; else the default manual-review suggestion, whose
    code is the stored snippet behind a comment mark.  Each of them has
    confidence [low].  No exception leaves [generate_fix]: it is a total
    function. *)
Theorem fallback_when_no_template_applies
    (re_search : string -> string -> result (option Re.re_match))
    (v : Finding) :
  let vuln_type := PyStr.lower (field_get (type v) ""%string) in
  let snippet := field_get (code_snippet v) ""%string in
  let command_word :=
    existsb (fun x => PyStr.contains x vuln_type)
            ["command"; "os.system"; "subprocess"]%string in
  let path_word :=
    PyStr.contains "path" vuln_type || PyStr.contains "file" vuln_type in
  (forall template_type template,
      In (template_type, template) FixGenerator.fix_templates ->
      PyStr.contains template_type vuln_type = false
      \/ Spec.fails_to_rematch re_search template snippet
      \/ Spec.application_raises re_search template snippet) ->
  exists fallback : FixGenerator.Fix,
    FixGenerator.generate_fix re_search v = Some fallback
    /\ fallback = FixGenerator._generate_type_based_fix v
    /\ In fallback (Spec.generic_suggestions snippet)
    /\ PyDict.get "confidence" fallback = Some "low"%string
    /\ (PyStr.contains "sql" vuln_type = true ->
        fallback = FixGenerator.sql_fix
        /\ PyDict.get "explanation" fallback
           = Some "Use parameterized queries to prevent SQL injection."%string)
    /\ (PyStr.contains "sql" vuln_type = false -> command_word = true ->
        fallback = FixGenerator.command_fix
        /\ PyDict.get "explanation" fallback
           = Some "Use subprocess with properly quoted arguments and avoid shell=True."%string)
    /\ (PyStr.contains "sql" vuln_type = false -> command_word = false ->
        PyStr.contains "xss" vuln_type = true ->
        fallback = FixGenerator.xss_fix
        /\ PyDict.get "explanation" fallback
           = Some "Always encode/escape user input before rendering in HTML context."%string)
    /\ (PyStr.contains "sql" vuln_type = false -> command_word = false ->
        PyStr.contains "xss" vuln_type = false -> path_word = true ->
        fallback = FixGenerator.path_fix
        /\ PyDict.get "explanation" fallback
           = Some "Validate and sanitize file paths to prevent directory traversal."%string)
    /\ (PyStr.contains "sql" vuln_type = false -> command_word = false ->
        PyStr.contains "xss" vuln_type = false -> path_word = false ->
        fallback = FixGenerator.default_fix snippet
        /\ PyDict.get "explanation" fallback
           = Some "This requires manual review."%string
        /\ PyDict.get "fixed_code" fallback
           = Some ("# Review and fix this vulnerability" ++ FixGenerator.nl
                     ++ "# " ++ snippet)%string).
Proof.
  intros vuln_type snippet command_word path_word H.
  exists (FixGenerator._generate_type_based_fix v).
  split; [unfold FixGenerator.generate_fix; now apply try_templates_fallback |].
  split; [reflexivity |].
  split; [apply type_based_fix_generic |].
  split.
  { pose proof (type_based_fix_generic v) as Hg.
    unfold Spec.generic_suggestions in Hg; simpl in Hg.
    repeat destruct Hg as [<- | Hg]; try reflexivity; contradiction. }
  unfold FixGenerator._generate_type_based_fix.
  fold vuln_type. fold snippet. fold command_word. fold path_word.
  repeat split; intros;
    repeat match goal with
           | E : _ = true |- _ => rewrite E; clear E
           | E : _ = false |- _ => rewrite E; clear E
           end; reflexivity.
Qed.

(** C9. For every finding, [generate_fix] returns a suggestion, never
    [None], and the suggestion has the keys [fixed_code], [explanation]
    and [confidence]: the fallback is total, and when the type falls in
    none of the four generic categories it is the default manual-review
    suggestion. *)
Theorem generate_fix_never_none
    (re_search : string -> string -> result (option Re.re_match))
    (v : Finding) :
  let vuln_type := PyStr.lower (field_get (type v) ""%string) in
  let snippet := field_get (code_snippet v) ""%string in
  (exists f : FixGenerator.Fix,
      FixGenerator.generate_fix re_search v = Some f /\ Spec.has_fix_keys f)
  /\ (PyStr.contains "sql" vuln_type = false ->
      existsb (fun x => PyStr.contains x vuln_type)
              ["command"; "os.system"; "subprocess"]%string = false ->
      PyStr.contains "xss" vuln_type = false ->
      PyStr.contains "path" vuln_type = false ->
      PyStr.contains "file" vuln_type = false ->
      FixGenerator._generate_type_based_fix v = FixGenerator.default_fix snippet).
Proof.
  intros vuln_type snippet. split.
  - unfold FixGenerator.generate_fix. apply try_templates_total.
  - intros Hsql Hcmd Hxss Hpath Hfile.
    unfold FixGenerator._generate_type_based_fix.
    fold vuln_type. fold snippet.
    now rewrite Hsql, Hcmd, Hxss, Hpath, Hfile.
Qed.

Lemma generate_fix_never_none_witness :
  (exists f : FixGenerator.Fix,
      FixGenerator.generate_fix Re.search Sample.truncated_secret_finding = Some f
      /\ Spec.has_fix_keys f)
  /\ FixGenerator._generate_type_based_fix Sample.truncated_secret_finding
     = FixGenerator.default_fix "password = ".
Proof.
  destruct (generate_fix_never_none Re.search Sample.truncated_secret_finding)
    as [Hsome Hdefault].
  split; [exact Hsome | apply Hdefault; reflexivity].
Defined.

Lemma fallback_when_no_template_applies_witness :
  FixGenerator.generate_fix Re.search Sample.truncated_secret_finding
  = Some (FixGenerator.default_fix "password = ")
  /\ FixGenerator.generate_fix Re.search Sample2.shouting_finding
     = Some FixGenerator.sql_fix.
Proof.
  split.
  - destruct (fallback_when_no_template_applies
                Re.search Sample.truncated_secret_finding)
      as (f & Hf & _ & _ & _ & _ & _ & _ & _ & Hdefault).
    + intros template_type template Hin.
      destruct Hin as [Hin | [Hin | [Hin | [Hin | []]]]]; injection Hin as <- <-.
      * left; reflexivity.
      * left; reflexivity.
      * right; left. exists FixGenerator.hardcoded_secrets_pattern.
        split; reflexivity.
      * left; reflexivity.
    + specialize (Hdefault eq_refl eq_refl eq_refl eq_refl).
      destruct Hdefault as [Heq _]. rewrite Heq in Hf. exact Hf.
  - destruct (fallback_when_no_template_applies
                Re.search Sample2.shouting_finding)
      as (f & Hf & _ & _ & _ & Hsql & _).
    + intros template_type template Hin.
      destruct Hin as [Hin | [Hin | [Hin | [Hin | []]]]]; injection Hin as <- <-.
      * right; left. exists FixGenerator.sql_injection_pattern.
        split; reflexivity.
      * left; reflexivity.
      * left; reflexivity.
      * left; reflexivity.
    + specialize (Hsql eq_refl).
      destruct Hsql as [Heq _]. rewrite Heq in Hf. exact Hf.
Defined.

(** When the secrets template is the first whose key is in the type and
    its pattern re-matches, the fix is the replacement text with its
    [{}] fields still in it, whatever was matched. *)
Lemma secrets_rematch_unformatted
    (re_search : string -> string -> result (option Re.re_match))
    (v : Finding) (m : Re.re_match) :
  let vuln_type := PyStr.lower (field_get (type v) ""%string) in
  let snippet := field_get (code_snippet v) ""%string in
  PyStr.contains "sql_injection" vuln_type = false ->
  PyStr.contains "command_injection" vuln_type = false ->
  PyStr.contains "hardcoded_secrets" vuln_type = true ->
  re_search FixGenerator.hardcoded_secrets_pattern snippet = Ok (Some m) ->
  FixGenerator.generate_fix re_search v
  = Some [ ("fixed_code", "{} = os.environ.get('{}', '')");
           ("explanation",
            "Store secrets in environment variables or a secure vault service.");
           ("confidence", "medium") ]%string.
Proof.
  intros vuln_type snippet Hsql Hcmd Hsec Hm.
  unfold FixGenerator.generate_fix, FixGenerator.fix_templates,
    FixGenerator.try_templates.
  fold vuln_type. fold snippet. rewrite Hsql, Hcmd, Hsec.
  unfold FixGenerator._apply_template, FixGenerator._apply_template_body, bind.
  simpl. rewrite Hm. reflexivity.
Qed.

(** C3, on the code. The credential assignment of the test fixture
    re-matches the secrets pattern, with [password] as its first group,
    and the fix returned is the replacement template itself, not the
    lookup [password = os.environ.get('PASSWORD', '')]. *)
Theorem secret_fix_is_the_raw_template :
  Re.search FixGenerator.hardcoded_secrets_pattern Sample.secret_snippet
  = Ok (Some {| Re.ngroups := 2;
                Re.caps := [ (2, "hardcoded_secret123"); (1, "password") ]%string |})
  /\ FixGenerator.generate_fix Re.search Sample.secret_finding
     = Some [ ("fixed_code", "{} = os.environ.get('{}', '')");
              ("explanation",
               "Store secrets in environment variables or a secure vault service.");
              ("confidence", "medium") ]%string
  /\ format "{} = os.environ.get('{}', '')" [ "password"; PyStr.upper "password" ]%string
     = Ok "password = os.environ.get('PASSWORD', '')"%string.
Proof. repeat split. Qed.

(* ================================================================== *)
(** ** The distributions of [generate], entry by entry *)

Section Distributions.

Lemma get_fold_counter (k : string) (xs : list string) (c : PyDict.dict nat) :
  PyDict.get k (fold_left Py.counter_add xs c)
  = match PyDict.get k c with
    | Some n => Some (n + count_occ string_dec xs k)
    | None => if count_occ string_dec xs k =? 0 then None
              else Some (count_occ string_dec xs k)
    end.
Proof.
  revert c; induction xs as [| x xs IH]; intros c; simpl.
  - destruct (PyDict.get k c); [f_equal; lia | reflexivity].
  - rewrite IH. unfold Py.counter_add, PyDict.get_default.
    destruct (string_dec x k) as [-> | Hne].
    + rewrite get_set_same.
      destruct (PyDict.get k c); simpl; f_equal; lia.
    + rewrite get_set_other by congruence.
      destruct (PyDict.get k c); reflexivity.
Qed.

(** [Counter(xs)] has an entry for [k] exactly when [k] occurs in [xs]. *)
Lemma get_Counter (k : string) (xs : list string) :
  PyDict.get k (Py.Counter xs)
  = if count_occ string_dec xs k =? 0 then None
    else Some (count_occ string_dec xs k).
Proof. unfold Py.Counter. now rewrite get_fold_counter. Qed.

Lemma keys_set {V : Type} (k : string) (v : V) (d : PyDict.dict V) :
  PyDict.keys (PyDict.set k v d)
  = if PyDict.mem k d then PyDict.keys d else PyDict.keys d ++ [k].
Proof.
  unfold PyDict.keys, PyDict.mem.
  induction d as [| [k' v'] d IH]; simpl; [reflexivity |].
  destruct (String.eqb k k') eqn:E; simpl; [reflexivity |].
  rewrite IH. now destruct (PyDict.get k d).
Qed.

Lemma get_None_not_key {V : Type} (k : string) (d : PyDict.dict V) :
  PyDict.get k d = None <-> ~ In k (PyDict.keys d).
Proof.
  unfold PyDict.keys.
  induction d as [| [k' v'] d IH]; simpl; [tauto |].
  destruct (String.eqb k k') eqn:E.
  - apply String.eqb_eq in E; subst. split; [discriminate | tauto].
  - apply String.eqb_neq in E. rewrite IH. split; [| tauto].
    intros H [Heq | Hin]; [congruence | tauto].
Qed.

Lemma NoDup_keys_set {V : Type} (k : string) (v : V) (d : PyDict.dict V) :
  NoDup (PyDict.keys d) -> NoDup (PyDict.keys (PyDict.set k v d)).
Proof.
  intros Hd. rewrite keys_set. unfold PyDict.mem.
  destruct (PyDict.get k d) eqn:E; [exact Hd |].
  apply get_None_not_key in E.
  apply NoDup_app; [exact Hd | repeat constructor; simpl; tauto |].
  intros x Hx [<- | []]. contradiction.
Qed.

Lemma NoDup_keys_fold (xs : list string) (c : PyDict.dict nat) :
  NoDup (PyDict.keys c) ->
  NoDup (PyDict.keys (fold_left Py.counter_add xs c)).
Proof.
  revert c; induction xs as [| x xs IH]; intros c Hc; simpl; [exact Hc |].
  apply IH. now apply NoDup_keys_set.
Qed.

Lemma NoDup_keys_Counter (xs : list string) :
  NoDup (PyDict.keys (Py.Counter xs)).
Proof. apply NoDup_keys_fold. constructor. Qed.

(** With distinct keys, the entries are what [get] returns. *)
Lemma In_get {V : Type} (k : string) (v : V) (d : PyDict.dict V) :
  NoDup (PyDict.keys d) -> (In (k, v) d <-> PyDict.get k d = Some v).
Proof.
  unfold PyDict.keys.
  induction d as [| [k' v'] d IH]; simpl; intros Hd.
  - split; [tauto | discriminate].
  - inversion Hd as [| ? ? Hnot Hd']; subst.
    destruct (String.eqb k k') eqn:E.
    + apply String.eqb_eq in E; subst k'. split.
      * intros [Heq | Hin]; [congruence |].
        exfalso; apply Hnot. apply (in_map fst) in Hin. exact Hin.
      * intros Heq; left; congruence.
    + apply String.eqb_neq in E. rewrite <- (IH Hd'). split.
      * intros [Heq | Hin]; [congruence | exact Hin].
      * tauto.
Qed.

Lemma Counter_entries (xs : list string) (k : string) (n : nat) :
  In (k, n) (Py.Counter xs)
  <-> In k xs /\ n = count_occ string_dec xs k.
Proof.
  rewrite (In_get _ _ _ (NoDup_keys_Counter xs)), get_Counter.
  rewrite (count_occ_In string_dec).
  destruct (count_occ string_dec xs k =? 0) eqn:E.
  - apply Nat.eqb_eq in E. split; [discriminate |].
    intros [H _]. exfalso. lia.
  - apply Nat.eqb_neq in E. split.
    + intros H; injection H as <-. lia.
    + intros [_ ->]. reflexivity.
Qed.

End Distributions.

Lemma distribution_lookup (now : string) (findings : list Finding) (k : string) :
  PyDict.get_default k 0
    (risk_distribution (StatsGenerator.generate now findings))
  = count_occ string_dec (map Spec.level_of findings) k
  /\ PyDict.get_default k 0
       (type_distribution (StatsGenerator.generate now findings))
     = count_occ string_dec (map Reading.type_of findings) k.
Proof.
  destruct findings as [| v vs]; [split; reflexivity |].
  unfold StatsGenerator.generate.
  cbn [risk_distribution type_distribution].
  split; apply Counter_get.
Qed.

(** X1. The distributions count the findings: looked up with default 0,
    [risk_distribution] gives for every label the number of findings
    whose lower-cased risk level (a missing one read as [unknown]) is that
    label, and [type_distribution] does the same for the types. *)
Theorem generate_distribution_counts
    (now : string) (findings : list Finding) (k : string) :
  let stats := StatsGenerator.generate now findings in
  PyDict.get_default k 0 (risk_distribution stats)
  = count_occ string_dec (map Spec.level_of findings) k
  /\ PyDict.get_default k 0 (type_distribution stats)
     = count_occ string_dec (map Reading.type_of findings) k.
Proof. exact (distribution_lookup now findings k). Qed.

(** X2. The entries of the distributions are exactly the labels that
    occur, each once and with its number of occurrences: no label is
    listed twice and none is listed with count 0. *)
Theorem generate_distribution_entries (now : string) (findings : list Finding) :
  let stats := StatsGenerator.generate now findings in
  (NoDup (PyDict.keys (risk_distribution stats))
   /\ forall k n,
       In (k, n) (risk_distribution stats)
       <-> In k (map Spec.level_of findings)
           /\ n = count_occ string_dec (map Spec.level_of findings) k)
  /\ (NoDup (PyDict.keys (type_distribution stats))
      /\ forall k n,
          In (k, n) (type_distribution stats)
          <-> In k (map Reading.type_of findings)
              /\ n = count_occ string_dec (map Reading.type_of findings) k).
Proof.
  destruct findings as [| v vs].
  - cbn. repeat split; try constructor; try tauto; intros [[] _].
  - cbv zeta. unfold StatsGenerator.generate.
    cbn [risk_distribution type_distribution].
    split; (split; [apply NoDup_keys_Counter | intros k n; apply Counter_entries]).
Qed.

(* ================================================================== *)
(** ** The top-five summaries *)

Section TopFive.
Import Permutation.

Lemma insert_desc_perm (x : string * nat) (l : list (string * nat)) :
  Permutation (Py.insert_desc x l) (x :: l).
Proof.
  induction l as [| y l IH]; simpl; [reflexivity |].
  destruct (snd x <? snd y); [| reflexivity].
  rewrite IH. apply perm_swap.
Qed.

Lemma sorted_perm (items : list (string * nat)) :
  Permutation (Py.sorted_by_count_desc items) items.
Proof.
  induction items as [| x l IH]; simpl; [reflexivity |].
  rewrite insert_desc_perm. now constructor.
Qed.

Lemma insert_desc_sorted (x : string * nat) (l : list (string * nat)) :
  Reading.decreasing l -> Reading.decreasing (Py.insert_desc x l).
Proof.
  unfold Reading.decreasing.
  induction l as [| y l IH]; intros Hl; simpl.
  - repeat constructor.
  - inversion Hl as [| ? ? Hl' Hy]; subst.
    destruct (snd x <? snd y) eqn:E.
    + apply Nat.ltb_lt in E. constructor; [now apply IH |].
      rewrite Forall_forall. intros z Hz.
      apply (Permutation_in _ (insert_desc_perm x l)) in Hz.
      destruct Hz as [<- | Hz]; [lia |].
      rewrite Forall_forall in Hy. now apply Hy.
    + apply Nat.ltb_ge in E. constructor; [exact Hl |].
      constructor; [exact E |].
      rewrite Forall_forall in *. intros z Hz. specialize (Hy z Hz). lia.
Qed.

Lemma sorted_decreasing (items : list (string * nat)) :
  Reading.decreasing (Py.sorted_by_count_desc items).
Proof.
  induction items as [| x l IH]; simpl.
  - constructor.
  - now apply insert_desc_sorted.
Qed.

Lemma decreasing_app (l1 l2 : list (string * nat)) :
  Reading.decreasing (l1 ++ l2) ->
  Reading.decreasing l1
  /\ forall a b, In a l1 -> In b l2 -> snd b <= snd a.
Proof.
  unfold Reading.decreasing.
  induction l1 as [| x l1 IH]; simpl; intros H.
  - split; [constructor | tauto].
  - inversion H as [| ? ? H' Hx]; subst.
    destruct (IH H') as [Hs Hd]. split.
    + constructor; [exact Hs |].
      apply Forall_app in Hx. tauto.
    + intros a b [<- | Ha] Hb; [| now apply Hd].
      rewrite Forall_forall in Hx. apply Hx. apply in_or_app; now right.
Qed.

Lemma set_fresh {V : Type} (k : string) (v : V) (d : PyDict.dict V) :
  ~ In k (PyDict.keys d) -> PyDict.set k v d = d ++ [(k, v)].
Proof.
  unfold PyDict.keys.
  induction d as [| [k' v'] d IH]; simpl; intros Hk; [reflexivity |].
  destruct (String.eqb k k') eqn:E.
  - apply String.eqb_eq in E. subst k'. tauto.
  - rewrite IH by tauto. reflexivity.
Qed.

Lemma of_items_fold {V : Type} (items acc : PyDict.dict V) :
  NoDup (PyDict.keys (acc ++ items)) ->
  fold_left (fun d kv => PyDict.set (fst kv) (snd kv) d) items acc
  = acc ++ items.
Proof.
  revert acc; induction items as [| [k v] items IH]; intros acc Hnd; simpl.
  - now rewrite app_nil_r.
  - assert (Hk : ~ In k (PyDict.keys acc)).
    { unfold PyDict.keys in *. rewrite map_app in Hnd. simpl in Hnd.
      apply NoDup_remove_2 in Hnd. intros Hin. apply Hnd.
      apply in_or_app; now left. }
    rewrite set_fresh by exact Hk.
    rewrite IH; rewrite <- app_assoc; [reflexivity | exact Hnd].
Qed.

(** [dict(items)] keeps a list of pairs with distinct keys as it is. *)
Lemma of_items_distinct {V : Type} (items : PyDict.dict V) :
  NoDup (PyDict.keys items) -> PyDict.of_items items = items.
Proof. intros H. unfold PyDict.of_items. now rewrite of_items_fold. Qed.

(** The summary built from a dictionary with distinct keys. *)
Lemma top_five_largest (d : PyDict.dict nat) :
  NoDup (PyDict.keys d) ->
  Reading.five_largest
    (PyDict.of_items (firstn 5 (Py.sorted_by_count_desc d))) d.
Proof.
  intros Hd.
  set (sorted := Py.sorted_by_count_desc d).
  assert (Hperm : Permutation sorted d) by apply sorted_perm.
  assert (Hsplit : firstn 5 sorted ++ skipn 5 sorted = sorted)
    by apply firstn_skipn.
  assert (Hnd : NoDup (PyDict.keys sorted)).
  { unfold PyDict.keys. apply (Permutation_NoDup (l := map fst d)); [| exact Hd].
    apply Permutation_map. now symmetry. }
  assert (Hnd5 : NoDup (PyDict.keys (firstn 5 sorted))).
  { rewrite <- Hsplit in Hnd. unfold PyDict.keys in *.
    rewrite map_app in Hnd. now apply NoDup_app_remove_r in Hnd. }
  rewrite of_items_distinct by exact Hnd5.
  pose proof (sorted_decreasing d) as Hdec. fold sorted in Hdec.
  rewrite <- Hsplit in Hdec. apply decreasing_app in Hdec as [Hdec Hdom].
  repeat split.
  - rewrite length_firstn. now rewrite (Permutation_length Hperm).
  - intros e He. apply (Permutation_in _ Hperm).
    rewrite <- Hsplit. apply in_or_app; now left.
  - exact Hdec.
  - intros e e' He He' Hnot. apply Hdom; [exact He |].
    apply (Permutation_in _ (Permutation_sym Hperm)) in He'.
    rewrite <- Hsplit in He'. apply in_app_or in He'. tauto.
Qed.

End TopFive.

(** X3. [top_vulnerability_types] holds the five most frequent types, or
    all of them when there are fewer: its entries are entries of
    [type_distribution], in order of decreasing count, and no type left
    out has a larger count than one that is listed.
    [top_vulnerable_files] is the same summary of the per-file counts. *)
Theorem generate_top_five (now : string) (findings : list Finding) :
  let stats := StatsGenerator.generate now findings in
  Reading.five_largest (top_vulnerability_types stats) (type_distribution stats)
  /\ Reading.five_largest (top_vulnerable_files stats)
       (Py.Counter (map Reading.file_of findings)).
Proof.
  destruct findings as [| v vs].
  - cbn. split; (repeat split; try constructor; try tauto).
  - cbv zeta. unfold StatsGenerator.generate.
    cbn [top_vulnerability_types type_distribution top_vulnerable_files].
    split; apply top_five_largest, NoDup_keys_Counter.
Qed.

(* ================================================================== *)
(** ** The average confidence *)

Section AverageConfidence.
Local Open Scope Q_scope.

Lemma qsum_fold (xs : list Q) (acc : Q) :
  fold_left Qplus xs acc == acc + fold_right Qplus 0 xs.
Proof.
  revert acc; induction xs as [| x xs IH]; intros acc; simpl.
  - ring.
  - rewrite IH. ring.
Qed.

Lemma qsum_bounds (lo hi : Q) (xs : list Q) :
  (forall x, In x xs -> lo <= x <= hi) ->
  lo * inject_Z (Z.of_nat (List.length xs)) <= Py.qsum xs
  /\ Py.qsum xs <= hi * inject_Z (Z.of_nat (List.length xs)).
Proof.
  intros H. unfold Py.qsum. rewrite qsum_fold.
  induction xs as [| x xs IH].
  - simpl. split; ring_simplify; apply Qle_refl.
  - assert (Hx : lo <= x <= hi) by (apply H; now left).
    destruct IH as [IHlo IHhi]; [intros y Hy; apply H; now right |].
    cbn [List.length fold_right]. rewrite Nat2Z.inj_succ.
    unfold Z.succ. rewrite inject_Z_plus.
    rewrite Qplus_0_l in IHlo, IHhi.
    split.
    + setoid_replace (lo * (inject_Z (Z.of_nat (List.length xs)) + inject_Z 1))
        with (lo + lo * inject_Z (Z.of_nat (List.length xs))) by ring.
      rewrite Qplus_0_l. apply Qplus_le_compat; tauto.
    + setoid_replace (hi * (inject_Z (Z.of_nat (List.length xs)) + inject_Z 1))
        with (hi + hi * inject_Z (Z.of_nat (List.length xs))) by ring.
      rewrite Qplus_0_l. apply Qplus_le_compat; tauto.
Qed.

(** The mean of a non-empty list lies between any bounds of its
    elements. *)
Lemma mean_bounds (lo hi : Q) (xs : list Q) :
  xs <> [] ->
  (forall x, In x xs -> lo <= x <= hi) ->
  lo <= Py.mean xs <= hi.
Proof.
  intros Hne H. unfold Py.mean.
  assert (Hn : 0 < inject_Z (Z.of_nat (List.length xs))).
  { destruct xs as [| x xs]; [congruence |].
    change 0 with (inject_Z 0). rewrite <- Zlt_Qlt. simpl. lia. }
  destruct (qsum_bounds lo hi xs H) as [Hlo Hhi].
  split.
  - now apply Qle_shift_div_l.
  - now apply Qle_shift_div_r.
Qed.

End AverageConfidence.

Lemma confidences_sum (findings : list Finding) :
  (Py.qsum (map StatsGenerator.confidence_number findings)
   == Reading.confidence_sum findings)%Q.
Proof.
  unfold Py.qsum. rewrite qsum_fold.
  induction findings as [| v vs IH]; simpl; [reflexivity |].
  rewrite Qplus_0_l in IH. rewrite IH.
  assert (Hv : StatsGenerator.confidence_number v = Reading.confidence_read v).
  { unfold StatsGenerator.confidence_number, Reading.confidence_read, field_get.
    now destruct (confidence v) as [[q | s] |]. }
  rewrite Hv. ring.
Qed.

Lemma average_confidence_cons (now : string) (v : Finding) (vs : list Finding) :
  average_confidence (StatsGenerator.generate now (v :: vs))
  = Py.mean (map StatsGenerator.confidence_number (v :: vs)).
Proof. reflexivity. Qed.

(** X4. [average_confidence] is the mean of the confidences read as
    numbers, where a categorical label and a missing confidence count as
    0: multiplied by the number of findings it gives their sum.  For the
    empty collection it is 0.  When every numeric confidence lies
    between 0 and 1, so does the average. *)
Theorem average_confidence_in_unit_interval
    (now : string) (findings : list Finding) :
  let average := average_confidence (StatsGenerator.generate now findings) in
  (average * inject_Z (Z.of_nat (List.length findings))
   == Reading.confidence_sum findings)%Q
  /\ average_confidence (StatsGenerator.generate now []) = 0%Q
  /\ ((forall v q, In v findings -> confidence v = Some (ConfNum q) ->
                   (0 <= q <= 1)%Q) ->
      (0 <= average <= 1)%Q).
Proof.
  cbv zeta. split; [| split; [reflexivity |]].
  - destruct findings as [| v vs]; [reflexivity |].
    rewrite average_confidence_cons.
    unfold Py.mean. rewrite (confidences_sum (v :: vs)), length_map.
    assert (Hn : ~ (inject_Z (Z.of_nat (List.length (v :: vs))) == 0)%Q).
    { unfold Qeq; simpl. lia. }
    field. exact Hn.
  - intros H. destruct findings as [| v vs].
    + cbn. split; discriminate.
    + unfold StatsGenerator.generate. cbn [average_confidence].
      set (confidences := map StatsGenerator.confidence_number (v :: vs)).
      assert (Hne : confidences <> []) by discriminate.
      destruct confidences as [| c cs] eqn:E; [congruence |]. rewrite <- E.
      apply mean_bounds; [now rewrite E |].
      intros x Hx. subst confidences. apply in_map_iff in Hx as (w & <- & Hw).
      unfold StatsGenerator.confidence_number, field_get.
      destruct (confidence w) as [[q | s] |] eqn:Ec.
      * now apply (H w).
      * split; discriminate.
      * split; discriminate.
Qed.

Lemma average_confidence_in_unit_interval_witness :
  (0 <= average_confidence
          (StatsGenerator.generate "2024-01-01T00:00:00"
             [Sample.critical_finding; Sample2.label_finding; Sample2.bare_finding])
   <= 1)%Q
  /\ (average_confidence
        (StatsGenerator.generate "2024-01-01T00:00:00"
           [Sample.critical_finding; Sample2.label_finding; Sample2.bare_finding])
      * 3 == 7 # 10)%Q.
Proof.
  destruct (average_confidence_in_unit_interval "2024-01-01T00:00:00"
              [Sample.critical_finding; Sample2.label_finding;
               Sample2.bare_finding]) as (Hsum & _ & Hbound).
  split.
  - apply Hbound. intros v q Hin Hc.
    destruct Hin as [<- | [<- | [<- | []]]]; try discriminate Hc;
      injection Hc as <-; split; discriminate.
  - rewrite Hsum. reflexivity.
Defined.

(* ================================================================== *)
(** ** Collections put together *)

(** X5. Statistics of a concatenation: the total of [generate] on
    [findings1 ++ findings2] is the sum of the two totals, and so is the
    count of every risk level and of every type. *)
Theorem generate_concatenation
    (now : string) (findings1 findings2 : list Finding) (k : string) :
  let stats := StatsGenerator.generate now (findings1 ++ findings2) in
  let stats1 := StatsGenerator.generate now findings1 in
  let stats2 := StatsGenerator.generate now findings2 in
  total_vulnerabilities stats
  = total_vulnerabilities stats1 + total_vulnerabilities stats2
  /\ PyDict.get_default k 0 (risk_distribution stats)
     = PyDict.get_default k 0 (risk_distribution stats1)
       + PyDict.get_default k 0 (risk_distribution stats2)
  /\ PyDict.get_default k 0 (type_distribution stats)
     = PyDict.get_default k 0 (type_distribution stats1)
       + PyDict.get_default k 0 (type_distribution stats2).
Proof.
  cbv zeta.
  destruct (distribution_lookup now (findings1 ++ findings2) k) as [-> ->].
  destruct (distribution_lookup now findings1 k) as [-> ->].
  destruct (distribution_lookup now findings2 k) as [-> ->].
  rewrite !map_app, !count_occ_app.
  repeat split.
  assert (Htotal : forall vs, total_vulnerabilities (StatsGenerator.generate now vs)
                              = List.length vs) by (intros [| ? ?]; reflexivity).
  rewrite !Htotal. apply length_app.
Qed.

(* ================================================================== *)
(** ** More on [generate_trend_data] *)

Lemma trend_as_maps (scan_ids : list string)
    (scan_results : PyDict.dict ScanReport) :
  StatsGenerator.generate_trend_data scan_ids scan_results
  = let reports := Spec.resolved scan_ids scan_results in
    {| dates := map (fun r => field_get (timestamp r) ""%string) reports;
       critical := map (Spec.count_level "critical") reports;
       high := map (Spec.count_level "high") reports;
       medium := map (Spec.count_level "medium") reports;
       low := map (Spec.count_level "low") reports;
       risk_scores := map (fun r => field_get (risk_score r) 0%R) reports |}.
Proof.
  unfold StatsGenerator.generate_trend_data. now rewrite trend_fold.
Qed.

Lemma resolved_app (ids1 ids2 : list string)
    (scan_results : PyDict.dict ScanReport) :
  Spec.resolved (ids1 ++ ids2) scan_results
  = Spec.resolved ids1 scan_results ++ Spec.resolved ids2 scan_results.
Proof.
  induction ids1 as [| i ids1 IH]; simpl; [reflexivity |].
  destruct (PyDict.get i scan_results); simpl; now rewrite IH.
Qed.

(** X6. The trend of a list of ids put together from two lists is the
    trend of the first followed, sequence by sequence, by the trend of
    the second. *)
Theorem trend_of_appended_ids (ids1 ids2 : list string)
    (scan_results : PyDict.dict ScanReport) :
  let t := StatsGenerator.generate_trend_data (ids1 ++ ids2) scan_results in
  let t1 := StatsGenerator.generate_trend_data ids1 scan_results in
  let t2 := StatsGenerator.generate_trend_data ids2 scan_results in
  dates t = dates t1 ++ dates t2
  /\ critical t = critical t1 ++ critical t2
  /\ high t = high t1 ++ high t2
  /\ medium t = medium t1 ++ medium t2
  /\ low t = low t1 ++ low t2
  /\ risk_scores t = risk_scores t1 ++ risk_scores t2.
Proof.
  cbv zeta. rewrite !trend_as_maps. cbv zeta. rewrite resolved_app. simpl.
  rewrite !map_app. repeat split.
Qed.

Lemma four_levels_bound (levels : list string) :
  count_occ string_dec levels "critical"%string
  + count_occ string_dec levels "high"%string
  + count_occ string_dec levels "medium"%string
  + count_occ string_dec levels "low"%string
  <= List.length levels.
Proof.
  induction levels as [| x xs IH]; simpl; [lia |].
  repeat match goal with
         | |- context [string_dec x ?s] => destruct (string_dec x s)
         end; subst; try discriminate; lia.
Qed.

(** X7. At every position of the trend, the four counts together do not
    exceed the number of findings of the report at that position; the
    difference is the findings of level [info], [unknown] or any other
    label. *)
Theorem trend_counts_bounded (scan_ids : list string)
    (scan_results : PyDict.dict ScanReport) (i : nat) :
  let t := StatsGenerator.generate_trend_data scan_ids scan_results in
  let sizes :=
    map (fun r => List.length (field_get (vulnerabilities r) []))
        (Spec.resolved scan_ids scan_results) in
  nth i (critical t) 0 + nth i (high t) 0 + nth i (medium t) 0 + nth i (low t) 0
  <= nth i sizes 0.
Proof.
  cbv zeta. rewrite trend_as_maps. cbv zeta. simpl.
  generalize (Spec.resolved scan_ids scan_results) as reports.
  intros reports; revert i; induction reports as [| r rs IH]; intros i.
  - destruct i; simpl; lia.
  - destruct i as [| i]; simpl; [| apply IH].
    unfold Spec.count_level.
    rewrite <- (length_map Spec.level_of). apply four_levels_bound.
Qed.

(* ================================================================== *)
(** ** The range of the risk score *)

Section ScoreRange.
Import StatsGenerator Permutation.
Local Open Scope R_scope.

(** Bounds on a binary logarithm of a ratio, from a comparison of powers
    of integers. *)
Lemma ln_ratio (a b : Z) :
  (0 < a)%Z -> (0 < b)%Z -> ln (IZR a / IZR b) = ln (IZR a) - ln (IZR b).
Proof.
  intros Ha Hb. apply IZR_lt in Ha, Hb.
  unfold Rdiv. rewrite ln_mult, ln_Rinv; try lra.
  now apply Rinv_0_lt_compat.
Qed.

Lemma log2_ratio_upper (a b : Z) (p q : nat) :
  (0 < a)%Z -> (0 < b)%Z -> (0 < q)%nat ->
  (a ^ Z.of_nat q < 2 ^ Z.of_nat p * b ^ Z.of_nat q)%Z ->
  ln (IZR a / IZR b) / ln 2 < IZR (Z.of_nat p) / IZR (Z.of_nat q).
Proof.
  intros Ha Hb Hq Hpow.
  pose proof ln_2_pos as H2.
  assert (Hq' : 0 < IZR (Z.of_nat q)) by (apply IZR_lt; lia).
  assert (H : ln (IZR (a ^ Z.of_nat q))
              < ln (IZR (2 ^ Z.of_nat p * b ^ Z.of_nat q))).
  { apply ln_increasing; [apply IZR_lt; lia | now apply IZR_lt]. }
  rewrite mult_IZR, ln_mult, !ln_pow_IZR in H
    by (try lia; apply IZR_lt; lia).
  rewrite ln_ratio by assumption.
  set (la := ln (IZR a)) in *. set (lb := ln (IZR b)) in *.
  set (P := IZR (Z.of_nat p)) in *. set (Q := IZR (Z.of_nat q)) in *.
  apply Rmult_lt_reg_r with (ln 2 * Q); [nra |].
  replace ((la - lb) / ln 2 * (ln 2 * Q)) with (Q * la - Q * lb) by (field; lra).
  replace (P / Q * (ln 2 * Q)) with (P * ln 2) by (field; lra).
  lra.
Qed.

Lemma log2_ratio_lower (a b : Z) (p q : nat) :
  (0 < a)%Z -> (0 < b)%Z -> (0 < q)%nat ->
  (2 ^ Z.of_nat p * b ^ Z.of_nat q < a ^ Z.of_nat q)%Z ->
  IZR (Z.of_nat p) / IZR (Z.of_nat q) < ln (IZR a / IZR b) / ln 2.
Proof.
  intros Ha Hb Hq Hpow.
  pose proof ln_2_pos as H2.
  assert (Hq' : 0 < IZR (Z.of_nat q)) by (apply IZR_lt; lia).
  assert (H : ln (IZR (2 ^ Z.of_nat p * b ^ Z.of_nat q))
              < ln (IZR (a ^ Z.of_nat q))).
  { apply ln_increasing; [apply IZR_lt; lia | now apply IZR_lt]. }
  rewrite mult_IZR, ln_mult, !ln_pow_IZR in H
    by (try lia; apply IZR_lt; lia).
  rewrite ln_ratio by assumption.
  set (la := ln (IZR a)) in *. set (lb := ln (IZR b)) in *.
  set (P := IZR (Z.of_nat p)) in *. set (Q := IZR (Z.of_nat q)) in *.
  apply Rmult_lt_reg_r with (ln 2 * Q); [nra |].
  replace ((la - lb) / ln 2 * (ln 2 * Q)) with (Q * la - Q * lb) by (field; lra).
  replace (P / Q * (ln 2 * Q)) with (P * ln 2) by (field; lra).
  lra.
Qed.

Lemma level_weight_half (level : string) : (1 # 2 <= Spec.level_weight level)%Q.
Proof.
  unfold Spec.level_weight.
  repeat match goal with
         | |- context [String.eqb ?a ?b] => destruct (String.eqb a b)
         end; discriminate.
Qed.

Lemma totalWeight_half (v : Finding) (vs : list Finding) :
  (1 # 2 <= Spec.totalWeight (v :: vs))%Q.
Proof.
  simpl. pose proof (level_weight_half (Spec.level_of v)) as Hv.
  pose proof (totalWeight_nonneg vs) as Hs.
  setoid_replace (1 # 2)%Q with ((1 # 2) + 0)%Q by ring.
  now apply Qplus_le_compat.
Qed.

(** Twice the total weight is a whole number. *)
Lemma totalWeight_halves (vs : list Finding) :
  exists k : Z, (Spec.totalWeight vs == k # 2)%Q.
Proof.
  induction vs as [| v vs [k IH]]; simpl.
  - exists 0%Z. reflexivity.
  - assert (Hw : exists j : Z, (Spec.level_weight (Spec.level_of v) == j # 2)%Q).
    { unfold Spec.level_weight.
      repeat match goal with
             | |- context [String.eqb ?a ?b] => destruct (String.eqb a b)
             end;
        [exists 20%Z | exists 10%Z | exists 6%Z | exists 2%Z | exists 1%Z
         | exists 2%Z]; reflexivity. }
    destruct Hw as [j Hj]. exists (j + k)%Z. rewrite Hj, IH.
    unfold Qeq, Qplus; simpl. lia.
Qed.

Lemma normalized_score_saturated (w : Q) :
  (50 <= w)%Q -> normalized_score w = 100.
Proof.
  intros Hw. unfold normalized_score, max_reasonable_weight.
  apply Qle_Rle in Hw.
  replace (Q2R 50) with 50 in Hw by (unfold Q2R; simpl; field).
  pose proof ln_2_pos as H2.
  assert (Hln : ln 2 <= ln (1 + Q2R w / 50)) by (apply ln_le_mono; lra).
  apply Rmin_left.
  apply Rmult_le_reg_r with (ln 2); [exact H2 |].
  replace (100 * ln (1 + Q2R w / 50) / ln 2 * ln 2)
    with (100 * ln (1 + Q2R w / 50)) by (field; lra).
  lra.
Qed.

Lemma normalized_score_99_halves : normalized_score (99 # 2) < 993 / 10.
Proof.
  unfold normalized_score, max_reasonable_weight.
  replace (1 + Q2R (99 # 2) / 50) with (IZR 199 / IZR 100)
    by (unfold Q2R; simpl; field).
  assert (H : ln (IZR 199 / IZR 100) / ln 2
              < IZR (Z.of_nat 993) / IZR (Z.of_nat 1000)).
  { apply log2_ratio_upper;
      [lia | lia | lia | apply Z.ltb_lt; vm_compute; reflexivity]. }
  change (Z.of_nat 993) with 993%Z in H.
  change (Z.of_nat 1000) with 1000%Z in H.
  replace (100 * ln (IZR 199 / IZR 100) / ln 2)
    with (100 * (ln (IZR 199 / IZR 100) / ln 2)) by (unfold Rdiv; ring).
  apply Rle_lt_trans with (100 * (ln (IZR 199 / IZR 100) / ln 2));
    [apply Rmin_r | lra].
Qed.

Lemma normalized_score_half : 14 / 10 < normalized_score (1 # 2).
Proof.
  unfold normalized_score, max_reasonable_weight.
  replace (1 + Q2R (1 # 2) / 50) with (IZR 101 / IZR 100)
    by (unfold Q2R; simpl; field).
  assert (H : IZR (Z.of_nat 14) / IZR (Z.of_nat 1000)
              < ln (IZR 101 / IZR 100) / ln 2).
  { apply log2_ratio_lower;
      [lia | lia | lia | apply Z.ltb_lt; vm_compute; reflexivity]. }
  change (Z.of_nat 14) with 14%Z in H.
  change (Z.of_nat 1000) with 1000%Z in H.
  replace (100 * ln (IZR 101 / IZR 100) / ln 2)
    with (100 * (ln (IZR 101 / IZR 100) / ln 2)) by (unfold Rdiv; ring).
  unfold Rmin.
  destruct (Rle_dec 100 (100 * (ln (IZR 101 / IZR 100) / ln 2))); lra.
Qed.

Lemma risk_score_below_saturation (findings : list Finding) :
  (Spec.totalWeight findings < 50)%Q ->
  calculate_risk_score findings <= 993 / 10.
Proof.
  intros Hlt. destruct findings as [| v vs]; [simpl; lra |].
  rewrite risk_score_cons.
  destruct (totalWeight_halves (v :: vs)) as [k Hk].
  assert (Hk99 : (Spec.totalWeight (v :: vs) <= 99 # 2)%Q).
  { rewrite Hk in *. unfold Qlt, Qle in *; simpl in *. lia. }
  assert (Hn : normalized_score (Spec.totalWeight (v :: vs))
               <= normalized_score (99 # 2))
    by (apply normalized_score_mono; [apply totalWeight_nonneg | exact Hk99]).
  pose proof normalized_score_99_halves as H99.
  assert (Hr : round1 (normalized_score (Spec.totalWeight (v :: vs)))
               <= round1 (IZR 993 / 10)) by (apply round1_mono; lra).
  rewrite round1_tenths in Hr. lra.
Qed.

(** X8. The score is 100 exactly from a total weight of 50 on: ten
    [high] or five [critical] findings saturate it.  Below a total
    weight of 50 the score is at most 99.3. *)
Theorem risk_score_saturation (findings : list Finding) :
  (calculate_risk_score findings = 100 <-> (50 <= total_weight findings)%Q)
  /\ ((total_weight findings < 50)%Q ->
      calculate_risk_score findings <= 993 / 10).
Proof.
  rewrite total_weight_sum. split; [split |].
  - intros Hscore.
    destruct (Qlt_le_dec (Spec.totalWeight findings) 50) as [Hlt | Hle];
      [exfalso | exact Hle].
    apply risk_score_below_saturation in Hlt. lra.
  - intros Hle. destruct findings as [| v vs]; [exfalso; now apply Hle |].
    rewrite risk_score_cons, normalized_score_saturated by exact Hle.
    apply round1_100.
  - apply risk_score_below_saturation.
Qed.

Lemma risk_score_saturation_witness :
  (total_weight [Sample.critical_finding; Sample.high_finding] < 50)%Q
  /\ calculate_risk_score [Sample.critical_finding; Sample.high_finding]
     <= 993 / 10.
Proof.
  assert (H : (total_weight [Sample.critical_finding; Sample.high_finding] < 50)%Q)
    by reflexivity.
  split; [exact H |].
  apply (proj2 (risk_score_saturation
                  [Sample.critical_finding; Sample.high_finding])).
  exact H.
Defined.

(** X9. The score is 0 only for the empty collection: any finding at
    all, even one of level [info], brings the score to 1.4 or more. *)
Theorem risk_score_zero_iff_empty (findings : list Finding) :
  (calculate_risk_score findings = 0 <-> findings = [])
  /\ (findings <> [] -> 14 / 10 <= calculate_risk_score findings).
Proof.
  assert (Hpos : findings <> [] -> 14 / 10 <= calculate_risk_score findings).
  { destruct findings as [| v vs]; [congruence | intros _].
    rewrite risk_score_cons.
    assert (Hn : normalized_score (1 # 2)
                 <= normalized_score (Spec.totalWeight (v :: vs)))
      by (apply normalized_score_mono; [discriminate | apply totalWeight_half]).
    pose proof normalized_score_half as Hh.
    replace (14 / 10) with (round1 (IZR 14 / 10)) by apply round1_tenths.
    apply round1_mono. lra. }
  split; [| exact Hpos].
  split.
  - intros H0. destruct findings as [| v vs]; [reflexivity |].
    assert (Hne : v :: vs <> []) by discriminate.
    specialize (Hpos Hne). lra.
  - intros ->. reflexivity.
Qed.

Lemma risk_score_zero_iff_empty_witness :
  [Sample.low_finding] <> []
  /\ 14 / 10 <= calculate_risk_score [Sample.low_finding].
Proof.
  assert (H : [Sample.low_finding] <> []) by discriminate.
  split; [exact H |].
  apply (proj2 (risk_score_zero_iff_empty [Sample.low_finding])). exact H.
Defined.

Lemma totalWeight_perm (vs ws : list Finding) :
  Permutation vs ws -> (Spec.totalWeight vs == Spec.totalWeight ws)%Q.
Proof.
  induction 1; simpl.
  - reflexivity.
  - now rewrite IHPermutation.
  - ring.
  - now rewrite IHPermutation1.
Qed.

(** X10. The score does not depend on the order of the findings. *)
Theorem risk_score_order_independent (findings1 findings2 : list Finding) :
  Permutation findings1 findings2 ->
  calculate_risk_score findings1 = calculate_risk_score findings2.
Proof.
  intros Hp. pose proof (totalWeight_perm _ _ Hp) as Hw.
  destruct findings1 as [| v1 vs1].
  - apply Permutation_nil in Hp. now subst.
  - destruct findings2 as [| v2 vs2].
    + symmetry in Hp. apply Permutation_nil in Hp. discriminate.
    + rewrite !risk_score_cons. f_equal. now apply normalized_score_Qeq.
Qed.

Lemma risk_score_order_independent_witness :
  calculate_risk_score [Sample.low_finding; Sample.critical_finding]
  = calculate_risk_score [Sample.critical_finding; Sample.low_finding].
Proof.
  apply risk_score_order_independent. apply perm_swap.
Defined.

End ScoreRange.

(* ================================================================== *)
(** ** Where a fix comes from *)

Section FixOrigin.
Import FixGenerator.
Variable re_search : string -> string -> result (option Re.re_match).

Lemma type_based_fix_low (v : Finding) :
  PyDict.get "confidence" (_generate_type_based_fix v) = Some "low"%string.
Proof.
  pose proof (type_based_fix_generic v) as H.
  unfold Spec.generic_suggestions in H; simpl in H.
  repeat destruct H as [<- | H]; try reflexivity; contradiction.
Qed.

Lemma apply_template_medium (template : Template) (code_snippet : string)
    (f : Fix) :
  _apply_template re_search template code_snippet = Some f ->
  PyDict.get "confidence" f = Some "medium"%string.
Proof.
  intros H. destruct (apply_template_shape _ _ _ _ H) as (c & e & ->).
  reflexivity.
Qed.

Lemma try_templates_origin (templates : PyDict.dict Template) (v : Finding)
    (vuln_type code_snippet : string) (f : Fix) :
  try_templates re_search templates v vuln_type code_snippet = Some f ->
  f = _generate_type_based_fix v
  \/ exists template_type template,
       In (template_type, template) templates
       /\ PyStr.contains template_type vuln_type = true
       /\ _apply_template re_search template code_snippet = Some f.
Proof.
  induction templates as [| [tt t] rest IH]; simpl.
  - intros H; injection H as <-. now left.
  - assert (Hrest : try_templates re_search rest v vuln_type code_snippet = Some f ->
                    f = _generate_type_based_fix v
                    \/ exists template_type template,
                         ((tt, t) = (template_type, template)
                          \/ In (template_type, template) rest)
                         /\ PyStr.contains template_type vuln_type = true
                         /\ _apply_template re_search template code_snippet = Some f).
    { intros H. destruct (IH H) as [-> | (tt' & t' & Hin & Hc & Ha)];
        [now left | right]. exists tt', t'. tauto. }
    destruct (PyStr.contains tt vuln_type) eqn:Ec; [| exact Hrest].
    destruct (_apply_template re_search t code_snippet) as [[| kv g] |] eqn:Ea;
      simpl; try exact Hrest.
    intros H; injection H as <-. right. exists tt, t. tauto.
Qed.

(** The loop stops at the first template that applies. *)
Lemma try_templates_first (pre post : PyDict.dict Template)
    (template_type : string) (template : Template) (v : Finding)
    (vuln_type code_snippet : string) (f : Fix) :
  (forall tt t, In (tt, t) pre ->
                PyStr.contains tt vuln_type = false
                \/ _apply_template re_search t code_snippet = None) ->
  PyStr.contains template_type vuln_type = true ->
  _apply_template re_search template code_snippet = Some f ->
  try_templates re_search (pre ++ (template_type, template) :: post)
                v vuln_type code_snippet = Some f.
Proof.
  intros Hpre Hc Ha.
  induction pre as [| [tt t] pre IH]; simpl.
  - rewrite Hc, Ha.
    destruct (apply_template_shape _ _ _ _ Ha) as (c & e & ->). reflexivity.
  - assert (IH' := IH (fun tt' t' Hin => Hpre tt' t' (or_intror Hin))).
    destruct (Hpre tt t (or_introl eq_refl)) as [-> | ->]; [exact IH' |].
    simpl. now destruct (PyStr.contains tt vuln_type).
Qed.

Lemma try_templates_same_fallback (templates : PyDict.dict Template)
    (v v' : Finding) (vuln_type code_snippet : string) :
  _generate_type_based_fix v = _generate_type_based_fix v' ->
  try_templates re_search templates v vuln_type code_snippet
  = try_templates re_search templates v' vuln_type code_snippet.
Proof.
  intros H. induction templates as [| [tt t] rest IH]; simpl.
  - now rewrite H.
  - now rewrite IH.
Qed.

End FixOrigin.

(** X11. A registered template never gets its replacement filled in:
    for each of the four templates of [fix_templates], whatever the
    snippet and whatever the pattern matched, the fix returned by
    [_apply_template] has the template's replacement text as its
    [fixed_code], the template's explanation, and confidence [medium]. *)
Theorem registered_templates_return_replacement
    (re_search : string -> string -> result (option Re.re_match))
    (template_type : string) (template : FixGenerator.Template)
    (code_snippet : string) (f : FixGenerator.Fix) :
  In (template_type, template) FixGenerator.fix_templates ->
  FixGenerator._apply_template re_search template code_snippet = Some f ->
  PyDict.get "fixed_code" f = PyDict.get "replacement" template
  /\ PyDict.get "explanation" f = PyDict.get "explanation" template
  /\ PyDict.get "confidence" f = Some "medium"%string.
Proof.
  intros Hin. unfold FixGenerator._apply_template,
    FixGenerator._apply_template_body, bind.
  simpl in Hin.
  repeat destruct Hin as [Hin | Hin]; try contradiction;
    injection Hin as <- <-; simpl;
    match goal with
    | |- context [re_search ?p ?s] => destruct (re_search p s) as [[m |] |]
    end; try discriminate; intros H; injection H as <-; repeat split.
Qed.

Lemma registered_templates_return_replacement_witness :
  exists f : FixGenerator.Fix,
    FixGenerator._apply_template Re.search
      (PyDict.get_default "insecure_deserialization" [] FixGenerator.fix_templates)
      "    return pickle.loads(data)" = Some f
    /\ PyDict.get "fixed_code" f
       = PyDict.get "replacement"
           (PyDict.get_default "insecure_deserialization" []
              FixGenerator.fix_templates).
Proof.
  assert (E : exists f : FixGenerator.Fix,
               FixGenerator._apply_template Re.search
                 (PyDict.get_default "insecure_deserialization" []
                    FixGenerator.fix_templates)
                 "    return pickle.loads(data)" = Some f)
    by (eexists; reflexivity).
  destruct E as [f E]. exists f. split; [exact E |].
  refine (proj1 (registered_templates_return_replacement Re.search
                   "insecure_deserialization" _ _ f _ E)).
  right; right; right; left. reflexivity.
Defined.

(** X12. Every result of [generate_fix] is accounted for: it is either
    the type-based fallback, with confidence [low], or what
    [_apply_template] returns for a registered template whose key occurs
    in the lower-cased type, with confidence [medium]. *)
Theorem generate_fix_origin
    (re_search : string -> string -> result (option Re.re_match))
    (v : Finding) (f : FixGenerator.Fix) :
  let vuln_type := PyStr.lower (field_get (type v) ""%string) in
  let snippet := field_get (code_snippet v) ""%string in
  FixGenerator.generate_fix re_search v = Some f ->
  (f = FixGenerator._generate_type_based_fix v
   /\ PyDict.get "confidence" f = Some "low"%string)
  \/ (exists template_type template,
        In (template_type, template) FixGenerator.fix_templates
        /\ PyStr.contains template_type vuln_type = true
        /\ FixGenerator._apply_template re_search template snippet = Some f
        /\ PyDict.get "confidence" f = Some "medium"%string).
Proof.
  intros vuln_type snippet H.
  apply try_templates_origin in H as [-> | (tt & t & Hin & Hc & Ha)].
  - left. split; [reflexivity | apply type_based_fix_low].
  - right. exists tt, t. repeat split; try assumption.
    now apply (apply_template_medium re_search t snippet).
Qed.

Lemma generate_fix_origin_witness :
  exists template_type template,
    In (template_type, template) FixGenerator.fix_templates
    /\ PyStr.contains template_type "hardcoded_secrets" = true
    /\ FixGenerator._apply_template Re.search template Sample.secret_snippet
       = FixGenerator.generate_fix Re.search Sample.secret_finding.
Proof.
  destruct (generate_fix_origin Re.search Sample.secret_finding _ eq_refl)
    as [[Hf _] | (tt & t & Hin & Hc & Ha & _)].
  - discriminate Hf.
  - exists tt, t. repeat split; assumption.
Defined.

(** X13. The templates are tried in the order of [fix_templates] and the
    first that applies decides: when a template's key occurs in the type
    and it yields a fix, and every template before it is skipped or
    yields none, that fix is the result of [generate_fix], whatever the
    later templates would give. *)
Theorem generate_fix_first_applicable
    (re_search : string -> string -> result (option Re.re_match))
    (v : Finding) (pre post : PyDict.dict FixGenerator.Template)
    (template_type : string) (template : FixGenerator.Template)
    (f : FixGenerator.Fix) :
  let vuln_type := PyStr.lower (field_get (type v) ""%string) in
  let snippet := field_get (code_snippet v) ""%string in
  FixGenerator.fix_templates = pre ++ (template_type, template) :: post ->
  (forall tt t, In (tt, t) pre ->
                PyStr.contains tt vuln_type = false
                \/ FixGenerator._apply_template re_search t snippet = None) ->
  PyStr.contains template_type vuln_type = true ->
  FixGenerator._apply_template re_search template snippet = Some f ->
  FixGenerator.generate_fix re_search v = Some f.
Proof.
  intros vuln_type snippet Hsplit Hpre Hc Ha.
  unfold FixGenerator.generate_fix. rewrite Hsplit.
  now apply try_templates_first.
Qed.

Lemma generate_fix_first_applicable_witness :
  FixGenerator.generate_fix Re.search Sample.secret_finding
  = FixGenerator._apply_template Re.search
      (PyDict.get_default "hardcoded_secrets" [] FixGenerator.fix_templates)
      Sample.secret_snippet.
Proof.
  refine (generate_fix_first_applicable Re.search Sample.secret_finding
            (firstn 2 FixGenerator.fix_templates)
            (skipn 3 FixGenerator.fix_templates)
            "hardcoded_secrets" _ _ eq_refl _ eq_refl eq_refl).
  intros tt t [Hin | [Hin | []]]; injection Hin as <- <-; left; reflexivity.
Defined.

(** X14. [generate_fix] reads only the type, without regard to case, and
    the snippet: two findings that agree on these get the same fix,
    whatever their file, level and confidence are, and an absent type or
    snippet counts as the empty string. *)
Theorem generate_fix_reads_type_and_snippet
    (re_search : string -> string -> result (option Re.re_match))
    (v v' : Finding) :
  PyStr.lower (field_get (type v) ""%string)
  = PyStr.lower (field_get (type v') ""%string) ->
  field_get (code_snippet v) ""%string = field_get (code_snippet v') ""%string ->
  FixGenerator.generate_fix re_search v = FixGenerator.generate_fix re_search v'.
Proof.
  intros Ht Hs. unfold FixGenerator.generate_fix. rewrite Ht, Hs.
  apply try_templates_same_fallback.
  unfold FixGenerator._generate_type_based_fix. now rewrite Ht, Hs.
Qed.

Lemma generate_fix_reads_type_and_snippet_witness :
  FixGenerator.generate_fix Re.search Sample2.shouting_finding
  = FixGenerator.generate_fix Re.search Sample2.quiet_finding.
Proof.
  apply generate_fix_reads_type_and_snippet; reflexivity.
Defined.

(** X15. A malformed template is harmless: when a template lacks its
    pattern, its replacement or its explanation, or when the search for
    its pattern raises, [_apply_template] returns [None] and raises
    nothing. *)
Theorem apply_template_malformed
    (re_search : string -> string -> result (option Re.re_match))
    (template : FixGenerator.Template) (code_snippet : string) :
  PyDict.get "pattern" template = None
  \/ PyDict.get "replacement" template = None
  \/ PyDict.get "explanation" template = None
  \/ (exists pattern e,
        PyDict.get "pattern" template = Some pattern
        /\ re_search pattern code_snippet = Raise e) ->
  FixGenerator._apply_template re_search template code_snippet = None.
Proof.
  unfold FixGenerator._apply_template, FixGenerator._apply_template_body,
    bind, getitem.
  intros [Hp | [Hr | [He | (p & e & Hp & Hs)]]].
  - now rewrite Hp.
  - rewrite Hr. now destruct (PyDict.get "pattern" template).
  - rewrite He. destruct (PyDict.get "pattern" template); [| reflexivity].
    now destruct (PyDict.get "replacement" template).
  - rewrite Hp, Hs.
    destruct (PyDict.get "replacement" template); [| reflexivity].
    now destruct (PyDict.get "explanation" template).
Qed.

Lemma apply_template_malformed_witness :
  FixGenerator._apply_template Re.search
    [ ("pattern", "(\w+)"); ("replacement", "{}") ]%string "token" = None.
Proof.
  apply apply_template_malformed. right; right; left. reflexivity.
Defined.

(** X16. A finding without a type gets the default manual-review
    suggestion, with its snippet after the comment mark: no template key
    and no category word occurs in the empty string. *)
Theorem generate_fix_without_type
    (re_search : string -> string -> result (option Re.re_match))
    (v : Finding) :
  field_get (type v) ""%string = ""%string ->
  FixGenerator.generate_fix re_search v
  = Some (FixGenerator.default_fix (field_get (code_snippet v) ""%string)).
Proof.
  intros Ht. unfold FixGenerator.generate_fix.
  rewrite Ht. simpl.
  unfold FixGenerator._generate_type_based_fix. rewrite Ht. reflexivity.
Qed.

Lemma generate_fix_without_type_witness :
  FixGenerator.generate_fix Re.search Sample2.bare_finding
  = Some (FixGenerator.default_fix "").
Proof.
  apply (generate_fix_without_type Re.search Sample2.bare_finding). reflexivity.
Defined.

Lemma format_environ (name env_name : string) :
  format "{} = os.environ.get('{}', '')" [name; env_name]
  = Ok (name ++ " = os.environ.get('" ++ env_name ++ "', '')")%string.
Proof. reflexivity. Qed.

(** X17. The branches of [_apply_template] for a template dictionary
    without a [sql_injection] key whose pattern re-matches.  With a
    [command_injection] key, or without a [hardcoded_secrets] key, the
    fix carries the replacement text as it stands.  Otherwise (a
    [hardcoded_secrets] key and no [command_injection] key) the
    substitution of lines 68 to 72 is made: with the replacement text of
    the registry and a first group [name], the fix is the lookup
    [name = os.environ.get('NAME', '')] with the name in capitals when
    the pattern has a second group, and there is no fix ([None]) when it
    has none. *)
Theorem apply_template_keyed_secrets
    (re_search : string -> string -> result (option Re.re_match))
    (template : FixGenerator.Template)
    (code_snippet pattern replacement explanation : string)
    (m : Re.re_match) :
  PyDict.mem "sql_injection" template = false ->
  PyDict.get "pattern" template = Some pattern ->
  PyDict.get "replacement" template = Some replacement ->
  PyDict.get "explanation" template = Some explanation ->
  re_search pattern code_snippet = Ok (Some m) ->
  (PyDict.mem "command_injection" template = true
   \/ PyDict.mem "hardcoded_secrets" template = false ->
   FixGenerator._apply_template re_search template code_snippet
   = Some [ ("fixed_code", replacement);
            ("explanation", explanation);
            ("confidence", "medium") ]%string)
  /\ (PyDict.mem "command_injection" template = false ->
      PyDict.mem "hardcoded_secrets" template = true ->
      replacement = "{} = os.environ.get('{}', '')"%string ->
      forall name : string,
        Re.group 1 m = Ok (Some name) ->
        (forall secret : option string,
            Re.group 2 m = Ok secret ->
            FixGenerator._apply_template re_search template code_snippet
            = Some [ ("fixed_code",
                      name ++ " = os.environ.get('" ++ PyStr.upper name
                        ++ "', '')");
                     ("explanation", explanation);
                     ("confidence", "medium") ]%string)
        /\ (forall e : exn,
               Re.group 2 m = Raise e ->
               FixGenerator._apply_template re_search template code_snippet
               = None)).
Proof.
  intros Hsql Hp Hr He Hs.
  unfold FixGenerator._apply_template, FixGenerator._apply_template_body,
    bind, getitem.
  rewrite Hp, Hr, He, Hs, Hsql.
  split.
  - intros [Hcmd | Hsec].
    + now rewrite Hcmd.
    + rewrite Hsec. now destruct (PyDict.mem "command_injection" template).
  - intros Hcmd Hsec -> name Hg1. rewrite Hcmd, Hsec, Hg1.
    split.
    + intros secret Hg2. rewrite Hg2.
      cbn [on_str py_str]. now rewrite format_environ.
    + intros e Hg2. now rewrite Hg2.
Qed.

Lemma apply_template_keyed_secrets_witness :
  FixGenerator._apply_template Re.search Sample2.keyed_secret_template
    Sample.secret_snippet
  = Some [ ("fixed_code", "password = os.environ.get('PASSWORD', '')");
           ("explanation", "Store secrets in environment variables.");
           ("confidence", "medium") ]%string
  /\ FixGenerator._apply_template Re.search Sample2.one_group_template
       Sample.secret_snippet = None
  /\ FixGenerator._apply_template Re.search
       (PyDict.get_default "hardcoded_secrets" [] FixGenerator.fix_templates)
       Sample.secret_snippet
     = Some [ ("fixed_code", "{} = os.environ.get('{}', '')");
              ("explanation",
               "Store secrets in environment variables or a secure vault service.");
              ("confidence", "medium") ]%string.
Proof.
  split; [| split].
  - refine (proj1 (proj2 (apply_template_keyed_secrets Re.search
              Sample2.keyed_secret_template Sample.secret_snippet
              FixGenerator.hardcoded_secrets_pattern _ _
              {| Re.ngroups := 2;
                 Re.caps := [ (2, "hardcoded_secret123"); (1, "password") ]%string |}
              eq_refl eq_refl eq_refl eq_refl eq_refl)
              eq_refl eq_refl eq_refl "password"%string eq_refl)
            (Some "hardcoded_secret123"%string) eq_refl).
  - refine (proj2 (proj2 (apply_template_keyed_secrets Re.search
              Sample2.one_group_template Sample.secret_snippet
              "(\w+)\s*=" _ _
              {| Re.ngroups := 1; Re.caps := [ (1, "password") ]%string |}
              eq_refl eq_refl eq_refl eq_refl eq_refl)
              eq_refl eq_refl eq_refl "password"%string eq_refl)
            IndexError eq_refl).
  - refine (proj1 (apply_template_keyed_secrets Re.search
              (PyDict.get_default "hardcoded_secrets" [] FixGenerator.fix_templates)
              Sample.secret_snippet
              FixGenerator.hardcoded_secrets_pattern _ _
              {| Re.ngroups := 2;
                 Re.caps := [ (2, "hardcoded_secret123"); (1, "password") ]%string |}
              eq_refl eq_refl eq_refl eq_refl eq_refl)
            (or_intror eq_refl)).
Defined.

(* ================================================================== *)
(** ** [os.path.splitext] and the language table *)

Section Splitext.
Import CodeAnalyzer.
Local Open Scope Z_scope.

Lemma take_drop (n : nat) (s : string) : (Re.take n s ++ drop n s)%string = s.
Proof.
  revert s; induction n as [| n IH]; intros [| c s]; simpl; try reflexivity.
  now rewrite IH.
Qed.

Lemma count_char_app (c : ascii) (a b : string) :
  count_char c (a ++ b) = (count_char c a + count_char c b)%nat.
Proof.
  induction a as [| x a IH]; simpl; [reflexivity |]. rewrite IH. lia.
Qed.

Lemma rfind_from_range (c : ascii) (s : string) (i : Z) :
  0 <= i ->
  rfind_from c s i = -1
  \/ i <= rfind_from c s i < i + Z.of_nat (String.length s).
Proof.
  revert i; induction s as [| a s IH]; intros i Hi; simpl String.length;
    cbn [rfind_from]; [now left |].
  destruct (IH (i + 1) ltac:(lia)) as [Hn | Hr].
  - rewrite Hn. simpl. destruct (Ascii.eqb a c); [right | left]; lia.
  - destruct (0 <=? rfind_from c s (i + 1)) eqn:E; [right; lia |].
    apply Z.leb_gt in E. lia.
Qed.

(** No occurrence: [rfind] answers -1. *)
Lemma rfind_from_none (c : ascii) (s : string) (i : Z) :
  count_char c s = 0%nat -> rfind_from c s i = -1.
Proof.
  revert i; induction s as [| a s IH]; intros i H; cbn [rfind_from];
    [reflexivity |].
  simpl in H. destruct (Ascii.eqb a c); [discriminate |].
  rewrite IH by exact H. reflexivity.
Qed.

(** The last occurrence is found. *)
Lemma rfind_from_last (c : ascii) (a b : string) (i : Z) :
  0 <= i -> count_char c b = 0%nat ->
  rfind_from c (a ++ String c b) i = i + Z.of_nat (String.length a).
Proof.
  intros Hi Hb. revert i Hi; induction a as [| x a IH]; intros i Hi.
  - cbn [append rfind_from String.length].
    rewrite rfind_from_none by exact Hb. simpl.
    rewrite Ascii.eqb_refl. lia.
  - cbn [append rfind_from String.length].
    rewrite IH by lia.
    destruct (0 <=? i + 1 + Z.of_nat (String.length a)) eqn:E; [lia |].
    apply Z.leb_gt in E. lia.
Qed.

(** Text without the character, put behind, does not change the answer. *)
Lemma rfind_from_app_none (c : ascii) (a b : string) (i : Z) :
  count_char c b = 0%nat -> rfind_from c (a ++ b) i = rfind_from c a i.
Proof.
  intros Hb. revert i; induction a as [| x a IH]; intros i.
  - simpl. now apply rfind_from_none.
  - cbn [append rfind_from]. now rewrite IH.
Qed.

Lemma get_app_length (a : string) (c : ascii) (b : string) :
  String.get (String.length a) (a ++ String c b) = Some c.
Proof. induction a as [| x a IH]; simpl; [reflexivity | exact IH]. Qed.

Lemma take_app_length (a b : string) : Re.take (String.length a) (a ++ b) = a.
Proof.
  induction a as [| x a IH]; simpl; [now destruct b | now rewrite IH].
Qed.

Lemma drop_app_length (a b : string) : drop (String.length a) (a ++ b) = b.
Proof. induction a as [| x a IH]; simpl; [reflexivity | exact IH]. Qed.

(** The loop returns the path whole or cut at the dot. *)
Lemma splitext_loop_cases (fuel : nat) (p : string) (f d : Z) :
  splitext_loop fuel p f d = (p, EmptyString)
  \/ splitext_loop fuel p f d = (Re.take (Z.to_nat d) p, drop (Z.to_nat d) p).
Proof.
  revert f; induction fuel as [| fuel IH]; intros f; simpl; [now left |].
  destruct (f <? d); [| now left].
  destruct (String.get (Z.to_nat f) p) as [x |]; [| now right].
  destruct (Ascii.eqb x ".") eqn:E.
  - apply Ascii.eqb_eq in E; subst x. apply IH.
  - right. destruct x as [[] [] [] [] [] [] [] []]; try reflexivity.
    discriminate E.
Qed.

Lemma rfind_from_neg (c : ascii) (s : string) (i : Z) :
  0 <= i -> rfind_from c s i = -1 -> count_char c s = 0%nat.
Proof.
  revert i; induction s as [| x s IH]; intros i Hi; cbn [rfind_from count_char];
    [reflexivity |].
  destruct (rfind_from_range c s (i + 1) ltac:(lia)) as [Hn | Hr].
  - rewrite Hn. simpl. destruct (Ascii.eqb x c); [lia |].
    intros _. now rewrite (IH (i + 1)) by (lia || exact Hn).
  - destruct (0 <=? rfind_from c s (i + 1)) eqn:E; [lia |].
    apply Z.leb_gt in E. lia.
Qed.

(** What [rfind] finds is the last occurrence. *)
Lemma rfind_from_found (c : ascii) (s : string) (i : Z) :
  0 <= i -> rfind_from c s i <> -1 ->
  exists a b : string,
    s = (a ++ String c b)%string
    /\ count_char c b = 0%nat
    /\ rfind_from c s i = i + Z.of_nat (String.length a).
Proof.
  revert i; induction s as [| x s IH]; intros i Hi; cbn [rfind_from];
    [congruence |].
  destruct (rfind_from_range c s (i + 1) ltac:(lia)) as [Hn | Hr].
  - rewrite Hn. simpl. destruct (Ascii.eqb x c) eqn:E; [| congruence].
    intros _. apply Ascii.eqb_eq in E; subst x.
    exists EmptyString, s. simpl. repeat split; [| lia].
    now apply (rfind_from_neg c s (i + 1)); [lia |].
  - assert (E : (0 <=? rfind_from c s (i + 1)) = true) by (apply Z.leb_le; lia).
    rewrite E. intros _.
    destruct (IH (i + 1) ltac:(lia) ltac:(lia)) as (a & b & -> & Hb & Hr').
    exists (String x a), b. simpl String.length. repeat split; [exact Hb |].
    rewrite Hr'. lia.
Qed.

Lemma rfind_from_some (c : ascii) (s : string) (i : Z) :
  0 <= i -> count_char c s <> 0%nat -> i <= rfind_from c s i.
Proof.
  intros Hi Hc. destruct (rfind_from_range c s i Hi) as [Hn | Hr]; [| lia].
  apply rfind_from_neg in Hn; [contradiction | exact Hi].
Qed.

Lemma rfind_from_app_some (c : ascii) (a b : string) (i : Z) :
  0 <= i -> count_char c b <> 0%nat ->
  i + Z.of_nat (String.length a) <= rfind_from c (a ++ b) i.
Proof.
  intros Hi Hb. revert i Hi; induction a as [| x a IH]; intros i Hi.
  - simpl. pose proof (rfind_from_some c b i Hi Hb). lia.
  - cbn [append rfind_from String.length].
    specialize (IH (i + 1) ltac:(lia)).
    destruct (0 <=? rfind_from c (a ++ b) (i + 1)) eqn:E; [lia |].
    apply Z.leb_gt in E. lia.
Qed.

End Splitext.

Lemma append_empty_r (s : string) : (s ++ EmptyString)%string = s.
Proof. induction s as [| c s IH]; simpl; congruence. Qed.

(** X18. [splitext] cuts a path in two parts that put together give the
    path back.  The second part is empty, or it starts at the last dot of
    the path and has no other dot and no slash in it. *)
Theorem splitext_parts (p : string) :
  let (root, ext) := CodeAnalyzer.splitext p in
  (root ++ ext)%string = p
  /\ (ext = EmptyString
      \/ exists e : string,
           ext = String "." e
           /\ CodeAnalyzer.count_char "." e = 0
           /\ CodeAnalyzer.count_char "/" e = 0).
Proof.
  unfold CodeAnalyzer.splitext.
  set (sep := CodeAnalyzer.rfind "/" p). set (dot := CodeAnalyzer.rfind "." p).
  assert (Hsep : (-1 <= sep)%Z).
  { subst sep. unfold CodeAnalyzer.rfind.
    destruct (rfind_from_range "/" p 0 ltac:(lia)); lia. }
  destruct (sep <? dot)%Z eqn:E.
  2:{ split; [apply append_empty_r | now left]. }
  apply Z.ltb_lt in E.
  destruct (splitext_loop_cases (String.length p) p (sep + 1) dot) as [-> | ->].
  { split; [apply append_empty_r | now left]. }
  split; [apply take_drop |]. right.
  destruct (rfind_from_found "." p 0 ltac:(lia)) as (a & b & Hp & Hb & Hd).
  { fold (CodeAnalyzer.rfind "." p). fold dot. lia. }
  fold (CodeAnalyzer.rfind "." p) in Hd. fold dot in Hd.
  exists b. rewrite Hd, Hp. simpl. rewrite Nat2Z.id, drop_app_length.
  repeat split; [exact Hb |].
  destruct (CodeAnalyzer.count_char "/" b) eqn:Hs; [reflexivity | exfalso].
  assert (Hge : (0 + Z.of_nat (String.length a)
                 <= CodeAnalyzer.rfind_from "/" (a ++ String "." b) 0)%Z).
  { apply rfind_from_app_some; [lia |]. simpl. rewrite Hs. discriminate. }
  rewrite <- Hp in Hge. fold (CodeAnalyzer.rfind "/" p) in Hge. fold sep in Hge.
  lia.
Qed.

Lemma get_In_values {V : Type} (k : string) (v : V) (d : PyDict.dict V) :
  PyDict.get k d = Some v -> In v (PyDict.values d).
Proof.
  unfold PyDict.values.
  induction d as [| [k' v'] d IH]; simpl; [discriminate |].
  destruct (String.eqb k k'); [intros H; injection H as ->; now left |].
  intros H; right; now apply IH.
Qed.

(** X19. A file is supported exactly when its language is not
    [Unknown]: [is_supported_file] and [get_file_language] read the same
    table, in which no language is called [Unknown]. *)
Theorem supported_iff_language_known (file_path : string) :
  CodeAnalyzer.is_supported_file file_path = true
  <-> CodeAnalyzer.get_file_language file_path <> "Unknown"%string.
Proof.
  unfold CodeAnalyzer.is_supported_file, CodeAnalyzer.get_file_language,
    PyDict.mem, PyDict.get_default.
  destruct (PyDict.get _ CodeAnalyzer.SUPPORTED_EXTENSIONS) as [language |] eqn:E.
  - split; [intros _ | reflexivity].
    apply get_In_values in E. simpl in E.
    repeat destruct E as [<- | E]; try discriminate. contradiction.
  - split; [discriminate | congruence].
Qed.

Section Extensions.
Import CodeAnalyzer.
Local Open Scope Z_scope.

Lemma str_app_assoc (a b c : string) :
  ((a ++ b) ++ c)%string = (a ++ (b ++ c))%string.
Proof. induction a as [| x a IH]; simpl; congruence. Qed.

Lemma str_app_length (a b : string) :
  String.length (a ++ b) = (String.length a + String.length b)%nat.
Proof. induction a as [| x a IH]; simpl; congruence. Qed.

(** A directory prefix: nothing, or text ending in a slash. *)
Lemma sep_after_prefix (pre tail : string) :
  pre = EmptyString \/ (exists d : string, pre = (d ++ "/")%string) ->
  count_char "/" tail = 0%nat ->
  rfind "/" (pre ++ tail) + 1 = Z.of_nat (String.length pre).
Proof.
  unfold rfind. intros [-> | [d ->]] Ht.
  - simpl. now rewrite rfind_from_none.
  - rewrite str_app_assoc. simpl append.
    rewrite rfind_from_last by (lia || exact Ht).
    rewrite str_app_length. simpl. lia.
Qed.

Lemma dot_in_prefix (pre : string) :
  pre = EmptyString \/ (exists d : string, pre = (d ++ "/")%string) ->
  rfind "." pre + 1 < Z.of_nat (String.length pre)
  \/ (pre = EmptyString /\ rfind "." pre = -1).
Proof.
  unfold rfind. intros [-> | [d ->]]; [now right | left].
  rewrite rfind_from_app_none by reflexivity.
  rewrite str_app_length. simpl.
  destruct (rfind_from_range "." d 0 ltac:(lia)); lia.
Qed.

Lemma splitext_loop_settled (fuel : nat) (p : string) (f d : Z) (c : ascii) :
  f < d -> String.get (Z.to_nat f) p = Some c -> c <> "."%char ->
  splitext_loop (S fuel) p f d
  = (Re.take (Z.to_nat d) p, drop (Z.to_nat d) p).
Proof.
  intros Hfd Hget Hc. cbn [splitext_loop].
  apply Z.ltb_lt in Hfd. rewrite Hfd, Hget.
  destruct c as [[] [] [] [] [] [] [] []]; try reflexivity. congruence.
Qed.

(** The split of a path whose file name begins with something other
    than a dot and ends with a dot and an extension. *)
Lemma splitext_plain (pre name e : string) :
  pre = EmptyString \/ (exists d : string, pre = (d ++ "/")%string) ->
  count_char "/" name = 0%nat ->
  (exists c rest, name = String c rest /\ c <> "."%char) ->
  count_char "." e = 0%nat ->
  count_char "/" e = 0%nat ->
  splitext (pre ++ name ++ String "." e) = ((pre ++ name)%string, String "." e).
Proof.
  intros Hpre Hname (c & rest & -> & Hc) He Hes.
  set (p := (pre ++ String c rest ++ String "." e)%string).
  assert (Hp : p = ((pre ++ String c rest) ++ String "." e)%string)
    by (subst p; now rewrite str_app_assoc).
  assert (Hsep : rfind "/" p + 1 = Z.of_nat (String.length pre)).
  { apply sep_after_prefix; [exact Hpre |].
    rewrite count_char_app. rewrite Hname. simpl. exact Hes. }
  assert (Hdot : rfind "." p = Z.of_nat (String.length (pre ++ String c rest))).
  { unfold rfind. rewrite Hp.
    rewrite rfind_from_last by (lia || exact He). lia. }
  assert (Hlen : String.length (pre ++ String c rest)
                 = (String.length pre + S (String.length rest))%nat)
    by (rewrite str_app_length; reflexivity).
  unfold splitext. fold p.
  assert (Hlt : rfind "/" p < rfind "." p) by lia.
  apply Z.ltb_lt in Hlt. rewrite Hlt. apply Z.ltb_lt in Hlt.
  destruct (String.length p) as [| fuel] eqn:El.
  { rewrite Hp, str_app_length in El. simpl in El. lia. }
  rewrite (splitext_loop_settled fuel p _ _ c); [| lia | | exact Hc].
  - rewrite Hdot, Nat2Z.id, Hp.
    now rewrite take_app_length, drop_app_length.
  - rewrite Hsep, Nat2Z.id. subst p. apply get_app_length.
Qed.

(** The split of a path whose file name has no dot, or only a leading
    one. *)
Lemma splitext_no_extension (pre name : string) :
  pre = EmptyString \/ (exists d : string, pre = (d ++ "/")%string) ->
  count_char "/" name = 0%nat ->
  count_char "." name = 0%nat
  \/ (exists rest, name = String "." rest /\ count_char "." rest = 0%nat) ->
  splitext (pre ++ name) = ((pre ++ name)%string, EmptyString).
Proof.
  intros Hpre Hname Hdots. unfold splitext.
  pose proof (sep_after_prefix pre name Hpre Hname) as Hsep.
  destruct Hdots as [Hnone | (rest & -> & Hrest)].
  - assert (Hdot : rfind "." (pre ++ name) = rfind "." pre)
      by (unfold rfind; now apply rfind_from_app_none).
    rewrite Hdot.
    destruct (rfind "/" (pre ++ name) <? rfind "." pre) eqn:E; [| reflexivity].
    apply Z.ltb_lt in E.
    destruct (dot_in_prefix pre Hpre) as [Hlt | [-> Hd]]; [lia |].
    rewrite Hd in E. change (Z.of_nat (String.length EmptyString)) with 0 in Hsep.
    lia.
  - assert (Hdot : rfind "." (pre ++ String "." rest)
                   = Z.of_nat (String.length pre))
      by (unfold rfind; rewrite rfind_from_last by (lia || exact Hrest); lia).
    rewrite Hdot.
    destruct (rfind "/" (pre ++ String "." rest) <? Z.of_nat (String.length pre));
      [| reflexivity].
    replace (rfind "/" (pre ++ String "." rest) + 1)
      with (Z.of_nat (String.length pre)) by lia.
    destruct (String.length (pre ++ String "." rest)); cbn [splitext_loop];
      [reflexivity |].
    now rewrite Z.ltb_irrefl.
Qed.

Lemma lower_char_dot (x : ascii) :
  Ascii.eqb (PyStr.lower_char x) "." = Ascii.eqb x ".".
Proof. destruct x as [[] [] [] [] [] [] [] []]; reflexivity. Qed.

Lemma lower_char_slash (x : ascii) :
  Ascii.eqb (PyStr.lower_char x) "/" = Ascii.eqb x "/".
Proof. destruct x as [[] [] [] [] [] [] [] []]; reflexivity. Qed.

Lemma count_dot_lower (s : string) :
  count_char "." (PyStr.lower s) = count_char "." s.
Proof.
  unfold PyStr.lower.
  induction s as [| x s IH]; simpl; [reflexivity |].
  now rewrite lower_char_dot, IH.
Qed.

Lemma count_slash_lower (s : string) :
  count_char "/" (PyStr.lower s) = count_char "/" s.
Proof.
  unfold PyStr.lower.
  induction s as [| x s IH]; simpl; [reflexivity |].
  now rewrite lower_char_slash, IH.
Qed.

(** Every key of the table is a dot followed by letters. *)
Lemma table_key_shape (k language : string) :
  PyDict.get k SUPPORTED_EXTENSIONS = Some language ->
  exists e, k = String "." e
            /\ count_char "." e = 0%nat /\ count_char "/" e = 0%nat.
Proof.
  intros H.
  assert (Hin : In k (PyDict.keys SUPPORTED_EXTENSIONS)).
  { destruct (in_dec string_dec k (PyDict.keys SUPPORTED_EXTENSIONS)) as [Hin | Hn];
      [exact Hin |].
    apply get_None_not_key in Hn. congruence. }
  simpl in Hin.
  repeat destruct Hin as [<- | Hin]; try (eexists; repeat split; reflexivity).
  contradiction.
Qed.

Lemma extension_shape (ext language : string) :
  PyDict.get (PyStr.lower ext) SUPPORTED_EXTENSIONS = Some language ->
  exists e, ext = String "." e
            /\ count_char "." e = 0%nat /\ count_char "/" e = 0%nat.
Proof.
  intros H. destruct (table_key_shape _ _ H) as (k' & Hk & Hd & Hs).
  destruct ext as [| x e]; [discriminate Hk |].
  simpl in Hk. injection Hk as Hx He.
  exists e. rewrite <- He, count_dot_lower, count_slash_lower in *.
  repeat split; try assumption.
  f_equal. apply Ascii.eqb_eq. rewrite <- lower_char_dot, Hx. reflexivity.
Qed.

End Extensions.

(** X20. Every extension of the table is recognised, in any case: for a
    path made of a directory prefix (empty, or ending in a slash), a file
    name without slash that does not begin with a dot, and an extension
    that lower-cased is a key of [SUPPORTED_EXTENSIONS],
    [is_supported_file] is true and [get_file_language] is the language
    of that key. *)
Theorem supported_extension_recognised (pre name ext language : string) :
  pre = EmptyString \/ (exists d : string, pre = (d ++ "/")%string) ->
  CodeAnalyzer.count_char "/" name = 0 ->
  (exists c rest, name = String c rest /\ c <> "."%char) ->
  PyDict.get (PyStr.lower ext) CodeAnalyzer.SUPPORTED_EXTENSIONS = Some language ->
  CodeAnalyzer.is_supported_file (pre ++ name ++ ext) = true
  /\ CodeAnalyzer.get_file_language (pre ++ name ++ ext) = language.
Proof.
  intros Hpre Hname Hfirst Hext.
  destruct (extension_shape _ _ Hext) as (e & -> & Hd & Hs).
  unfold CodeAnalyzer.is_supported_file, CodeAnalyzer.get_file_language,
    PyDict.mem, PyDict.get_default.
  rewrite (splitext_plain pre name e Hpre Hname Hfirst Hd Hs).
  cbn [snd]. now rewrite Hext.
Qed.

Lemma supported_extension_recognised_witness :
  CodeAnalyzer.is_supported_file "src/app/Main.PY" = true
  /\ CodeAnalyzer.get_file_language "src/app/Main.PY" = "Python"%string.
Proof.
  apply (supported_extension_recognised "src/app/" "Main" ".PY" "Python").
  - right. exists "src/app"%string. reflexivity.
  - reflexivity.
  - exists "M"%char, "ain"%string. split; [reflexivity | discriminate].
  - reflexivity.
Defined.

(** X21. A file name without a dot has no extension, and neither has a
    name whose only dot is its first character, such as [.py]: such a
    file is not supported and its language is [Unknown], whatever the
    directories above it are called. *)
Theorem no_extension_unsupported (pre name : string) :
  pre = EmptyString \/ (exists d : string, pre = (d ++ "/")%string) ->
  CodeAnalyzer.count_char "/" name = 0 ->
  CodeAnalyzer.count_char "." name = 0
  \/ (exists rest, name = String "." rest
                   /\ CodeAnalyzer.count_char "." rest = 0) ->
  CodeAnalyzer.is_supported_file (pre ++ name) = false
  /\ CodeAnalyzer.get_file_language (pre ++ name) = "Unknown"%string.
Proof.
  intros Hpre Hname Hdots.
  unfold CodeAnalyzer.is_supported_file, CodeAnalyzer.get_file_language.
  rewrite (splitext_no_extension pre name Hpre Hname Hdots).
  split; reflexivity.
Qed.

Lemma no_extension_unsupported_witness :
  CodeAnalyzer.is_supported_file "pkg.py/.py" = false
  /\ CodeAnalyzer.get_file_language "pkg.py/.py" = "Unknown"%string.
Proof.
  apply (no_extension_unsupported "pkg.py/" ".py").
  - right. exists "pkg.py"%string. reflexivity.
  - reflexivity.
  - right. exists "py"%string. split; reflexivity.
Defined.

(* ================================================================== *)
(** ** [find_files] *)

Section FindFiles.
Import CodeAnalyzer.

Lemma fstree_induction (P : fstree -> Prop) :
  (forall files dirs,
      (forall d sub, In (d, sub) dirs -> P sub) -> P (Dir files dirs)) ->
  forall tree, P tree.
Proof.
  intros H. fix IH 1. intros [files dirs]. apply H.
  induction dirs as [| [d0 sub0] rest IHrest]; intros d sub Hin.
  - destruct Hin.
  - destruct Hin as [Heq | Hin].
    + injection Heq as _ <-. apply IH.
    + exact (IHrest d sub Hin).
Qed.

(** The walk, one directory at a time. *)
Lemma find_files_Dir (directory : string) (files : list string)
    (dirs : list (string * fstree)) :
  find_files directory (Dir files dirs)
  = map (join directory) files
    ++ flat_map (fun ds => if excluded (fst ds) then []
                           else find_files (join directory (fst ds)) (snd ds))
                dirs.
Proof.
  cbn [find_files]. f_equal.
  induction dirs as [| [d sub] rest IH]; simpl; [reflexivity |].
  now rewrite IH.
Qed.

End FindFiles.

(** X22. [find_files] returns exactly the files that can be reached from
    the top directory without entering a sub-directory whose name is in
    [exclude_dirs]: the files of the top directory itself are always
    listed, and nothing below an excluded directory ever is. *)
Theorem find_files_listed
    (directory : string) (tree : CodeAnalyzer.fstree) (p : string) :
  In p (CodeAnalyzer.find_files directory tree)
  <-> Discovery.listed directory tree p.
Proof.
  split.
  - revert directory. induction tree as [files dirs IH] using fstree_induction.
    intros directory. rewrite find_files_Dir.
    intros Hin. apply in_app_or in Hin as [Hin | Hin].
    + apply in_map_iff in Hin as (f & <- & Hf). now constructor.
    + apply in_flat_map in Hin as ([d sub] & Hds & Hp). simpl in Hp.
      destruct (CodeAnalyzer.excluded d) eqn:E; [destruct Hp |].
      eapply Discovery.listed_below; eauto.
  - induction 1 as [directory files dirs f Hf
                   | directory files dirs d sub p Hds Hex _ IH];
      rewrite find_files_Dir; apply in_or_app.
    + left. now apply in_map.
    + right. apply in_flat_map. exists (d, sub). split; [exact Hds |].
      simpl. now rewrite Hex.
Qed.

(* ================================================================== *)
(** ** The line counters *)

Section Lines.
Import CodeAnalyzer.

(** [split] gives one line more than there are separators. *)
Lemma split_length (sep : ascii) (s : string) :
  List.length (split sep s) = count_char sep s + 1.
Proof.
  induction s as [| c s IH]; simpl; [reflexivity |].
  destruct (Ascii.eqb c sep); simpl.
  - now rewrite IH.
  - destruct (split sep s) as [| line lines]; simpl in *; lia.
Qed.

Lemma filter_shorter {A : Type} (f : A -> bool) (l : list A) :
  List.length (filter f l) <= List.length l.
Proof.
  induction l as [| x l IH]; simpl; [lia |].
  destruct (f x); simpl; lia.
Qed.

(** Removing matches removes characters and adds none. *)
Lemma count_char_remove (c : ascii) (r : Re.regex) (s : string) (skip : nat) :
  count_char c (remove_from r s skip) <= count_char c s.
Proof.
  revert skip; induction s as [| x s IH]; intros skip; simpl; [lia |].
  destruct skip as [| k].
  - destruct (match_here r (String x s)) as [[| y m] |]; simpl.
    + specialize (IH 0). lia.
    + specialize (IH (String.length m - 0)). lia.
    + specialize (IH 0). lia.
  - specialize (IH k). lia.
Qed.

End Lines.

(** X23. For every content and every language, [_count_code_lines]
    returns a number, and that number is at most [total_lines], the
    count of line breaks plus one: removing the triple-quoted regions of
    a Python file never adds a line. *)
Theorem code_lines_at_most_total (content language : string) :
  exists n : nat,
    CodeAnalyzer._count_code_lines content language = Ok n
    /\ n <= CodeAnalyzer.total_lines content.
Proof.
  unfold CodeAnalyzer._count_code_lines, CodeAnalyzer.total_lines.
  destruct (String.eqb language "Python").
  - unfold CodeAnalyzer.sub_empty, bind.
    destruct (CodeAnalyzer.compiled true CodeAnalyzer.triple_double)
      as [r1 |] eqn:E1; [| vm_compute in E1; discriminate E1].
    destruct (CodeAnalyzer.compiled true CodeAnalyzer.triple_single)
      as [r2 |] eqn:E2; [| vm_compute in E2; discriminate E2].
    eexists. split; [reflexivity |].
    etransitivity; [apply filter_shorter |].
    rewrite split_length.
    pose proof (count_char_remove Re.newline r2
                  (CodeAnalyzer.remove_from r1 content 0) 0).
    pose proof (count_char_remove Re.newline r1 content 0).
    lia.
  - eexists. split; [reflexivity |].
    etransitivity; [apply filter_shorter |].
    rewrite split_length. lia.
Qed.

(* ================================================================== *)
(** ** The dashboard: overall statistics against the trend *)

Section DashboardFacts.
Import Dashboard.

Lemma extend_fold_raise (scan_results : PyDict.dict ScanReport)
    (ids : list string) (e : exn) :
  fold_left (extend_step scan_results) ids (Raise e) = Raise e.
Proof. induction ids as [| i ids IH]; simpl; [reflexivity | exact IH]. Qed.

Lemma extend_step_ok (scan_results : PyDict.dict ScanReport)
    (acc : list Finding) (scan_id : string) :
  extend_step scan_results (Ok acc) scan_id
  = match PyDict.get scan_id scan_results with
    | None => Ok acc
    | Some report =>
        match vulnerabilities report with
        | Some vulns => Ok (acc ++ vulns)
        | None => Raise KeyError
        end
    end.
Proof. reflexivity. Qed.

(** When the loop ends well, it has put the findings of the resolved
    reports end to end. *)
Lemma extend_fold_ok (scan_results : PyDict.dict ScanReport)
    (ids : list string) (acc all : list Finding) :
  fold_left (extend_step scan_results) ids (Ok acc) = Ok all ->
  all = acc ++ flat_map (fun r => field_get (vulnerabilities r) [])
                        (Spec.resolved ids scan_results).
Proof.
  revert acc; induction ids as [| i ids IH]; intros acc; cbn [fold_left].
  - intros H; injection H as <-. simpl. now rewrite app_nil_r.
  - rewrite extend_step_ok. cbn [Spec.resolved].
    destruct (PyDict.get i scan_results) as [report |]; [| apply IH].
    destruct (vulnerabilities report) as [vulns |] eqn:Ev.
    + intros H. apply IH in H. subst all. simpl.
      unfold field_get at 2. rewrite Ev. now rewrite app_assoc.
    + rewrite extend_fold_raise. discriminate.
Qed.

Lemma count_level_sum (k : string) (reports : list ScanReport) :
  count_occ string_dec
    (map Spec.level_of
         (flat_map (fun r => field_get (vulnerabilities r) []) reports)) k
  = list_sum (map (Spec.count_level k) reports).
Proof.
  induction reports as [| r rs IH]; simpl; [reflexivity |].
  rewrite map_app, count_occ_app, IH. reflexivity.
Qed.

Lemma sizes_sum (reports : list ScanReport) :
  List.length (flat_map (fun r => field_get (vulnerabilities r) []) reports)
  = list_sum (map (fun r => List.length (field_get (vulnerabilities r) []))
                  reports).
Proof.
  induction reports as [| r rs IH]; simpl; [reflexivity |].
  now rewrite length_app, IH.
Qed.

End DashboardFacts.

(** X24. When [get_dashboard_stats] returns, its overall statistics and
    its trend agree: the overall count of each of the levels [critical],
    [high], [medium] and [low] is the sum of that level's trend sequence,
    the overall total is the sum of the sizes of the stored results of
    the user's completed scans, and the trend has at most [scan_count]
    points. *)
Theorem dashboard_overall_matches_trend
    (now username : string)
    (active_scans : PyDict.dict Dashboard.ScanInfo)
    (scan_results : PyDict.dict ScanReport)
    (d : Dashboard.DashboardStats) :
  Dashboard.get_dashboard_stats now username active_scans scan_results = Ok d ->
  let overall := Dashboard.overall_stats d in
  let trend := Dashboard.trends d in
  let reports :=
    Spec.resolved (Dashboard.user_scan_ids username active_scans) scan_results in
  (PyDict.get_default "critical" 0 (risk_distribution overall)
   = list_sum (critical trend)
   /\ PyDict.get_default "high" 0 (risk_distribution overall)
      = list_sum (high trend)
   /\ PyDict.get_default "medium" 0 (risk_distribution overall)
      = list_sum (medium trend)
   /\ PyDict.get_default "low" 0 (risk_distribution overall)
      = list_sum (low trend))
  /\ total_vulnerabilities overall
     = list_sum (map (fun r => List.length (field_get (vulnerabilities r) []))
                     reports)
  /\ List.length (dates trend) <= Dashboard.scan_count d.
Proof.
  unfold Dashboard.get_dashboard_stats, bind.
  destruct (fold_left _ _ (Ok [])) as [all |] eqn:E; [| discriminate].
  intros H; injection H as <-. cbv zeta.
  cbn [Dashboard.overall_stats Dashboard.trends Dashboard.scan_count].
  apply extend_fold_ok in E. simpl in E.
  set (ids := Dashboard.user_scan_ids username active_scans) in *.
  rewrite trend_as_maps. cbv zeta.
  cbn [critical high medium low dates].
  repeat split.
  1-4: match goal with
       | |- PyDict.get_default ?k _ _ = _ =>
           rewrite (proj1 (distribution_lookup now all k)), E;
           apply count_level_sum
       end.
  - assert (Ht : total_vulnerabilities (StatsGenerator.generate now all)
                 = List.length all) by (destruct all; reflexivity).
    rewrite Ht, E. apply sizes_sum.
  - rewrite length_map, (resolved_length scan_results ids).
    apply filter_shorter.
Qed.

Lemma dashboard_overall_matches_trend_witness :
  exists d : Dashboard.DashboardStats,
    Dashboard.get_dashboard_stats "2024-05-02T09:00:00" "demo_user"
      Dashboard.sample_active_scans Dashboard.sample_scan_results = Ok d
    /\ PyDict.get_default "critical" 0 (risk_distribution (Dashboard.overall_stats d))
       = list_sum (critical (Dashboard.trends d))
    /\ total_vulnerabilities (Dashboard.overall_stats d) = 3
    /\ Dashboard.scan_count d = 2.
Proof.
  eexists. split; [reflexivity |].
  split; [| split; reflexivity].
  refine (proj1 (proj1 (dashboard_overall_matches_trend
                          "2024-05-02T09:00:00" "demo_user"
                          Dashboard.sample_active_scans
                          Dashboard.sample_scan_results _ eq_refl))).
Defined.

(* ================================================================== *)
(** ** Ties in the top-five summaries *)

Section Ties.
Import Permutation.

Lemma insert_desc_same_count (n : nat) (x : string * nat)
    (l : list (string * nat)) :
  filter (fun e => snd e =? n) (Py.insert_desc x l)
  = filter (fun e => snd e =? n) (x :: l).
Proof.
  induction l as [| y l IH]; [reflexivity |].
  cbn [Py.insert_desc]. destruct (snd x <? snd y) eqn:E; [| reflexivity].
  apply Nat.ltb_lt in E. cbn [filter]. rewrite IH. cbn [filter].
  destruct (snd x =? n) eqn:Ex, (snd y =? n) eqn:Ey; try reflexivity.
  apply Nat.eqb_eq in Ex, Ey. lia.
Qed.

(** The sort is stable: entries of equal count keep their order. *)
Lemma sorted_same_count (n : nat) (items : list (string * nat)) :
  filter (fun e => snd e =? n) (Py.sorted_by_count_desc items)
  = filter (fun e => snd e =? n) items.
Proof.
  induction items as [| x l IH]; [reflexivity |].
  cbn [Py.sorted_by_count_desc fold_right].
  rewrite insert_desc_same_count. cbn [filter].
  unfold Py.sorted_by_count_desc in IH. now rewrite IH.
Qed.

Lemma top_five_ties (n : nat) (d : PyDict.dict nat) :
  NoDup (PyDict.keys d) ->
  exists rest,
    filter (fun e => snd e =? n) d
    = filter (fun e => snd e =? n)
        (PyDict.of_items (firstn 5 (Py.sorted_by_count_desc d))) ++ rest.
Proof.
  intros Hd.
  set (sorted := Py.sorted_by_count_desc d).
  assert (Hsplit : firstn 5 sorted ++ skipn 5 sorted = sorted)
    by apply firstn_skipn.
  assert (Hnd5 : NoDup (PyDict.keys (firstn 5 sorted))).
  { assert (Hnd : NoDup (PyDict.keys sorted)).
    { unfold PyDict.keys. apply (Permutation_NoDup (l := map fst d)); [| exact Hd].
      apply Permutation_map. symmetry. apply sorted_perm. }
    rewrite <- Hsplit in Hnd. unfold PyDict.keys in *.
    rewrite map_app in Hnd. now apply NoDup_app_remove_r in Hnd. }
  rewrite of_items_distinct by exact Hnd5.
  exists (filter (fun e => snd e =? n) (skipn 5 sorted)).
  rewrite <- filter_app, Hsplit. symmetry. apply sorted_same_count.
Qed.

End Ties.

(** X25. Ties are settled by first appearance: for every count, the
    types of that count that [top_vulnerability_types] lists are the
    first ones of that count in [type_distribution], in the same order;
    and likewise for the files. *)
Theorem generate_top_five_ties (now : string) (findings : list Finding) (n : nat) :
  let stats := StatsGenerator.generate now findings in
  (exists rest,
      filter (fun e => snd e =? n) (type_distribution stats)
      = filter (fun e => snd e =? n) (top_vulnerability_types stats) ++ rest)
  /\ (exists rest,
         filter (fun e => snd e =? n) (Py.Counter (map Reading.file_of findings))
         = filter (fun e => snd e =? n) (top_vulnerable_files stats) ++ rest).
Proof.
  destruct findings as [| v vs].
  - cbn. split; exists []; reflexivity.
  - cbv zeta. unfold StatsGenerator.generate.
    cbn [top_vulnerability_types type_distribution top_vulnerable_files].
    split; apply top_five_ties, NoDup_keys_Counter.
Qed.

(* ================================================================== *)
(** ** The order of a distribution *)

Section Order.

Lemma filter_twice {A : Type} (f g : A -> bool) (l : list A) :
  filter f (filter g l) = filter (fun x => f x && g x) l.
Proof.
  induction l as [| x l IH]; simpl; [reflexivity |].
  destruct (g x); simpl; rewrite ?IH; [| now rewrite andb_false_r].
  rewrite andb_true_r. reflexivity.
Qed.

Lemma keys_counter_add (c : PyDict.dict nat) (x : string) :
  PyDict.keys (Py.counter_add c x)
  = if existsb (String.eqb x) (PyDict.keys c) then PyDict.keys c
    else PyDict.keys c ++ [x].
Proof.
  unfold Py.counter_add. rewrite keys_set. unfold PyDict.mem.
  destruct (PyDict.get x c) eqn:E.
  - assert (Hin : In x (PyDict.keys c)).
    { destruct (in_dec string_dec x (PyDict.keys c)) as [H | H]; [exact H |].
      apply get_None_not_key in H. congruence. }
    assert (Hex : existsb (String.eqb x) (PyDict.keys c) = true).
    { apply existsb_exists. exists x. split; [exact Hin | apply String.eqb_refl]. }
    now rewrite Hex.
  - apply get_None_not_key in E.
    destruct (existsb (String.eqb x) (PyDict.keys c)) eqn:Hex; [| reflexivity].
    apply existsb_exists in Hex as (y & Hy & Heq).
    apply String.eqb_eq in Heq. subst y. contradiction.
Qed.

Lemma keys_fold_counter (xs : list string) (c : PyDict.dict nat) :
  PyDict.keys (fold_left Py.counter_add xs c)
  = PyDict.keys c
    ++ filter (fun y => negb (existsb (String.eqb y) (PyDict.keys c)))
              (Reading.first_seen xs).
Proof.
  revert c; induction xs as [| x xs IH]; intros c; cbn [fold_left Reading.first_seen].
  - simpl. now rewrite app_nil_r.
  - rewrite IH, keys_counter_add. cbn [filter].
    destruct (existsb (String.eqb x) (PyDict.keys c)) eqn:Hex; cbn [negb].
    + f_equal. rewrite filter_twice. apply filter_ext_in. intros y _.
      destruct (existsb (String.eqb y) (PyDict.keys c)) eqn:Hy; [reflexivity |].
      simpl. destruct (String.eqb y x) eqn:Eyx; [| reflexivity].
      apply String.eqb_eq in Eyx. subst y. congruence.
    + rewrite <- app_assoc. cbn [app]. do 2 f_equal.
      rewrite filter_twice. apply filter_ext_in. intros y _.
      rewrite existsb_app. cbn [existsb]. rewrite orb_false_r.
      now rewrite negb_orb.
Qed.

Lemma keys_Counter (xs : list string) :
  PyDict.keys (Py.Counter xs) = Reading.first_seen xs.
Proof.
  unfold Py.Counter. rewrite keys_fold_counter. simpl.
  induction (Reading.first_seen xs) as [| y l IH]; simpl; congruence.
Qed.

Lemma dict_from_keys (f : string -> nat) (d : PyDict.dict nat) :
  (forall k n, In (k, n) d -> n = f k) ->
  d = map (fun k => (k, f k)) (PyDict.keys d).
Proof.
  unfold PyDict.keys.
  induction d as [| [k n] d IH]; intros H; simpl; [reflexivity |].
  rewrite <- IH by (intros k' n' Hin; apply H; now right).
  now rewrite <- (H k n (or_introl eq_refl)).
Qed.

(** [Counter(xs)], entry by entry and in order. *)
Lemma Counter_tally (xs : list string) : Py.Counter xs = Reading.tally xs.
Proof.
  unfold Reading.tally. rewrite <- keys_Counter.
  apply dict_from_keys. intros k n Hin.
  now apply Counter_entries in Hin.
Qed.

End Order.

(** X26. The distributions in full: [risk_distribution] lists the
    lower-cased risk levels of the findings in the order in which they
    first appear, each with its number of occurrences, and
    [type_distribution] does the same with the types. *)
Theorem generate_distribution_order (now : string) (findings : list Finding) :
  let stats := StatsGenerator.generate now findings in
  risk_distribution stats = Reading.tally (map Spec.level_of findings)
  /\ type_distribution stats = Reading.tally (map Reading.type_of findings).
Proof.
  destruct findings as [| v vs]; [split; reflexivity |].
  cbv zeta. unfold StatsGenerator.generate.
  cbn [risk_distribution type_distribution].
  split; apply Counter_tally.
Qed.
